(** * DockGenAI backend: the container build pipeline

    A shallow embedding of [ContainerBuildEngine] (services/DockerService):
    [buildImage], [createFallbackBuild] and the private helpers they call,
    over an explicit model of the three things the engine talks to: the file
    system ([fs.promises]), child processes ([execAsync]) and the uuid
    generator.  Console logging has no effect on any result and is left out.

    Further down are the queries of the image store, the engine once more
    over an environment in which child processes may change files and the
    removal of the workspace may be refused ([Open]), and
    [RepositoryDataProvider] (services/GitHubService). *)

From Stdlib Require Import Ascii String.
From stdpp Require Import gmap strings list fin_maps.

Set Default Proof Using "Type".
#[local] Set Warnings "-clear-no-such-hyp".

(** ** Strings *)

Module Str.

(** The double quote and the line feed, which the string literals of the
    source contain. *)
Definition dq : string := String (Ascii.ascii_of_nat 34) EmptyString.
Definition nl : string := String (Ascii.ascii_of_nat 10) EmptyString.

(** [s.includes(sub)]: [sub] occurs in [s] at some position. *)
Fixpoint includes (sub s : string) : bool :=
  String.prefix sub s ||
  match s with
  | EmptyString => false
  | String _ s' => includes sub s'
  end.

(** [s.trim()]: white space is removed from both ends.  Strings are byte
    strings here, so white space is the ASCII part of what JavaScript
    strips: tab, line feed, vertical tab, form feed, carriage return and
    space. *)
Fixpoint trimStart (s : string) : string :=
  match s with
  | EmptyString => EmptyString
  | String a s' => if Ascii.is_space a then trimStart s' else s
  end.

Definition trimEnd (s : string) : string :=
  String.rev (trimStart (String.rev s)).

Definition trim (s : string) : string := trimEnd (trimStart s).

(** Truthiness of a string: only the empty string is falsy. *)
Definition truthy (s : string) : bool :=
  match s with EmptyString => false | String _ _ => true end.

(** [parts.join(sep)] *)
Fixpoint join (sep : string) (parts : list string) : string :=
  match parts with
  | [] => EmptyString
  | [p] => p
  | p :: rest => p +:+ sep +:+ join sep rest
  end.

(** [s.split(sep)] for a one-character separator. *)
Fixpoint split_go (sep : Ascii.ascii) (cur : string) (s : string) : list string :=
  match s with
  | EmptyString => [String.rev cur]
  | String a s' =>
      if Ascii.eqb a sep then String.rev cur :: split_go sep EmptyString s'
      else split_go sep (String a cur) s'
  end.

Definition split (sep : Ascii.ascii) (s : string) : list string :=
  split_go sep EmptyString s.

End Str.

(** ** Paths

    Every path the engine handles is [path.join] of the absolute
    [process.cwd()] with further segments, hence absolute and normalised.
    Such a path is its list of segments: ["/app/temp"] is [["app"; "temp"]]
    and ["/"] is [[]]. *)

Module Path.

Abbreviation t := (list string).

(** One step of POSIX normalisation: an empty segment and ["."] are
    dropped, [".."] drops the last segment (and stays at the root). *)
Definition push (p : t) (seg : string) : t :=
  if decide (seg = EmptyString) then p
  else if decide (seg = ".") then p
  else if decide (seg = "..") then removelast p
  else p ++ [seg].

(** [path.join(base, s)] for an absolute, normalised [base]. *)
Definition join (base : t) (s : string) : t :=
  foldl push base (Str.split "/"%char s).

(** [path.dirname] *)
Definition dirname (p : t) : t := removelast p.

(** The path as the string the runtime prints in its messages. *)
Definition to_string (p : t) : string :=
  match p with
  | [] => "/"
  | _ => "/" +:+ Str.join "/" p
  end.

End Path.

(** ** The file system *)

Inductive Node : Type :=
  | Dir
  | File (content : string).

#[global] Instance Node_eq_dec : EqDecision Node.
Proof. solve_decision. Defined.

Module FS.

Abbreviation t := (gmap (list string) Node).

Definition isDir (m : t) (p : Path.t) : bool :=
  match m !! p with Some Dir => true | _ => false end.

Definition isFile (m : t) (p : Path.t) : bool :=
  match m !! p with Some (File _) => true | _ => false end.

Definition exists_ (m : t) (p : Path.t) : bool :=
  match m !! p with Some _ => true | None => false end.

(** The path and all its ancestors, the root included. *)
Fixpoint ancestors_or_self (p : Path.t) : list Path.t :=
  match p with
  | [] => [[]]
  | seg :: rest => [] :: map (cons seg) (ancestors_or_self rest)
  end.

(** The ancestors proper, from the root down. *)
Definition ancestors (p : Path.t) : list Path.t :=
  match p with
  | [] => []
  | _ => ancestors_or_self (Path.dirname p)
  end.

Definition ENOENT := "ENOENT: no such file or directory".
Definition ENOTDIR := "ENOTDIR: not a directory".
Definition EEXIST := "EEXIST: file already exists".
Definition EISDIR := "EISDIR: illegal operation on a directory".

(** Walking down to the parent of [p]: the first ancestor that is not a
    directory stops the walk, with [ENOTDIR] when it is a file and [ENOENT]
    when it is not there. *)
Definition walk (m : t) (p : Path.t) : option string :=
  match List.find (λ q, negb (isDir m q)) (ancestors p) with
  | Some q => Some (if isFile m q then ENOTDIR else ENOENT)
  | None => None
  end.

(** [p] is a directory one can walk to. *)
Definition reachable (m : t) (p : Path.t) : Prop :=
  Forall (λ q, m !! q = Some Dir) (ancestors_or_self p).

(** Something is at [p] and one can walk to it. *)
Definition present (m : t) (p : Path.t) : bool :=
  match walk m p with
  | Some _ => false
  | None => exists_ m p
  end.

(** Everything at or below [p] is removed. *)
Definition remove_tree (m : t) (p : Path.t) : t :=
  filter (λ kv, ¬ p `prefix_of` kv.1) m.

End FS.

(** ** JSON values and [JSON.stringify(value, null, 2)]

    [repositoryData.packageJson] is the result of [JSON.parse] (or [null]),
    so it is a JSON value.  Numbers are the integers. *)

#[warnings="-register-all"]
Inductive Json : Type :=
  | JNull
  | JBool (b : bool)
  | JNum (n : Z)
  | JStr (s : string)
  | JArr (items : list Json)
  | JObj (members : list (string * Json)).

Module JSON.

(** Truthiness of a value, as the condition of an [if]. *)
Definition truthy (v : Json) : bool :=
  match v with
  | JNull => false
  | JBool b => b
  | JNum n => negb (n =? 0)%Z
  | JStr s => Str.truthy s
  | JArr _ | JObj _ => true
  end.

Definition hex_digit (n : nat) : string :=
  String (Ascii.ascii_of_nat (if n <? 10 then 48 + n else 87 + n)) EmptyString.

Definition escape_char (a : Ascii.ascii) : string :=
  let n := Ascii.nat_of_ascii a in
  if n =? 34 then "\" +:+ Str.dq
  else if n =? 92 then "\\"
  else if n =? 8 then "\b"
  else if n =? 9 then "\t"
  else if n =? 10 then "\n"
  else if n =? 12 then "\f"
  else if n =? 13 then "\r"
  else if n <? 32 then "\u00" +:+ hex_digit (n / 16) +:+ hex_digit (n mod 16)
  else String a EmptyString.

Fixpoint escape (s : string) : string :=
  match s with
  | EmptyString => EmptyString
  | String a s' => escape_char a +:+ escape s'
  end.

Definition quote (s : string) : string := Str.dq +:+ escape s +:+ Str.dq.

Definition digit (n : nat) : string :=
  String (Ascii.ascii_of_nat (48 + n)) EmptyString.

Fixpoint digits_go (fuel n : nat) (acc : string) : string :=
  match fuel with
  | 0 => acc
  | S fuel' =>
      let acc' := digit (n mod 10) +:+ acc in
      if n <? 10 then acc' else digits_go fuel' (n / 10) acc'
  end.

Definition number (n : Z) : string :=
  let m := Z.to_nat (Z.abs n) in
  (if (n <? 0)%Z then "-" else EmptyString) +:+ digits_go (S m) m EmptyString.

(** The value printed at indentation [ind], with a gap of two spaces. *)
Fixpoint print (ind : string) (v : Json) : string :=
  let ind' := ind +:+ "  " in
  match v with
  | JNull => "null"
  | JBool true => "true"
  | JBool false => "false"
  | JNum n => number n
  | JStr s => quote s
  | JArr [] => "[]"
  | JArr items =>
      "[" +:+ Str.nl +:+
      (fix each (l : list Json) : string :=
         match l with
         | [] => EmptyString
         | [x] => ind' +:+ print ind' x
         | x :: rest => ind' +:+ print ind' x +:+ "," +:+ Str.nl +:+ each rest
         end) items
      +:+ Str.nl +:+ ind +:+ "]"
  | JObj [] => "{}"
  | JObj members =>
      "{" +:+ Str.nl +:+
      (fix each (l : list (string * Json)) : string :=
         match l with
         | [] => EmptyString
         | [(k, x)] => ind' +:+ quote k +:+ ": " +:+ print ind' x
         | (k, x) :: rest =>
             ind' +:+ quote k +:+ ": " +:+ print ind' x +:+ "," +:+ Str.nl +:+ each rest
         end) members
      +:+ Str.nl +:+ ind +:+ "}"
  end.

(** [JSON.stringify(v, null, 2)] *)
Definition stringify (v : Json) : string := print EmptyString v.

End JSON.

(** ** Exceptions, processes and the world *)

(** What a [catch] clause receives: an [Error] object with its [message],
    or some other thrown value ([error instanceof Error] tells them apart). *)
Inductive Thrown : Type :=
  | ErrorObj (message : string)
  | NonError.

Inductive Completion (A : Type) : Type :=
  | Normal (a : A)
  | Abrupt (e : Thrown).
Arguments Normal {A} a.
Arguments Abrupt {A} e.

(** How a child process ends: it exits with a status, or it is killed, which
    is what [exec] does to it when the [timeout] of the call fires. *)
Inductive ProcessOutcome : Type :=
  | Exited (code : Z) (stdout stderr : string)
  | Killed (stdout stderr : string).

Record ExecOptions : Type := {
  cwd : option Path.t;
  timeout : option Z
}.

Definition noOptions : ExecOptions := {| cwd := None; timeout := None |}.

(** The state outside the engine: the file system, and how many child
    processes have been started and uuids drawn so far. *)
Record World : Type := {
  files : gmap (list string) Node;
  spawned : nat;
  drawn : nat
}.

Definition with_files (m : gmap (list string) Node) (w : World) : World :=
  {| files := m; spawned := spawned w; drawn := drawn w |}.

Definition started (w : World) : World :=
  {| files := files w; spawned := S (spawned w); drawn := drawn w |}.

Definition drew (w : World) : World :=
  {| files := files w; spawned := spawned w; drawn := S (drawn w) |}.

(** An awaited computation: it ends normally or by a throw, and the effects
    it had before a throw stay. *)
Definition Async (A : Type) : Type := World → Completion A * World.

#[global] Instance Async_ret : MRet Async := λ A a w, (Normal a, w).

#[global] Instance Async_bind : MBind Async := λ A B f c w,
  match c w with
  | (Normal a, w') => f a w'
  | (Abrupt e, w') => (Abrupt e, w')
  end.

Definition throw {A : Type} (e : Thrown) : Async A := λ w, (Abrupt e, w).

(** [try { body } catch (e) { handler e }] *)
Definition try_catch {A : Type} (body : Async A) (handler : Thrown → Async A) : Async A :=
  λ w,
    match body w with
    | (Normal a, w') => (Normal a, w')
    | (Abrupt e, w') => handler e w'
    end.

(** ** [fs.promises]

    The calls fail for the structural reasons only (a missing or wrong kind
    of node on the way or at the path), with the message the runtime gives
    the error. *)

Module Fs.

Definition failure (code syscall : string) (p : Path.t) : Thrown :=
  ErrorObj (code +:+ ", " +:+ syscall +:+ " '" +:+ Path.to_string p +:+ "'").

(** [fs.promises.mkdir(p, { recursive: true })]: the directories that are
    missing on the way are made; a file on the way, or at [p], is an
    error. *)
Definition mkdir_recursive (p : Path.t) : Async unit := λ w,
  match List.find (FS.isFile (files w)) (FS.ancestors_or_self p) with
  | Some q =>
      (Abrupt (failure (if decide (q = p) then FS.EEXIST else FS.ENOTDIR) "mkdir" p), w)
  | None =>
      (Normal tt,
       with_files (foldr (λ q m, <[q:=Dir]> m) (files w) (FS.ancestors_or_self p)) w)
  end.

(** [fs.promises.writeFile(p, data)] *)
Definition writeFile (p : Path.t) (data : string) : Async unit := λ w,
  match FS.walk (files w) p with
  | Some code => (Abrupt (failure code "open" p), w)
  | None =>
      if FS.isDir (files w) p then (Abrupt (failure FS.EISDIR "open" p), w)
      else (Normal tt, with_files (<[p:=File data]> (files w)) w)
  end.

(** [fs.promises.access(p)] *)
Definition access (p : Path.t) : Async unit := λ w,
  match FS.walk (files w) p with
  | Some code => (Abrupt (failure code "access" p), w)
  | None =>
      if FS.exists_ (files w) p then (Normal tt, w)
      else (Abrupt (failure FS.ENOENT "access" p), w)
  end.

(** [fs.promises.readdir(p)] *)
Definition readdir (p : Path.t) : Async (list string) := λ w,
  match FS.walk (files w) p with
  | Some code => (Abrupt (failure code "scandir" p), w)
  | None =>
      match files w !! p with
      | None => (Abrupt (failure FS.ENOENT "scandir" p), w)
      | Some (File _) => (Abrupt (failure FS.ENOTDIR "scandir" p), w)
      | Some Dir =>
          (Normal (omap (λ q, if decide (q ≠ [] ∧ Path.dirname q = p) then last q else None)
                        (elements (dom (files w)))), w)
      end
  end.

(** [fs.promises.rm(p, { recursive: true, force: true })], when it goes
    through.  (A removal that is refused is a parameter of the engine in
    [Open].) *)
Definition rm_recursive_force (p : Path.t) : Async unit := λ w,
  (Normal tt, with_files (FS.remove_tree (files w) p) w).

End Fs.

(** ** The engine *)

Record BuildResult : Type := {
  success : bool;
  imageId : option string;
  error : option string
}.

Record ValidationResult : Type := {
  isValid : bool;
  errors : list string;
  warnings : list string;
  suggestions : list string
}.

(** The part of [repositoryData] the engine reads; [None] is a [packageJson]
    property that is not there. *)
Record RepositoryData : Type := {
  packageJson : option Json
}.

(** What the engine is run with. *)
Record Runtime : Type := {
  (** [process.cwd()] *)
  process_cwd : Path.t;
  (** the [n]-th value [uuidv4()] returns *)
  uuid_source : nat → string;
  (** how the [n]-th child process, started with this command and these
      options, ends *)
  process_outcome : nat → string → ExecOptions → ProcessOutcome;
  (** Modelled from the spec: [DockerfileValidationService.validateDockerfile],
      which the engine imports and whose source is not part of the
      repository's files here.  Section 4.1: a pure function over the text
      that always returns a verdict and never throws. *)
  validateDockerfile : string → ValidationResult
}.

Section Engine.

Variable rt : Runtime.

(** [uuidv4()] *)
Definition uuidv4 : Async string := λ w,
  (Normal (uuid_source rt (drawn w)), drew w).

(** [execAsync(command, options)], the promisified [child_process.exec]:
    it resolves with the two output streams when the process exits with
    status 0 and rejects otherwise.  A process is known by how it ends
    only: it leaves the files alone.  (Processes that change files, and
    calls that reject in other ways, are a parameter of the engine in
    [Open].) *)
Definition execAsync (command : string) (options : ExecOptions)
  : Async (string * string) := λ w,
  match process_outcome rt (spawned w) command options with
  | Exited 0 stdout stderr => (Normal (stdout, stderr), started w)
  | Exited _ _ stderr | Killed _ stderr =>
      (Abrupt (ErrorObj ("Command failed: " +:+ command +:+ Str.nl +:+ stderr)), started w)
  end.

(** [this.buildDirectory], set by the constructor. *)
Definition buildDirectory : Path.t := Path.join (process_cwd rt) "temp".

Definition initializeBuildDirectory : Async unit :=
  try_catch (Fs.mkdir_recursive buildDirectory) (λ _, mret tt).

Definition fileExists (filePath : Path.t) : Async bool :=
  try_catch (Fs.access filePath;; mret true) (λ _, mret false).

Definition cleanupBuildDir (buildWorkspace : Path.t) : Async unit :=
  try_catch (Fs.rm_recursive_force buildWorkspace) (λ _, mret tt).

Definition dockerignoreContent : string :=
"node_modules
npm-debug.log*
yarn-debug.log*
yarn-error.log*
.git
.gitignore
README.md
.env
.nyc_output
coverage
.nyc_output
.coverage
.cache
.parcel-cache
.next
.nuxt
dist
build
.tmp
.temp
*.log
*.pid
*.seed
*.pid.lock
.DS_Store
Thumbs.db
.vscode
.idea
*.swp
*.swo
*~".

Definition createDockerignore (buildWorkspace : Path.t) : Async unit :=
  let dockerignorePath := Path.join buildWorkspace ".dockerignore" in
  Fs.writeFile dockerignorePath dockerignoreContent.

Definition defaultPackageJson : Json :=
  JObj [
    ("name", JStr "dockgen-test");
    ("version", JStr "1.0.0");
    ("description", JStr "Generated by DockGen AI");
    ("main", JStr "index.js");
    ("scripts", JObj [
      ("start", JStr "node index.js");
      ("dev", JStr "node index.js");
      ("build", JStr ("echo " +:+ Str.dq +:+ "Build completed" +:+ Str.dq))
    ]);
    ("dependencies", JObj [
      ("express", JStr "^4.18.2")
    ]);
    ("engines", JObj [
      ("node", JStr ">=18.0.0")
    ])
  ].

(** [repositoryData?.packageJson] when it is truthy, the default object
    otherwise. *)
Definition createPackageJson (repositoryData : option RepositoryData) : Json :=
  match repositoryData ≫= packageJson with
  | Some pkg => if JSON.truthy pkg then pkg else defaultPackageJson
  | None => defaultPackageJson
  end.

Definition indexJsContent : string :=
"const express = require('express');
const app = express();
const port = process.env.PORT || 3000;

// Health check endpoint
app.get('/health', (req, res) => {
  res.status(200).json({ status: 'healthy', timestamp: new Date().toISOString() });
});

// Basic route
app.get('/', (req, res) => {
  res.json({ 
    message: 'Hello from DockGen AI!', 
    timestamp: new Date().toISOString(),
    version: '1.0.0'
  });
});

// Start server
app.listen(port, '0.0.0.0', () => {
  console.log(`Server is running on port ${port}`);
  console.log(`Health check available at http://localhost:${port}/health`);
});

// Graceful shutdown
process.on('SIGTERM', () => {
  console.log('SIGTERM received, shutting down gracefully');
  process.exit(0);
});

process.on('SIGINT', () => {
  console.log('SIGINT received, shutting down gracefully');
  process.exit(0);
});".

Definition createSourceFiles (buildWorkspace : Path.t)
    (repositoryData : option RepositoryData) : Async unit :=
  let indexJsPath := Path.join buildWorkspace "index.js" in
  present ← fileExists indexJsPath;
  if negb present then Fs.writeFile indexJsPath indexJsContent else mret tt.

Definition fallbackDockerfile : string :=
"# Simple Node.js Application
FROM node:18-alpine

WORKDIR /app

# Copy package files
COPY package.json ./

# Install dependencies
RUN npm install

# Copy source files
COPY . .

# Expose port (use numeric port, not environment variable)
EXPOSE 3000

# Start the application
CMD [" +:+ Str.dq +:+ "npm" +:+ Str.dq +:+ ", " +:+ Str.dq +:+ "start" +:+ Str.dq +:+ "]".

(** The tag of the image: [`dockgen-ai-${buildId}:latest`]. *)
Definition imageName (buildId : string) : string :=
  "dockgen-ai-" +:+ buildId +:+ ":latest".

Definition buildCommandFor (name : string) : string :=
  "docker build --no-cache --progress=plain -t " +:+ name +:+ " .".

Definition imagesCommandFor (name : string) : string :=
  "docker images " +:+ name +:+ " --format " +:+ Str.dq +:+ "{{.ID}}" +:+ Str.dq.

Definition buildOptions (dir : Path.t) : ExecOptions :=
  {| cwd := Some dir; timeout := Some 300000%Z |}.

Definition createFallbackBuild (originalDockerfileContent buildId : string)
    (repositoryData : option RepositoryData) : Async BuildResult :=
  try_catch
    (let fallbackBuildDir := Path.join buildDirectory buildId in
     let dockerfilePath := Path.join fallbackBuildDir "Dockerfile" in
     Fs.writeFile dockerfilePath fallbackDockerfile;;
     let fallbackImageName := imageName buildId in
     let buildCommand := buildCommandFor fallbackImageName in
     '(stdout, stderr) ← execAsync buildCommand (buildOptions fallbackBuildDir);
     '(imagesOutput, _) ← execAsync (imagesCommandFor fallbackImageName) noOptions;
     let fallbackImageId := Str.trim imagesOutput in
     (if negb (Str.truthy fallbackImageId)
      then throw (ErrorObj "Fallback Docker image was not created successfully")
      else mret tt);;
     mret {| success := true; imageId := Some fallbackImageName; error := None |})
    (λ e,
       mret {| success := false;
               imageId := None;
               error := Some ("Both original and fallback builds failed: " +:+
                              match e with
                              | ErrorObj message => message
                              | NonError => "Unknown error"
                              end) |}).

(** Lines 106 to 121 of [buildImage]: the build context is written into
    the workspace. *)
Definition assembleWorkspace (buildWorkspace : Path.t) (dockerfileContent : string)
    (repositoryData : option RepositoryData) : Async unit :=
  let dockerfilePath := Path.join buildWorkspace "Dockerfile" in
  Fs.writeFile dockerfilePath dockerfileContent;;
  createDockerignore buildWorkspace;;
  let packageJsonPath := Path.join buildWorkspace "package.json" in
  present ← fileExists packageJsonPath;
  (if negb present
   then
     let packageJsonData := createPackageJson repositoryData in
     Fs.writeFile packageJsonPath (JSON.stringify packageJsonData)
   else mret tt);;
  createSourceFiles buildWorkspace repositoryData.

(** Lines 141 to 147 of [buildImage]: what the diagnostic stream of the
    build decides. *)
Definition checkStderr (stderr : string) : Async unit :=
  if Str.truthy stderr then
    if Str.includes "ERROR" stderr && negb (Str.includes "Successfully built" stderr)
    then throw (ErrorObj ("Docker build failed: " +:+ stderr))
    else mret tt
  else mret tt.

Definition buildImage (dockerfileContent buildId : string)
    (repositoryData : option RepositoryData) : Async BuildResult :=
  try_catch
    (uniqueBuildId ← uuidv4;
     let buildWorkspace := Path.join buildDirectory uniqueBuildId in
     Fs.mkdir_recursive buildWorkspace;;
     let validationResult := validateDockerfile rt dockerfileContent in
     if negb (isValid validationResult) then
       createFallbackBuild dockerfileContent buildId repositoryData
     else
       assembleWorkspace buildWorkspace dockerfileContent repositoryData;;
       let containerImageName := imageName buildId in
       let buildCommand := buildCommandFor containerImageName in
       _ ← Fs.readdir buildWorkspace;
       '(stdout, stderr) ← execAsync buildCommand (buildOptions buildWorkspace);
       checkStderr stderr;;
       '(imagesOutput, _) ← execAsync (imagesCommandFor containerImageName) noOptions;
       let containerImageId := Str.trim imagesOutput in
       (if negb (Str.truthy containerImageId)
        then throw (ErrorObj "Docker image was not created successfully")
        else mret tt);;
       cleanupBuildDir buildWorkspace;;
       mret {| success := true; imageId := Some containerImageName; error := None |})
    (λ e,
       mret {| success := false;
               imageId := None;
               error := Some match e with
                             | ErrorObj message => message
                             | NonError => "Unknown Docker build error"
                             end |}).

End Engine.

(** ** The image store

    The three queries of the engine and its health check.  [JSON.parse] is
    the runtime's: it returns the value or throws. *)

Section Registry.

Variable rt : Runtime.
Variable JSON_parse : string → Completion Json.

(** [null] stands for the value a failed inspection returns. *)
Definition getImageInfo (containerImageName : string) : Async Json :=
  try_catch
    ('(stdout, _) ← execAsync rt ("docker inspect " +:+ containerImageName) noOptions;
     match JSON_parse stdout with
     | Normal v => mret v
     | Abrupt e => throw e
     end)
    (λ _, mret JNull).

Definition listImagesCommand : string :=
  "docker images --format " +:+ Str.dq +:+ "{{.Repository}}:{{.Tag}}" +:+ Str.dq.

Definition listImages : Async (list string) :=
  try_catch
    ('(stdout, _) ← execAsync rt listImagesCommand noOptions;
     mret (List.filter (λ line, Str.includes "dockgen-ai" line)
             (Str.split (Ascii.ascii_of_nat 10) (Str.trim stdout))))
    (λ _, mret []).

Definition deleteImage (containerImageName : string) : Async bool :=
  try_catch
    (execAsync rt ("docker rmi " +:+ containerImageName) noOptions;;
     mret true)
    (λ _, mret false).

Definition isDockerAvailable : Async bool :=
  try_catch
    (execAsync rt "docker --version" noOptions;;
     mret true)
    (λ _, mret false).

End Registry.

(** ** The engine over its environment

    What a child process does to the file system, and whether the removal
    of the workspace goes through, is not the engine's to decide: the
    command line goes to a shell, and [fs.promises.rm] can be refused.
    Here are [buildImage], [createFallbackBuild] and [cleanupBuildDir] once
    more, word for word, with [execAsync] and the removal taken as
    parameters: a call of [execAsync] is any computation (it may change
    files, and reject with any error), and so is the removal.  With the
    [execAsync] and the removal of the sections above these are the
    definitions above. *)

Module Open.

Section Open.

Variable rt : Runtime.
Variable execAsync : string → ExecOptions → Async (string * string).
Variable rm_recursive_force : Path.t → Async unit.

Definition cleanupBuildDir (buildWorkspace : Path.t) : Async unit :=
  try_catch (rm_recursive_force buildWorkspace) (λ _, mret tt).

Definition createFallbackBuild (originalDockerfileContent buildId : string)
    (repositoryData : option RepositoryData) : Async BuildResult :=
  try_catch
    (let fallbackBuildDir := Path.join (buildDirectory rt) buildId in
     let dockerfilePath := Path.join fallbackBuildDir "Dockerfile" in
     Fs.writeFile dockerfilePath fallbackDockerfile;;
     let fallbackImageName := imageName buildId in
     let buildCommand := buildCommandFor fallbackImageName in
     '(stdout, stderr) ← execAsync buildCommand (buildOptions fallbackBuildDir);
     '(imagesOutput, _) ← execAsync (imagesCommandFor fallbackImageName) noOptions;
     let fallbackImageId := Str.trim imagesOutput in
     (if negb (Str.truthy fallbackImageId)
      then throw (ErrorObj "Fallback Docker image was not created successfully")
      else mret tt);;
     mret {| success := true; imageId := Some fallbackImageName; error := None |})
    (λ e,
       mret {| success := false;
               imageId := None;
               error := Some ("Both original and fallback builds failed: " +:+
                              match e with
                              | ErrorObj message => message
                              | NonError => "Unknown error"
                              end) |}).

Definition buildImage (dockerfileContent buildId : string)
    (repositoryData : option RepositoryData) : Async BuildResult :=
  try_catch
    (uniqueBuildId ← uuidv4 rt;
     let buildWorkspace := Path.join (buildDirectory rt) uniqueBuildId in
     Fs.mkdir_recursive buildWorkspace;;
     let validationResult := validateDockerfile rt dockerfileContent in
     if negb (isValid validationResult) then
       createFallbackBuild dockerfileContent buildId repositoryData
     else
       assembleWorkspace buildWorkspace dockerfileContent repositoryData;;
       let containerImageName := imageName buildId in
       let buildCommand := buildCommandFor containerImageName in
       _ ← Fs.readdir buildWorkspace;
       '(stdout, stderr) ← execAsync buildCommand (buildOptions buildWorkspace);
       checkStderr stderr;;
       '(imagesOutput, _) ← execAsync (imagesCommandFor containerImageName) noOptions;
       let containerImageId := Str.trim imagesOutput in
       (if negb (Str.truthy containerImageId)
        then throw (ErrorObj "Docker image was not created successfully")
        else mret tt);;
       cleanupBuildDir buildWorkspace;;
       mret {| success := true; imageId := Some containerImageName; error := None |})
    (λ e,
       mret {| success := false;
               imageId := None;
               error := Some match e with
                             | ErrorObj message => message
                             | NonError => "Unknown Docker build error"
                             end |}).

End Open.

End Open.

(** ** The repository data provider (services/GitHubService)

    [RepositoryDataProvider] reads a repository through the GitHub API and
    commits the Dockerfile to it.  More of JavaScript's strings first. *)

Module Js.

Fixpoint skip (n : nat) (s : string) : string :=
  match n, s with
  | S n', String _ s' => skip n' s'
  | _, _ => s
  end.

(** [s.replace(pattern, replacement)] for a string pattern: the first
    occurrence is replaced.  The replacement is taken as it is; the source
    replaces by the empty string only. *)
Fixpoint replace (pattern replacement s : string) : string :=
  if String.prefix pattern s then replacement +:+ skip (String.length pattern) s
  else match s with
       | EmptyString => EmptyString
       | String a s' => String a (replace pattern replacement s')
       end.

(** [s.endsWith(suffix)] *)
Fixpoint endsWith (suffix s : string) : bool :=
  String.eqb s suffix ||
  match s with
  | EmptyString => false
  | String _ s' => endsWith suffix s'
  end.

(** A string that may be [undefined]: in a condition, in a template
    literal, and on the left of [||]. *)
Definition truthy (v : option string) : bool :=
  match v with Some s => Str.truthy s | None => false end.

Definition show (v : option string) : string := default "undefined" v.

Definition or_else (v : option string) (d : string) : string :=
  if truthy v then show v else d.

End Js.

Module GitHub.

(** *** Requests and replies

    A request is logged with what it sends.  What comes back is not the
    engine's to decide, so every call takes the reply it will get as an
    argument: axios resolves with a status and the data, or rejects.  The
    data are typed as the API documents them, with the fields the source
    reads. *)

Inductive Method : Type := GET | PUT.

Record Headers : Type := {
  Authorization : string;
  Accept : string
}.

Record Request : Type := {
  method : Method;
  url : string;
  headers : Headers;
  body : option Json
}.

(** What can be caught: an axios error, with the status of the response if
    there was one, another [Error], or a value that is not an [Error]. *)
Inductive Failure : Type :=
  | AxiosError (status : option Z) (message : string)
  | PlainError (message : string)
  | NotAnError.

Inductive Reply (D : Type) : Type :=
  | Resolved (status : Z) (data : D)
  | Rejected (e : Failure).
Arguments Resolved {D} status data.
Arguments Rejected {D} e.

Inductive Outcome (A : Type) : Type :=
  | Returned (a : A)
  | Threw (e : Failure).
Arguments Returned {A} a.
Arguments Threw {A} e.

(** An asynchronous computation: it appends the requests it sends to the
    log, and returns or throws. *)
Definition Net (A : Type) : Type := list Request → Outcome A * list Request.

#[global] Instance Net_ret : MRet Net := λ A a log, (Returned a, log).

#[global] Instance Net_bind : MBind Net := λ A B f c log,
  match c log with
  | (Returned a, log') => f a log'
  | (Threw e, log') => (Threw e, log')
  end.

Definition throw {A : Type} (e : Failure) : Net A := λ log, (Threw e, log).

Definition try_catch {A : Type} (body : Net A) (handler : Failure → Net A) : Net A :=
  λ log,
    match body log with
    | (Returned a, log') => (Returned a, log')
    | (Threw e, log') => handler e log'
    end.

Definition send (r : Request) : Net unit := λ log, (Returned tt, log ++ [r]).

(** The response object: [status] and [data]. *)
Definition settle {D : Type} (reply : Reply D) : Net (Z * D) :=
  match reply with
  | Resolved status data => mret (status, data)
  | Rejected e => throw e
  end.

(** [axios.get(url, { headers })] and [axios.put(url, data, { headers })] *)
Definition axios_get {D : Type} (url : string) (headers : Headers) (reply : Reply D) :
    Net (Z * D) :=
  send {| method := GET; url := url; headers := headers; body := None |};;
  settle reply.

Definition axios_put {D : Type} (url : string) (data : Json) (headers : Headers)
    (reply : Reply D) : Net (Z * D) :=
  send {| method := PUT; url := url; headers := headers; body := Some data |};;
  settle reply.

(** The repository object of the API; [None] is [null]. *)
Module Repo.
Record t : Type := {
  name : string;
  full_name : string;
  description : option string;
  language : option string;
  default_branch : string
}.
End Repo.

(** An item of a directory listing.  A file carries the reply to the
    request for its [download_url], a directory the reply to the request
    for its listing, which are used if the request is made.  Items of other
    types (links, submodules) are passed over. *)
#[warnings="-register-all"]
Inductive Item : Type :=
  | FileItem (name path download_url : string) (fileResponse : Reply Json)
  | DirItem (path : string) (dirResponse : Reply (list Item))
  | OtherItem.

Inductive EntryType : Type := file | dir.

(** An element of [files]. *)
Module Entry.
Record t : Type := {
  name : string;
  path : string;
  content : Json;
  type : EntryType
}.
End Entry.

Record RepositoryData : Type := {
  name : string;
  fullName : string;
  description : string;
  language : string;
  defaultBranch : string;
  files : list Entry.t;
  packageJson : Json;
  dependencies : list string;
  devDependencies : list string;
  scripts : Json
}.

(** [v.key] for a value that is not [null]: [None] is [undefined].  The
    members of an object have distinct keys. *)
Definition get (key : string) (v : Json) : option Json :=
  match v with
  | JObj members => snd <$> List.find (λ kv, String.eqb kv.1 key) members
  | _ => None
  end.

(** [v || {}] for a property that may be [undefined]. *)
Definition or_empty (v : option Json) : Json :=
  match v with
  | Some x => if JSON.truthy x then x else JObj []
  | None => JObj []
  end.

Definition apiEndpoint : string := "https://api.github.com".

(** [repositoryUrl.replace('https://github.com/', '').split('/')] *)
Definition urlParts (repositoryUrl : string) : list string :=
  Str.split "/" (Js.replace "https://github.com/" EmptyString repositoryUrl).

Definition importantFiles : list string :=
  ["package.json"; "package-lock.json"; "yarn.lock"; "Dockerfile"; "docker-compose.yml";
   "README.md"; "index.js"; "index.ts"; "app.js"; "app.ts"; "server.js"; "server.ts";
   "main.js"; "main.ts"].

(** The condition of line 241. *)
Definition fetched (name : string) : bool :=
  existsb (String.eqb name) importantFiles || Js.endsWith ".json" name
  || Js.endsWith ".js" name || Js.endsWith ".ts" name.

(** The condition of line 262. *)
Definition listed (path : string) : bool :=
  length (Str.split "/" path) <=? 3.

Definition fallbackPackageJsonData (repositoryName : option string) : Json :=
  JObj [
    ("name", JStr (Js.or_else repositoryName "app"));
    ("version", JStr "1.0.0");
    ("description", JStr "Generated application");
    ("main", JStr "index.js");
    ("scripts", JObj [
      ("start", JStr "node index.js");
      ("dev", JStr "node index.js")
    ]);
    ("dependencies", JObj [
      ("express", JStr "^4.18.0")
    ]);
    ("devDependencies", JObj [
      ("nodemon", JStr "^2.0.0")
    ])
  ].

Definition generateFallbackRepositoryData (repositoryUrl : string) : RepositoryData :=
  let urlParts := urlParts repositoryUrl in
  let repositoryOwner := urlParts !! 0 in
  let repositoryName := urlParts !! 1 in
  let fallbackPackageJsonData := fallbackPackageJsonData repositoryName in
  {| name := Js.or_else repositoryName "app";
     fullName := Js.show repositoryOwner +:+ "/" +:+ Js.show repositoryName;
     description := "Fallback repository data";
     language := "JavaScript";
     defaultBranch := "main";
     dependencies := ["express"];
     devDependencies := ["nodemon"];
     scripts := JObj [("start", JStr "node index.js"); ("dev", JStr "node index.js")];
     packageJson := fallbackPackageJsonData;
     files := [
       {| Entry.name := "package.json"; Entry.path := "package.json";
          Entry.content := JStr (JSON.stringify fallbackPackageJsonData);
          Entry.type := file |};
       {| Entry.name := "index.js"; Entry.path := "index.js";
          Entry.content := JStr ("console.log(" +:+ Str.dq +:+ "Hello World" +:+ Str.dq +:+ ");");
          Entry.type := file |}
     ] |}.

Section Provider.

Variable authenticationToken : string.

(** [JSON.parse], [JSON.stringify] with one argument, [Object.keys] and
    [Buffer.from(s).toString('base64')], which the runtime provides. *)
Variable JSON_parse : string → Completion Json.
Variable JSON_stringify : Json → string.
Variable Object_keys : Json → list string.
Variable base64 : string → string.

Definition requestHeaders : Headers :=
  {| Authorization := "token " +:+ authenticationToken;
     Accept := "application/vnd.github.v3+json" |}.

(** The loop body of [processRepositoryFiles], for one item.  The call for
    a listing is [axios.get] written out ([send] and then the reply), so
    that the recursion goes into the items of the reply. *)
Fixpoint processItem (repositoryOwner repositoryName : string) (item : Item) :
    Net (list Entry.t) :=
  match item with
  | FileItem name path download_url fileResponse =>
      if fetched name then
        try_catch
          ('(_, data) ← axios_get download_url requestHeaders fileResponse;
           mret [ {| Entry.name := name; Entry.path := path;
                     Entry.content := data; Entry.type := file |} ])
          (λ _, mret [])
      else mret []
  | DirItem path dirResponse =>
      if listed path then
        try_catch
          (send {| method := GET;
                   url := apiEndpoint +:+ "/repos/" +:+ repositoryOwner +:+ "/" +:+
                          repositoryName +:+ "/contents/" +:+ path;
                   headers := requestHeaders; body := None |};;
           match dirResponse with
           | Resolved _ items =>
               (fix processRepositoryFiles (repositoryContents : list Item) :
                    Net (list Entry.t) :=
                  match repositoryContents with
                  | [] => mret []
                  | item :: rest =>
                      found ← processItem repositoryOwner repositoryName item;
                      more ← processRepositoryFiles rest;
                      mret (found ++ more)
                  end) items
           | Rejected e => throw e
           end)
          (λ _, mret [])
      else mret []
  | OtherItem => mret []
  end.

Fixpoint processRepositoryFiles (repositoryOwner repositoryName : string)
    (repositoryContents : list Item) : Net (list Entry.t) :=
  match repositoryContents with
  | [] => mret []
  | item :: rest =>
      found ← processItem repositoryOwner repositoryName item;
      more ← processRepositoryFiles repositoryOwner repositoryName rest;
      mret (found ++ more)
  end.

(** Lines 62 to 82: what is made of the file named [package.json], if
    there is one.  Reading a property of [null] throws, which the [try]
    catches like a text that does not parse; by then [packageJsonData] has
    been assigned. *)
Definition readPackageJson (packageJsonFile : option Entry.t) :
    Json * list string * list string * Json :=
  match packageJsonFile with
  | Some packageJsonFile =>
      let fileContent :=
        match Entry.content packageJsonFile with
        | JStr s => s
        | v => JSON_stringify v
        end in
      match JSON_parse fileContent with
      | Normal JNull | Abrupt _ => (JNull, [], [], JObj [])
      | Normal packageJsonData =>
          (packageJsonData,
           Object_keys (or_empty (get "dependencies" packageJsonData)),
           Object_keys (or_empty (get "devDependencies" packageJsonData)),
           or_empty (get "scripts" packageJsonData))
      end
  | None => (JNull, [], [], JObj [])
  end.

Definition errorMessage (error : Failure) : string :=
  match error with
  | AxiosError _ message | PlainError message => message
  | NotAnError => "Unknown error"
  end.

Definition retrieveRepositoryInformation (repositoryUrl : string)
    (repositoryResponse : Reply Repo.t) (contentsResponse : Reply (list Item)) :
    Net RepositoryData :=
  try_catch
    (let urlParts := urlParts repositoryUrl in
     let repositoryOwner := urlParts !! 0 in
     let repositoryName := urlParts !! 1 in
     (if negb (Js.truthy repositoryOwner) || negb (Js.truthy repositoryName)
      then throw (PlainError "Invalid GitHub URL format")
      else mret tt);;
     '(_, repositoryData) ←
       axios_get (apiEndpoint +:+ "/repos/" +:+ Js.show repositoryOwner +:+ "/" +:+
                  Js.show repositoryName)
         requestHeaders repositoryResponse;
     '(_, contents) ←
       axios_get (apiEndpoint +:+ "/repos/" +:+ Js.show repositoryOwner +:+ "/" +:+
                  Js.show repositoryName +:+ "/contents")
         requestHeaders contentsResponse;
     repositoryFiles ←
       processRepositoryFiles (Js.show repositoryOwner) (Js.show repositoryName) contents;
     let packageJsonFile :=
       List.find (λ file, String.eqb (Entry.name file) "package.json") repositoryFiles in
     let '(packageJsonData, projectDependencies, developmentDependencies, npmScripts) :=
       readPackageJson packageJsonFile in
     mret {| name := Repo.name repositoryData;
             fullName := Repo.full_name repositoryData;
             description := Js.or_else (Repo.description repositoryData) EmptyString;
             language := Js.or_else (Repo.language repositoryData) "JavaScript";
             defaultBranch := Repo.default_branch repositoryData;
             files := repositoryFiles;
             packageJson := packageJsonData;
             dependencies := projectDependencies;
             devDependencies := developmentDependencies;
             scripts := npmScripts |})
    (λ error,
       match error with
       | AxiosError (Some 404%Z) _ => throw (PlainError "Repository not found or access denied")
       | AxiosError (Some 401%Z) _ => throw (PlainError "Invalid GitHub token")
       | _ => throw (PlainError ("Failed to fetch repository: " +:+ errorMessage error))
       end).

Definition defaultCommitMessage : string := "Add Dockerfile generated by DockGen AI".

(** The body of the request that commits the file.  A [sha] that is
    [undefined] is a property that is not sent. *)
Definition commitRequestBody (dockerfileContent commitMessage : string)
    (existingDockerfile : option Json) : Json :=
  JObj ([("message", JStr commitMessage);
         ("content", JStr (base64 dockerfileContent));
         ("branch", JStr "main")] ++
        match existingDockerfile with
        | Some existing =>
            if JSON.truthy existing
            then match get "sha" existing with Some sha => [("sha", sha)] | None => [] end
            else []
        | None => []
        end).

Definition commitDockerfileToRepository (repositoryUrl dockerfileContent commitMessage : string)
    (existingResponse : Reply Json) (response : Reply Json) : Net bool :=
  try_catch
    (let urlParts := urlParts repositoryUrl in
     let repositoryOwner := urlParts !! 0 in
     let repositoryName := urlParts !! 1 in
     (if negb (Js.truthy repositoryOwner) || negb (Js.truthy repositoryName)
      then throw (PlainError "Invalid GitHub URL format")
      else mret tt);;
     let dockerfileUrl := apiEndpoint +:+ "/repos/" +:+ Js.show repositoryOwner +:+ "/" +:+
                          Js.show repositoryName +:+ "/contents/Dockerfile" in
     existingDockerfile ←
       try_catch
         ('(_, data) ← axios_get dockerfileUrl requestHeaders existingResponse;
          mret (Some data))
         (λ _, mret None);
     let commitRequestBody :=
       commitRequestBody dockerfileContent commitMessage existingDockerfile in
     '(status, _) ← axios_put dockerfileUrl commitRequestBody requestHeaders response;
     mret ((status =? 200)%Z || (status =? 201)%Z))
    (λ error,
       match error with
       | AxiosError (Some 401%Z) _ =>
           throw (PlainError "Invalid GitHub token or insufficient permissions")
       | AxiosError (Some 403%Z) _ =>
           throw (PlainError "Repository access denied or token lacks write permissions")
       | _ => throw (PlainError ("Failed to push Dockerfile: " +:+ errorMessage error))
       end).

End Provider.

End GitHub.

(** What the engine reads of the data, when they are passed to
    [buildImage] as [repositoryData]. *)
Definition engineData (d : GitHub.RepositoryData) : RepositoryData :=
  {| packageJson := Some (GitHub.packageJson d) |}.

(** * Vocabulary of the properties *)

(** A thrown value that is an [Error] with a message to show. *)
Definition described (e : Thrown) : Prop :=
  ∃ message, e = ErrorObj message ∧ message ≠ EmptyString.

(** The files of the workspace after the build context has been written. *)
Definition assembled (ws : Path.t) (text : string) (rd : option RepositoryData)
    (m : gmap (list string) Node) : gmap (list string) Node :=
  let m1 := <[ws ++ ["Dockerfile"] := File text]> m in
  let m2 := <[ws ++ [".dockerignore"] := File dockerignoreContent]> m1 in
  let m3 := if FS.exists_ m2 (ws ++ ["package.json"]) then m2
            else <[ws ++ ["package.json"] := File (JSON.stringify (createPackageJson rd))]> m2 in
  if FS.exists_ m3 (ws ++ ["index.js"]) then m3
  else <[ws ++ ["index.js"] := File indexJsContent]> m3.

(** The two shapes of a result. *)
Definition succeeded (buildId : string) : BuildResult :=
  {| success := true; imageId := Some ("dockgen-ai-" +:+ buildId +:+ ":latest"); error := None |}.

Definition failed (message : string) : BuildResult :=
  {| success := false; imageId := None; error := Some message |}.

(** The build context can be written into [ws]: one can walk to the
    workspace, and neither of the two files that are written
    unconditionally is a directory. *)
Definition assemblyReady (ws : Path.t) (w : World) : Prop :=
  FS.reachable (files w) ws ∧
  files w !! (ws ++ ["Dockerfile"]) ≠ Some Dir ∧
  files w !! (ws ++ [".dockerignore"]) ≠ Some Dir.

#[global] Instance assemblyReady_dec (ws : Path.t) (w : World) :
  Decision (assemblyReady ws w).
Proof. unfold assemblyReady, FS.reachable. apply _. Defined.

(** The prefix every failure of the fallback is reported with. *)
Definition exhausted (message : string) : BuildResult :=
  failed ("Both original and fallback builds failed: " +:+ message).

(** The contract of a result for build id [buildId]: either a success that
    carries the tag and no message, or a failure that carries a message to
    show and no tag. *)
Definition wellFormed (buildId : string) (r : BuildResult) : Prop :=
  (success r = true ∧
   imageId r = Some ("dockgen-ai-" +:+ buildId +:+ ":latest") ∧ error r = None) ∨
  (success r = false ∧
   imageId r = None ∧ ∃ message, error r = Some message ∧ message ≠ EmptyString).

(** A text of ASCII characters.  In such a text the white space that
    JavaScript's [trim] removes is the white space [Str.trim] removes. *)
Definition asciiText (s : string) : Prop :=
  Forall (λ a, Ascii.nat_of_ascii a < 128) (list_ascii_of_string s).

#[global] Instance asciiText_dec (s : string) : Decision (asciiText s).
Proof. unfold asciiText. apply _. Defined.

(** The build of the primary path fails: the process does not exit with
    status 0 (the timeout kills it, or it reports an error itself), or it
    does and its diagnostic stream is classified as an error. *)
Definition buildFails (o : ProcessOutcome) : Prop :=
  match o with
  | Exited 0 _ stderr =>
      Str.includes "ERROR" stderr && negb (Str.includes "Successfully built" stderr) = true
  | Exited _ _ _ | Killed _ _ => True
  end.

(** The message of that failure, for the command that was run. *)
Definition failureMessage (command : string) (o : ProcessOutcome) : string :=
  match o with
  | Exited 0 _ stderr => "Docker build failed: " +:+ stderr
  | Exited _ _ stderr | Killed _ stderr =>
      "Command failed: " +:+ command +:+ Str.nl +:+ stderr
  end.

Section Vocabulary.

Variable rt : Runtime.

(** The workspace of the invocation that starts in [w]. *)
Definition workspaceOf (w : World) : Path.t :=
  Path.join (buildDirectory rt) (uuid_source rt (drawn w)).

(** The invocation starting in [w] gets as far as starting the build, in
    [w2]: the workspace is created, the text is accepted and the build
    context is written. *)
Definition reachesBuild (text : string) (rd : option RepositoryData) (w w2 : World) : Prop :=
  isValid (validateDockerfile rt text) = true ∧
  ∃ w1, Fs.mkdir_recursive (workspaceOf w) (drew w) = (Normal tt, w1) ∧
        assembleWorkspace (workspaceOf w) text rd w1 = (Normal tt, w2).

(** The same, as a condition on [w] alone: the text is accepted, no file
    is in the way of the workspace, and neither of the two files that are
    written unconditionally is a directory. *)
Definition primaryReady (text : string) (w : World) : Prop :=
  isValid (validateDockerfile rt text) = true ∧
  List.find (FS.isFile (files w)) (FS.ancestors_or_self (workspaceOf w)) = None ∧
  files w !! (workspaceOf w ++ ["Dockerfile"]) ≠ Some Dir ∧
  files w !! (workspaceOf w ++ [".dockerignore"]) ≠ Some Dir.

(** The directory the fallback builds in. *)
Definition fallbackDirOf (buildId : string) : Path.t :=
  Path.join (buildDirectory rt) buildId.

(** The fallback can write its Dockerfile: one can walk to the directory
    and the Dockerfile in it is not a directory. *)
Definition fallbackReady (buildId : string) (w : World) : Prop :=
  FS.reachable (files w) (fallbackDirOf buildId) ∧
  files w !! (fallbackDirOf buildId ++ ["Dockerfile"]) ≠ Some Dir.

(** What a failure of the fallback is put down to: the Dockerfile could not
    be written, one of the two child processes did not exit with status 0,
    or the image store did not know the image. *)
Definition fallbackCause (buildId : string) (cause : string) : Prop :=
  (∃ code, code ∈ [FS.ENOENT; FS.ENOTDIR; FS.EISDIR] ∧
           Fs.failure code "open" (fallbackDirOf buildId ++ ["Dockerfile"]) = ErrorObj cause) ∨
  (∃ stderr, cause = "Command failed: " +:+ buildCommandFor (imageName buildId)
                     +:+ Str.nl +:+ stderr) ∨
  (∃ stderr, cause = "Command failed: " +:+ imagesCommandFor (imageName buildId)
                     +:+ Str.nl +:+ stderr) ∨
  cause = "Fallback Docker image was not created successfully".

#[global] Instance fallbackReady_dec (buildId : string) (w : World) :
  Decision (fallbackReady buildId w).
Proof. unfold fallbackReady, FS.reachable. apply _. Defined.

#[global] Instance primaryReady_dec (text : string) (w : World) :
  Decision (primaryReady text w).
Proof. unfold primaryReady. apply _. Defined.



(** The world in which the build is then started. *)
Definition contextWritten (text : string) (rd : option RepositoryData) (w : World) : World :=
  with_files
    (assembled (workspaceOf w) text rd
       (foldr (λ q m, <[q:=Dir]> m) (files w) (FS.ancestors_or_self (workspaceOf w))))
    (drew w).

End Vocabulary.

(** ** Sample runs

    A process directory [/app] whose engine has been constructed, a validator
    that wants a base image, and a build tool that answers from a script. *)

Module Sample.

(** Modelled from the spec: a stand-in for the validator, which knows the
    first check of section 4.1 only, the presence of a base-image
    directive. *)
Definition validator (text : string) : ValidationResult :=
  if Str.includes "FROM" text
  then {| isValid := true; errors := []; warnings := []; suggestions := [] |}
  else {| isValid := false;
          errors := ["Dockerfile must contain a FROM instruction"];
          warnings := []; suggestions := [] |}.

Definition token : string := "1b4e28ba-2fa1-41d2-883f-0016d3cca427".

Definition runtime (script : nat → string → ExecOptions → ProcessOutcome) : Runtime :=
  {| process_cwd := ["app"];
     uuid_source := λ _, token;
     process_outcome := script;
     validateDockerfile := validator |}.

(** The [n]-th process ends as the [n]-th entry says; the tool is gone
    after that. *)
Definition replies (l : list ProcessOutcome) : nat → string → ExecOptions → ProcessOutcome :=
  λ n _ _, nth n l (Exited 127 EmptyString "docker: not found").

Definition disk : gmap (list string) Node :=
  {[ [] := Dir; ["app"] := Dir; ["app"; "temp"] := Dir ]}.

(** The same with a directory [/app/temp/b1], left behind by somebody. *)
Definition disk_b1 : gmap (list string) Node :=
  <[ ["app"; "temp"; "b1"] := Dir ]> disk.



(** A manifest as a repository would carry it. *)
Definition manifest : Json :=
  JObj [("name", JStr "demo");
        ("scripts", JObj [("start", JStr "node server.js")]);
        ("dependencies", JObj [("koa", JStr "^2.15.0")])].

Definition start (m : gmap (list string) Node) : World :=
  {| files := m; spawned := 0; drawn := 0 |}.

Definition workspace : Path.t := ["app"; "temp"; token].

(** The build in the workspace runs into the timeout; any other build goes
    through, and the image store knows the image. *)
Definition workspaceBuildTimesOut : nat → string → ExecOptions → ProcessOutcome :=
  λ _ command options,
    if decide (cwd options = Some workspace) then Killed EmptyString EmptyString
    else if decide (cwd options = None) then Exited 0 ("3f2a9c41d0b7" +:+ Str.nl) EmptyString
    else Exited 0 "Successfully built 3f2a9c41d0b7" EmptyString.

(** The world once the workspace is created. *)
Definition created (m : gmap (list string) Node) : World :=
  (Fs.mkdir_recursive workspace (drew (start m))).2.

End Sample.

(** ** Vocabulary of the repository data provider *)

(** A string without a slash: an owner, a repository name, a file name. *)
Definition slashFree (s : string) : Prop := Str.includes "/" s = false.

#[global] Instance slashFree_dec (s : string) : Decision (slashFree s).
Proof. unfold slashFree. apply _. Defined.

(** The number of segments of a path of the API, as line 262 counts them. *)
Definition segments (path : string) : nat := length (Str.split "/" path).

(** The URL is one the provider accepts: both parts are there and not
    empty. *)
Definition acceptedUrl (repositoryUrl : string) : bool :=
  Js.truthy (GitHub.urlParts repositoryUrl !! 0) && Js.truthy (GitHub.urlParts repositoryUrl !! 1).

(** The path of the API the provider works on for an accepted URL. *)
Definition repositoryApi (repositoryUrl : string) : string :=
  GitHub.apiEndpoint +:+ "/repos/" +:+ Js.show (GitHub.urlParts repositoryUrl !! 0) +:+ "/" +:+
  Js.show (GitHub.urlParts repositoryUrl !! 1).

(** The items of a listing are at level [n]: their paths have [n]
    segments, and the items of the listing of a directory among them are
    one level further down. *)
Fixpoint levelled (n : nat) (item : GitHub.Item) : Prop :=
  match item with
  | GitHub.FileItem _ path _ _ => segments path = n
  | GitHub.DirItem path dirResponse =>
      segments path = n ∧
      match dirResponse with
      | GitHub.Resolved _ items =>
          (fix all (items : list GitHub.Item) : Prop :=
             match items with
             | [] => True
             | item :: rest => levelled (S n) item ∧ all rest
             end) items
      | GitHub.Rejected _ => True
      end
  | GitHub.OtherItem => True
  end.

(** A request that reads: a [GET] with the token and no body. *)
Definition reading (authenticationToken : string) (r : GitHub.Request) : Prop :=
  GitHub.method r = GitHub.GET ∧
  GitHub.headers r = GitHub.requestHeaders authenticationToken ∧
  GitHub.body r = None.

(** An entry as [processRepositoryFiles] makes them: a file whose name the
    condition of line 241 accepts. *)
Definition fetchedFile (f : GitHub.Entry.t) : Prop :=
  GitHub.Entry.type f = GitHub.file ∧ GitHub.fetched (GitHub.Entry.name f) = true.

(** The computation returns entries that all satisfy [P], whatever the log
    is, and adds reading requests to the log only. *)
Definition contributes (authenticationToken : string)
    (c : GitHub.Net (list GitHub.Entry.t)) (P : GitHub.Entry.t → Prop) : Prop :=
  ∀ log, ∃ fs reqs, c log = (GitHub.Returned fs, log ++ reqs) ∧
                    Forall P fs ∧ Forall (reading authenticationToken) reqs.

(** ** A sample repository *)

Module SampleRepository.

Definition token : string := "ghp_0123456789".

Definition ok {D : Type} (data : D) : GitHub.Reply D := GitHub.Resolved 200 data.

Definition notFound {D : Type} : GitHub.Reply D :=
  GitHub.Rejected (GitHub.AxiosError (Some 404%Z) "Request failed with status code 404").

Definition raw (path : string) : string :=
  "https://raw.githubusercontent.com/octocat/hello-world/main/" +:+ path.

(** A manifest at the top, sources four directories deep, and a file that
    cannot be downloaded. *)
Definition contents : list GitHub.Item :=
  [ GitHub.FileItem "LICENSE" "LICENSE" (raw "LICENSE") (ok (JStr "MIT"));
    GitHub.FileItem "package.json" "package.json" (raw "package.json")
      (ok (JObj [("name", JStr "hello-world")]));
    GitHub.FileItem "server.js" "server.js" (raw "server.js") notFound;
    GitHub.DirItem "src"
      (ok [ GitHub.FileItem "app.ts" "src/app.ts" (raw "src/app.ts") (ok (JStr "export {}"));
            GitHub.DirItem "src/a"
              (ok [ GitHub.DirItem "src/a/b"
                      (ok [ GitHub.FileItem "c.js" "src/a/b/c.js" (raw "src/a/b/c.js")
                              (ok (JStr "module.exports = 1"));
                            GitHub.DirItem "src/a/b/c"
                              (ok [ GitHub.FileItem "d.js" "src/a/b/c/d.js"
                                      (raw "src/a/b/c/d.js") (ok (JStr "module.exports = 2")) ])
                          ])
                  ])
          ]);
    GitHub.DirItem "docs" notFound;
    GitHub.OtherItem ].

(** Stand-ins for what the runtime provides: a parser that knows the empty
    object only, the keys of an object in the order of its members, and an
    encoding that marks the text. *)
Definition parse (s : string) : Completion Json :=
  if String.eqb s "{}" then Normal (JObj []) else Abrupt (ErrorObj "Unexpected token").

Definition keys (v : Json) : list string :=
  match v with
  | JObj members => members.*1
  | _ => []
  end.

Definition encode (s : string) : string := "base64:" +:+ s.

Definition repository : GitHub.Repo.t :=
  {| GitHub.Repo.name := "hello-world";
     GitHub.Repo.full_name := "octocat/hello-world";
     GitHub.Repo.description := None;
     GitHub.Repo.language := None;
     GitHub.Repo.default_branch := "trunk" |}.

End SampleRepository.

(** ** Vocabulary of the build id *)

(** A name of one segment: no slash in it, not empty, and not one of the
    two names that stand for a directory and its parent. *)
Definition plainName (s : string) : Prop :=
  slashFree s ∧ s ≠ EmptyString ∧ s ≠ "." ∧ s ≠ "..".

#[global] Instance plainName_dec (s : string) : Decision (plainName s).
Proof. unfold plainName. apply _. Defined.

(** ** Vocabulary of the requests *)

Definition getRequest (authenticationToken url : string) : GitHub.Request :=
  {| GitHub.method := GitHub.GET; GitHub.url := url;
     GitHub.headers := GitHub.requestHeaders authenticationToken; GitHub.body := None |}.

Definition putRequest (authenticationToken url : string) (data : Json) : GitHub.Request :=
  {| GitHub.method := GitHub.PUT; GitHub.url := url;
     GitHub.headers := GitHub.requestHeaders authenticationToken; GitHub.body := Some data |}.

(** The status of the response an axios error carries, if it carries one. *)
Definition statusOf (e : GitHub.Failure) : option Z :=
  match e with
  | GitHub.AxiosError status _ => status
  | GitHub.PlainError _ | GitHub.NotAnError => None
  end.

(** What the caller of [retrieveRepositoryInformation] is told when a
    request is rejected with [e], and the same for
    [commitDockerfileToRepository]. *)
Definition fetchFailure (e : GitHub.Failure) : string :=
  if decide (statusOf e = Some 404%Z) then "Repository not found or access denied"
  else if decide (statusOf e = Some 401%Z) then "Invalid GitHub token"
  else "Failed to fetch repository: " +:+ GitHub.errorMessage e.

Definition pushFailure (e : GitHub.Failure) : string :=
  if decide (statusOf e = Some 401%Z) then "Invalid GitHub token or insufficient permissions"
  else if decide (statusOf e = Some 403%Z)
       then "Repository access denied or token lacks write permissions"
  else "Failed to push Dockerfile: " +:+ GitHub.errorMessage e.

(** ** The footprint of a computation *)

(** Started in [w], the computation draws no identifier, starts [k]
    processes at most, and leaves every node outside [P] as it was. *)
Definition footprint {A : Type} (P : Path.t → Prop) (k : nat) (c : Async A) (w : World) : Prop :=
  drawn (c w).2 = drawn w ∧
  spawned w ≤ spawned (c w).2 ≤ spawned w + k ∧
  ∀ q, ¬ P q → files (c w).2 !! q = files w !! q.

(** Every call of [exec] starts one process at most, which leaves the
    nodes outside [Q] as they were. *)
Definition processes (Q : Path.t → Prop)
    (exec : string → ExecOptions → Async (string * string)) : Prop :=
  ∀ command options w, footprint Q 1 (exec command options) w.

(** [rm] is a removal: it starts no process and touches nothing but the
    tree at the path it is given, where all it can do is remove, and when
    it returns normally the tree is gone.  It may throw, having removed a
    part or nothing. *)
Definition removal (rm : Path.t → Async unit) : Prop :=
  ∀ p w,
    drawn (rm p w).2 = drawn w ∧
    spawned (rm p w).2 = spawned w ∧
    (∀ q, ¬ p `prefix_of` q → files (rm p w).2 !! q = files w !! q) ∧
    (∀ q, p `prefix_of` q →
          files (rm p w).2 !! q = None ∨ files (rm p w).2 !! q = files w !! q) ∧
    ((rm p w).1 = Normal tt → ∀ q, p `prefix_of` q → files (rm p w).2 !! q = None).

(** A removal that is refused, as when the workspace is in use. *)
Definition refusedRemoval (p : Path.t) : Async unit :=
  throw (Fs.failure "EBUSY: resource busy or locked" "rmdir" p).

(** Where an invocation with workspace [ws] and fallback directory [dir]
    may change the file system. *)
Definition buildArea (ws dir : Path.t) (q : Path.t) : Prop :=
  ws `prefix_of` q ∨ q ∈ FS.ancestors ws ∨ q = dir ++ ["Dockerfile"].

(** * Properties *)

Create HintDb shape.

Example includes_ex : Str.includes "ERROR" "an ERROR here" = true.
Proof. reflexivity. Qed.
Example trim_ex : Str.trim (" ab c" +:+ Str.nl) = "ab c".
Proof. reflexivity. Qed.
Example join_ex : Path.join ["app"; "temp"] "a//b/../c/." = ["app"; "temp"; "a"; "c"].
Proof. reflexivity. Qed.
Example anc_ex : FS.ancestors_or_self ["a"; "b"] = [[]; ["a"]; ["a"; "b"]].
Proof. reflexivity. Qed.

(** ** Strings *)

Lemma prefix_spec (sub s : string) :
  String.prefix sub s = true ↔ ∃ post, s = sub +:+ post.
Proof.
  revert s. induction sub as [|a sub IH]; intros [|b s]; simpl.
  - split; [intros _; by exists EmptyString | done].
  - split; [intros _; by exists (String b s) | done].
  - split; [done | by intros [post ?]].
  - destruct (Ascii.ascii_dec a b) as [->|Hne].
    + rewrite IH. split; intros [post Hp]; exists post.
      * by rewrite Hp.
      * by injection Hp.
    + split; [done | intros [post Hp]; injection Hp; congruence].
Qed.

Lemma includes_spec (sub s : string) :
  Str.includes sub s = true ↔ ∃ pre post, s = pre +:+ sub +:+ post.
Proof.
  induction s as [|b s IH]; cbn [Str.includes].
  - rewrite orb_false_r, prefix_spec. split.
    + intros [post Hp]. by exists EmptyString, post.
    + intros [[|a pre] [post Hp]]; [by exists post | done].
  - rewrite orb_true_iff, prefix_spec, IH. split.
    + intros [[post Hp]|(pre & post & Hp)].
      * by exists EmptyString, post.
      * exists (String b pre), post. by rewrite Hp.
    + intros [[|a pre] [post Hp]].
      * left. by exists post.
      * right. exists pre, post. by injection Hp.
Qed.

Lemma app_truthy (s t : string) : Str.truthy s = true → Str.truthy (s +:+ t) = true.
Proof. by destruct s. Qed.

Lemma truthy_neq (s : string) : Str.truthy s = true ↔ s ≠ EmptyString.
Proof. by destruct s. Qed.

(** ** Paths *)

Lemma join_Dockerfile (p : Path.t) : Path.join p "Dockerfile" = p ++ ["Dockerfile"].
Proof. reflexivity. Qed.

Lemma join_dockerignore (p : Path.t) : Path.join p ".dockerignore" = p ++ [".dockerignore"].
Proof. reflexivity. Qed.

Lemma join_package_json (p : Path.t) : Path.join p "package.json" = p ++ ["package.json"].
Proof. reflexivity. Qed.

Lemma join_index_js (p : Path.t) : Path.join p "index.js" = p ++ ["index.js"].
Proof. reflexivity. Qed.

Lemma dirname_snoc (p : Path.t) (x : string) : Path.dirname (p ++ [x]) = p.
Proof. apply removelast_last. Qed.

Lemma snoc_neq (p : Path.t) (x : string) : p ++ [x] ≠ p.
Proof. intros H. apply (f_equal length) in H. rewrite length_app in H. simpl in H. lia. Qed.

Lemma snoc_neq_name (p : Path.t) (x y : string) : x ≠ y → p ++ [x] ≠ p ++ [y].
Proof. intros Hne H. apply app_inv_head in H. congruence. Qed.

Lemma self_in_ancestors (p : Path.t) : p ∈ FS.ancestors_or_self p.
Proof.
  induction p as [|seg rest IH]; simpl.
  - apply list_elem_of_here.
  - apply list_elem_of_further, list_elem_of_fmap. by exists rest.
Qed.

Lemma ancestors_prefix (p q : Path.t) : q ∈ FS.ancestors_or_self p → q `prefix_of` p.
Proof.
  revert q. induction p as [|seg rest IH]; intros q; simpl.
  - intros ->%list_elem_of_singleton. done.
  - intros [->|(q' & -> & Hq')%list_elem_of_fmap]%elem_of_cons.
    + apply prefix_nil.
    + by apply prefix_cons, IH.
Qed.

Lemma child_not_ancestor (p : Path.t) (x : string) : p ++ [x] ∉ FS.ancestors_or_self p.
Proof.
  intros H%ancestors_prefix%prefix_length. rewrite length_app in H. simpl in H. lia.
Qed.

(** ** The file system calls *)

Lemma lookup_mkdirs (l : list Path.t) (m : gmap (list string) Node) (q : Path.t) :
  foldr (λ q m, <[q:=Dir]> m) m l !! q = if decide (q ∈ l) then Some Dir else m !! q.
Proof.
  induction l as [|p l IH]; cbn [foldr].
  - case_decide as H; [by apply not_elem_of_nil in H | done].
  - rewrite lookup_insert, IH.
    repeat case_decide; try done; set_solver.
Qed.

Lemma failure_described (code syscall : string) (p : Path.t) :
  code ≠ EmptyString → described (Fs.failure code syscall p).
Proof.
  intros Hc. eexists; split; [reflexivity|].
  apply truthy_neq, app_truthy. by apply truthy_neq.
Qed.

Lemma mkdir_recursive_throws (p : Path.t) (w w' : World) (e : Thrown) :
  Fs.mkdir_recursive p w = (Abrupt e, w') → w' = w ∧ described e.
Proof.
  unfold Fs.mkdir_recursive. destruct (List.find _ _); [|done].
  intros [= <- <-]. split; [done|]. apply failure_described. by case_decide.
Qed.

Lemma ancestors_or_self_snoc (d : Path.t) (x : string) :
  FS.ancestors_or_self (d ++ [x]) = FS.ancestors_or_self d ++ [d ++ [x]].
Proof.
  induction d as [|a d IH]; [done|].
  cbn [app FS.ancestors_or_self]. by rewrite IH, map_app.
Qed.

Lemma ancestors_snoc (d : Path.t) (x : string) :
  FS.ancestors (d ++ [x]) = FS.ancestors_or_self d.
Proof.
  unfold FS.ancestors. destruct (d ++ [x]) eqn:E.
  - by destruct d.
  - by rewrite <- E, dirname_snoc.
Qed.

Lemma find_not_dir_None (m : gmap (list string) Node) (l : list Path.t) :
  List.find (λ q, negb (FS.isDir m q)) l = None ↔ Forall (λ q, m !! q = Some Dir) l.
Proof.
  induction l as [|q l IH]; cbn [List.find].
  - split; [constructor | done].
  - unfold FS.isDir at 1. destruct (m !! q) as [[|c]|] eqn:Hq; cbn [negb].
    + rewrite IH. split; [by constructor | by inversion 1].
    + split; [done | inversion 1; congruence].
    + split; [done | inversion 1; congruence].
Qed.

Lemma walk_child (m : gmap (list string) Node) (d : Path.t) (x : string) :
  FS.walk m (d ++ [x]) = None ↔ FS.reachable m d.
Proof.
  unfold FS.walk, FS.reachable. rewrite ancestors_snoc, <- find_not_dir_None.
  by destruct (List.find _ _).
Qed.

Lemma walk_code (m : gmap (list string) Node) (p : Path.t) (code : string) :
  FS.walk m p = Some code → code ∈ [FS.ENOENT; FS.ENOTDIR].
Proof.
  unfold FS.walk. destruct (List.find _ _); [|done].
  intros [= <-]. destruct (FS.isFile _ _); set_solver.
Qed.

Lemma walk_ext (m m' : gmap (list string) Node) (p : Path.t) :
  (∀ q, q ∈ FS.ancestors p → m !! q = m' !! q) → FS.walk m p = FS.walk m' p.
Proof.
  unfold FS.walk. generalize (FS.ancestors p). intros l.
  induction l as [|a l IH]; intros Hl; cbn [List.find]; [done|].
  assert (Ha : m !! a = m' !! a) by apply Hl, list_elem_of_here.
  unfold FS.isDir at 1 3. rewrite Ha.
  destruct (m' !! a) as [[|c]|] eqn:Ha'; cbn [negb];
    [|unfold FS.isFile; by rewrite Ha, Ha'..].
  apply IH. intros q Hq. by apply Hl, list_elem_of_further.
Qed.

Lemma reachable_self (m : gmap (list string) Node) (d : Path.t) :
  FS.reachable m d → m !! d = Some Dir.
Proof.
  intros Hr. unfold FS.reachable in Hr. rewrite Forall_forall in Hr.
  apply Hr, self_in_ancestors.
Qed.

Lemma reachable_insert (m : gmap (list string) Node) (d p : Path.t) (n : Node) :
  p ∉ FS.ancestors_or_self d → FS.reachable m d → FS.reachable (<[p:=n]> m) d.
Proof.
  unfold FS.reachable. rewrite !Forall_forall. intros Hp Hr q Hq.
  rewrite lookup_insert_ne; [by apply Hr | congruence].
Qed.

Lemma reachable_mkdirs (m : gmap (list string) Node) (d : Path.t) :
  FS.reachable (foldr (λ q m, <[q:=Dir]> m) m (FS.ancestors_or_self d)) d.
Proof.
  unfold FS.reachable. rewrite Forall_forall. intros q Hq.
  rewrite lookup_mkdirs. by rewrite decide_True.
Qed.

Lemma reachable_walk (m : gmap (list string) Node) (p : Path.t) :
  FS.reachable m p → FS.walk m p = None.
Proof.
  destruct p as [|x d _] using rev_ind; [done|].
  intros Hr. apply walk_child. unfold FS.reachable in *.
  rewrite ancestors_or_self_snoc in Hr. by apply Forall_app in Hr as [Hd _].
Qed.

Lemma writeFile_ok (d : Path.t) (x data : string) (w w' : World) :
  Fs.writeFile (d ++ [x]) data w = (Normal tt, w') ↔
  FS.reachable (files w) d ∧ files w !! (d ++ [x]) ≠ Some Dir ∧
  w' = with_files (<[d ++ [x]:=File data]> (files w)) w.
Proof.
  unfold Fs.writeFile. destruct (FS.walk _ _) as [code|] eqn:Hw.
  - split; [done|]. intros (Hr%(walk_child _ _ x) & _). congruence.
  - apply walk_child in Hw. unfold FS.isDir.
    destruct (files w !! (d ++ [x])) as [[|c]|]; naive_solver.
Qed.

Lemma writeFile_throws_code (p : Path.t) (data : string) (w w' : World) (e : Thrown) :
  Fs.writeFile p data w = (Abrupt e, w') →
  w' = w ∧
  ∃ code, code ∈ [FS.ENOENT; FS.ENOTDIR; FS.EISDIR] ∧ e = Fs.failure code "open" p.
Proof.
  unfold Fs.writeFile. destruct (FS.walk _ _) as [code|] eqn:Hw.
  - intros [= <- <-]. split; [done|]. exists code. split; [|done].
    apply walk_code in Hw. set_solver.
  - destruct (FS.isDir _ _); [|done].
    intros [= <- <-]. split; [done|]. exists FS.EISDIR. split; [set_solver|done].
Qed.

Lemma writeFile_throws (p : Path.t) (data : string) (w w' : World) (e : Thrown) :
  Fs.writeFile p data w = (Abrupt e, w') → w' = w ∧ described e.
Proof.
  intros (-> & code & Hcode & ->)%writeFile_throws_code. split; [done|].
  apply failure_described.
  repeat (apply elem_of_cons in Hcode as [->|Hcode]; [done|]).
  by apply not_elem_of_nil in Hcode.
Qed.

Lemma writeFile_result_ext (p : Path.t) (data : string) (w w' : World) :
  (∀ q, q ∈ FS.ancestors p → files w !! q = files w' !! q) →
  files w !! p = files w' !! p →
  (Fs.writeFile p data w).1 = (Fs.writeFile p data w').1.
Proof.
  intros Hd Hp. unfold Fs.writeFile, FS.isDir. rewrite (walk_ext _ _ _ Hd), Hp.
  by repeat case_match.
Qed.

Lemma writeFile_unreachable (d : Path.t) (x data : string) (w : World) :
  ¬ FS.reachable (files w) d →
  ∃ code, code ∈ [FS.ENOENT; FS.ENOTDIR] ∧
    Fs.writeFile (d ++ [x]) data w = (Abrupt (Fs.failure code "open" (d ++ [x])), w).
Proof.
  intros Hnot. unfold Fs.writeFile. destruct (FS.walk _ _) as [code|] eqn:Hw.
  - exists code. split; [by eapply walk_code | done].
  - by apply walk_child in Hw.
Qed.

Lemma present_child (m : gmap (list string) Node) (d : Path.t) (x : string) :
  FS.reachable m d → FS.present m (d ++ [x]) = FS.exists_ m (d ++ [x]).
Proof. intros Hr%(walk_child _ _ x). unfold FS.present. by rewrite Hr. Qed.

(** ** Running computations *)

Lemma bind_run {A B : Type} (c : Async A) (f : A → Async B) (w : World) :
  (c ≫= f) w =
  match c w with
  | (Normal a, w') => f a w'
  | (Abrupt e, w') => (Abrupt e, w')
  end.
Proof. reflexivity. Qed.

Lemma bind_normal {A B : Type} (c : Async A) (f : A → Async B) (w w' : World) (a : A) :
  c w = (Normal a, w') → (c ≫= f) w = f a w'.
Proof. rewrite bind_run. by intros ->. Qed.

Section EngineFacts.

Variable rt : Runtime.

Lemma execAsync_resolves (command : string) (options : ExecOptions) (w : World)
    (stdout stderr : string) :
  process_outcome rt (spawned w) command options = Exited 0 stdout stderr →
  execAsync rt command options w = (Normal (stdout, stderr), started w).
Proof. unfold execAsync. by intros ->. Qed.

Lemma fileExists_run (p : Path.t) (w : World) :
  fileExists p w = (Normal (FS.present (files w) p), w).
Proof.
  unfold fileExists, try_catch, FS.present. rewrite bind_run. unfold Fs.access.
  destruct (FS.walk _ _); [done|]. by destruct (FS.exists_ _ _).
Qed.

Lemma cleanupBuildDir_run (p : Path.t) (w : World) :
  cleanupBuildDir p w = (Normal tt, with_files (FS.remove_tree (files w) p) w).
Proof. reflexivity. Qed.

End EngineFacts.

(** ** Writing the build context *)

Lemma exists_insert_ne (m : gmap (list string) Node) (p q : Path.t) (n : Node) :
  p ≠ q → FS.exists_ (<[p:=n]> m) q = FS.exists_ m q.
Proof. intros Hne. unfold FS.exists_. by rewrite lookup_insert_ne. Qed.

Lemma createSourceFiles_run (ws : Path.t) (rd : option RepositoryData) (w : World) :
  FS.reachable (files w) ws →
  createSourceFiles ws rd w =
    (Normal tt,
     with_files (if FS.exists_ (files w) (ws ++ ["index.js"]) then files w
                 else <[ws ++ ["index.js"] := File indexJsContent]> (files w)) w).
Proof.
  intros Hws. unfold createSourceFiles.
  rewrite join_index_js, bind_run, fileExists_run, present_child by done.
  unfold FS.exists_. destruct (files w !! (ws ++ ["index.js"])) as [n|] eqn:Hx; simpl.
  - by destruct w.
  - apply writeFile_ok. by rewrite Hx.
Qed.

Lemma reachable_insert_child (m : gmap (list string) Node) (d : Path.t) (x : string) (n : Node) :
  FS.reachable m d → FS.reachable (<[d ++ [x]:=n]> m) d.
Proof. apply reachable_insert, child_not_ancestor. Qed.

Lemma assembleWorkspace_run (ws : Path.t) (text : string) (rd : option RepositoryData)
    (w : World) :
  assemblyReady ws w →
  assembleWorkspace ws text rd w = (Normal tt, with_files (assembled ws text rd (files w)) w).
Proof.
  intros (Hws & Hd & Hi). unfold assembleWorkspace, createDockerignore, assembled.
  rewrite join_Dockerfile, join_dockerignore, join_package_json. cbv zeta.
  set (m1 := <[ws ++ ["Dockerfile"] := File text]> (files w)).
  set (m2 := <[ws ++ [".dockerignore"] := File dockerignoreContent]> m1).
  assert (Hws1 : FS.reachable m1 ws) by by apply reachable_insert_child.
  assert (Hws2 : FS.reachable m2 ws) by by apply reachable_insert_child.
  rewrite (bind_normal _ _ w (with_files m1 w) tt); cycle 1.
  { by apply writeFile_ok. }
  rewrite (bind_normal _ _ (with_files m1 w) (with_files m2 w) tt); cycle 1.
  { apply writeFile_ok. split_and!; [done| |done].
    simpl. unfold m1. rewrite lookup_insert_ne; [done | by apply snoc_neq_name]. }
  rewrite bind_run, fileExists_run. cbn [files with_files]. rewrite present_child by done.
  destruct (FS.exists_ m2 (ws ++ ["package.json"])) eqn:Hp; cbn [negb].
  - rewrite bind_run. cbn [mret Async_ret]. by rewrite createSourceFiles_run.
  - set (m3 := <[ws ++ ["package.json"] := _]> m2).
    rewrite (bind_normal _ _ (with_files m2 w) (with_files m3 w) tt); cycle 1.
    { apply writeFile_ok. split_and!; [done| |done].
      cbn [files with_files]. unfold FS.exists_ in Hp.
      by destruct (m2 !! (ws ++ ["package.json"])). }
    rewrite createSourceFiles_run; [done|].
    cbn [files with_files]. by apply reachable_insert_child.
Qed.

Lemma assembleWorkspace_normal (ws : Path.t) (text : string) (rd : option RepositoryData)
    (w w' : World) :
  assembleWorkspace ws text rd w = (Normal tt, w') →
  assemblyReady ws w ∧ w' = with_files (assembled ws text rd (files w)) w.
Proof.
  intros Hrun.
  assert (Hready : assemblyReady ws w).
  { revert Hrun. unfold assembleWorkspace, createDockerignore.
    rewrite join_Dockerfile, join_dockerignore, bind_run.
    destruct (Fs.writeFile _ _ w) as [[[]|e] w1] eqn:H1; [|done].
    apply writeFile_ok in H1 as (Hws & Hd & ->).
    rewrite bind_run.
    destruct (Fs.writeFile _ _ _) as [[[]|e] w2] eqn:H2; [|done].
    apply writeFile_ok in H2 as (_ & Hi & _). simpl in Hi.
    rewrite lookup_insert_ne in Hi; [done | by apply snoc_neq_name]. }
  split; [done|].
  rewrite assembleWorkspace_run in Hrun by done. by injection Hrun.
Qed.

Lemma assembled_reachable (ws : Path.t) (text : string) (rd : option RepositoryData)
    (m : gmap (list string) Node) :
  FS.reachable m ws → FS.reachable (assembled ws text rd m) ws.
Proof.
  intros Hws. unfold assembled. cbv zeta.
  repeat case_match; repeat apply reachable_insert_child; done.
Qed.

Lemma checkStderr_run (stderr : string) (w : World) :
  checkStderr stderr w =
    if Str.includes "ERROR" stderr && negb (Str.includes "Successfully built" stderr)
    then (Abrupt (ErrorObj ("Docker build failed: " +:+ stderr)), w)
    else (Normal tt, w).
Proof.
  unfold checkStderr. destruct (Str.truthy stderr) eqn:Ht.
  - by destruct (_ && _).
  - destruct stderr; [done | discriminate Ht].
Qed.

Lemma checkStderr_throws_iff (stderr : string) (w : World) :
  (∃ e w', checkStderr stderr w = (Abrupt e, w')) ↔
  Str.includes "ERROR" stderr = true ∧ Str.includes "Successfully built" stderr = false.
Proof.
  rewrite checkStderr_run.
  destruct (Str.includes "ERROR" stderr), (Str.includes "Successfully built" stderr);
    cbn [andb negb]; split; try done; try (intros [? ?]; discriminate);
    try (intros (? & ? & ?); discriminate).
  intros _. by do 2 eexists.
Qed.

(** ** The primary path, step by step *)

Section Pipeline.

Variable rt : Runtime.

Lemma reachesBuild_workspace (text : string) (rd : option RepositoryData) (w w2 : World) :
  reachesBuild rt text rd w w2 → FS.reachable (files w2) (workspaceOf rt w).
Proof.
  intros (_ & w1 & _ & ((Hws & _ & _) & ->)%assembleWorkspace_normal).
  by apply assembled_reachable.
Qed.

Lemma readdir_dir (p : Path.t) (w : World) :
  FS.reachable (files w) p → ∃ names, Fs.readdir p w = (Normal names, w).
Proof.
  intros Hp. unfold Fs.readdir. rewrite (reachable_walk _ _ Hp), (reachable_self _ _ Hp).
  by eexists.
Qed.

(** The build process did not exit with status 0. *)
Lemma buildImage_build_rejected (text buildId : string) (rd : option RepositoryData)
    (w w2 : World) (stderr : string) :
  reachesBuild rt text rd w w2 →
  (∃ code stdout, code ≠ 0%Z ∧
     process_outcome rt (spawned w2) (buildCommandFor (imageName buildId))
       (buildOptions (workspaceOf rt w)) = Exited code stdout stderr) ∨
  (∃ stdout,
     process_outcome rt (spawned w2) (buildCommandFor (imageName buildId))
       (buildOptions (workspaceOf rt w)) = Killed stdout stderr) →
  buildImage rt text buildId rd w =
    (Normal (failed ("Command failed: " +:+ buildCommandFor (imageName buildId)
                     +:+ Str.nl +:+ stderr)),
     started w2).
Proof.
  intros Hreach Hout.
  destruct (readdir_dir _ _ (reachesBuild_workspace _ _ _ _ Hreach)) as [names Hrd].
  destruct Hreach as (Hvalid & w1 & Hmk & Hasm).
  unfold buildImage, try_catch. rewrite bind_run. cbn [uuidv4].
  fold (workspaceOf rt w). rewrite bind_run, Hmk, Hvalid. cbn [negb].
  rewrite bind_run, Hasm, bind_run, Hrd, bind_run. unfold execAsync.
  destruct Hout as [(code & stdout & Hne & ->)|(stdout & ->)]; [|done].
  by destruct code.
Qed.

(** The build process exited with status 0. *)
Lemma buildImage_build_resolved (text buildId : string) (rd : option RepositoryData)
    (w w2 : World) (stdout stderr : string) :
  reachesBuild rt text rd w w2 →
  process_outcome rt (spawned w2) (buildCommandFor (imageName buildId))
    (buildOptions (workspaceOf rt w)) = Exited 0 stdout stderr →
  buildImage rt text buildId rd w =
    if Str.includes "ERROR" stderr && negb (Str.includes "Successfully built" stderr)
    then (Normal (failed ("Docker build failed: " +:+ stderr)), started w2)
    else
      match process_outcome rt (S (spawned w2)) (imagesCommandFor (imageName buildId))
              noOptions with
      | Exited 0 imagesOutput _ =>
          if Str.truthy (Str.trim imagesOutput)
          then (Normal (succeeded buildId),
                with_files (FS.remove_tree (files w2) (workspaceOf rt w)) (started (started w2)))
          else (Normal (failed "Docker image was not created successfully"),
                started (started w2))
      | Exited _ _ stderr' | Killed _ stderr' =>
          (Normal (failed ("Command failed: " +:+ imagesCommandFor (imageName buildId)
                           +:+ Str.nl +:+ stderr')),
           started (started w2))
      end.
Proof.
  intros Hreach Hout.
  destruct (readdir_dir _ _ (reachesBuild_workspace _ _ _ _ Hreach)) as [names Hrd].
  destruct Hreach as (Hvalid & w1 & Hmk & Hasm).
  unfold buildImage, try_catch. rewrite bind_run. cbn [uuidv4].
  fold (workspaceOf rt w). rewrite bind_run, Hmk, Hvalid. cbn [negb].
  rewrite bind_run, Hasm, bind_run, Hrd, bind_run.
  rewrite (execAsync_resolves _ _ _ _ _ _ Hout).
  rewrite bind_run, checkStderr_run.
  destruct (_ && _); [done|].
  rewrite bind_run. unfold execAsync at 1. cbn [spawned started].
  destruct (process_outcome rt (S (spawned w2)) _ _) as [[|c|c] so se|so se];
    cbv beta iota; try done.
  rewrite bind_run. by destruct (Str.truthy _).
Qed.

Lemma primaryReady_reaches (text : string) (rd : option RepositoryData) (w : World) :
  primaryReady rt text w → reachesBuild rt text rd w (contextWritten rt text rd w).
Proof.
  intros (Hvalid & Hfind & Hd & Hi). split; [done|].
  set (ws := workspaceOf rt w) in *.
  set (m1 := foldr (λ q m, <[q:=Dir]> m) (files w) (FS.ancestors_or_self ws)).
  exists (with_files m1 (drew w)). split.
  - unfold Fs.mkdir_recursive. cbn [files drew]. by rewrite Hfind.
  - rewrite assembleWorkspace_run; [done|].
    split_and!; cbn [files with_files]; unfold m1.
    + apply reachable_mkdirs.
    + rewrite lookup_mkdirs. by rewrite decide_False by apply child_not_ancestor.
    + rewrite lookup_mkdirs. by rewrite decide_False by apply child_not_ancestor.
Qed.

Lemma reaches_primaryReady (text : string) (rd : option RepositoryData) (w w2 : World) :
  reachesBuild rt text rd w w2 → primaryReady rt text w ∧ w2 = contextWritten rt text rd w.
Proof.
  intros (Hvalid & w1 & Hmk & Hasm).
  unfold Fs.mkdir_recursive in Hmk. cbn [files drew] in Hmk.
  destruct (List.find _ _) eqn:Hfind; [done|]. injection Hmk as <-.
  apply assembleWorkspace_normal in Hasm as ((_ & Hd & Hi) & ->).
  cbn [files with_files] in Hd, Hi. rewrite lookup_mkdirs in Hd, Hi.
  rewrite decide_False in Hd by apply child_not_ancestor.
  rewrite decide_False in Hi by apply child_not_ancestor.
  done.
Qed.

(** What an invocation on the primary path returns, and the world it
    leaves, by the way the two child processes end. *)
Lemma buildImage_primary (text buildId : string) (rd : option RepositoryData) (w : World) :
  primaryReady rt text w →
  buildImage rt text buildId rd w =
    let w2 := contextWritten rt text rd w in
    match process_outcome rt (spawned w) (buildCommandFor (imageName buildId))
            (buildOptions (workspaceOf rt w)) with
    | Exited 0 _ stderr =>
        if Str.includes "ERROR" stderr && negb (Str.includes "Successfully built" stderr)
        then (Normal (failed ("Docker build failed: " +:+ stderr)), started w2)
        else
          match process_outcome rt (S (spawned w)) (imagesCommandFor (imageName buildId))
                  noOptions with
          | Exited 0 imagesOutput _ =>
              if Str.truthy (Str.trim imagesOutput)
              then (Normal (succeeded buildId),
                    with_files (FS.remove_tree (files w2) (workspaceOf rt w))
                      (started (started w2)))
              else (Normal (failed "Docker image was not created successfully"),
                    started (started w2))
          | Exited _ _ stderr' | Killed _ stderr' =>
              (Normal (failed ("Command failed: " +:+ imagesCommandFor (imageName buildId)
                               +:+ Str.nl +:+ stderr')),
               started (started w2))
          end
    | Exited _ _ stderr | Killed _ stderr =>
        (Normal (failed ("Command failed: " +:+ buildCommandFor (imageName buildId)
                         +:+ Str.nl +:+ stderr)),
         started w2)
    end.
Proof.
  intros Hreach%(primaryReady_reaches _ rd). cbv zeta.
  destruct (process_outcome rt (spawned w) _ _) as [code so se|so se] eqn:Hout.
  - destruct (decide (code = 0%Z)) as [->|Hne].
    + by rewrite (buildImage_build_resolved _ _ _ _ _ so se Hreach).
    + rewrite (buildImage_build_rejected _ _ _ _ _ se Hreach); [by destruct code|].
      left. by exists code, so.
  - rewrite (buildImage_build_rejected _ _ _ _ _ se Hreach); [done|].
    right. by exists so.
Qed.

End Pipeline.

(** ** The fallback path, step by step *)

(** Case analysis on how the build process started in [w] and the query
    after it end, and on whether the answer of the query is empty. *)
Ltac process_cases rt w :=
  destruct (process_outcome rt (spawned w) _ _) as [[|?|?] ? ?|? ?];
    [destruct (process_outcome rt (S (spawned w)) _ _) as [[|?|?] ? ?|? ?];
     [destruct (Str.truthy _)|..] |..].

Section Fallback.

Variable rt : Runtime.

Lemma createFallbackBuild_ready (text buildId : string) (rd : option RepositoryData)
    (w : World) :
  fallbackReady rt buildId w →
  createFallbackBuild rt text buildId rd w =
    let w1 := with_files (<[fallbackDirOf rt buildId ++ ["Dockerfile"] := File fallbackDockerfile]>
                            (files w)) w in
    match process_outcome rt (spawned w) (buildCommandFor (imageName buildId))
            (buildOptions (fallbackDirOf rt buildId)) with
    | Exited 0 _ _ =>
        match process_outcome rt (S (spawned w)) (imagesCommandFor (imageName buildId))
                noOptions with
        | Exited 0 imagesOutput _ =>
            if Str.truthy (Str.trim imagesOutput)
            then (Normal (succeeded buildId), started (started w1))
            else (Normal (exhausted "Fallback Docker image was not created successfully"),
                  started (started w1))
        | Exited _ _ stderr' | Killed _ stderr' =>
            (Normal (exhausted ("Command failed: " +:+ imagesCommandFor (imageName buildId)
                                +:+ Str.nl +:+ stderr')),
             started (started w1))
        end
    | Exited _ _ stderr | Killed _ stderr =>
        (Normal (exhausted ("Command failed: " +:+ buildCommandFor (imageName buildId)
                            +:+ Str.nl +:+ stderr)),
         started w1)
    end.
Proof.
  intros [Hdir Hfile]. unfold createFallbackBuild, try_catch. cbv zeta.
  fold (fallbackDirOf rt buildId). rewrite join_Dockerfile, bind_run.
  replace (Fs.writeFile _ _ w) with
    (@Normal unit tt,
     with_files (<[fallbackDirOf rt buildId ++ ["Dockerfile"] := File fallbackDockerfile]>
                   (files w)) w); cycle 1.
  { symmetry. by apply writeFile_ok. }
  rewrite bind_run. unfold execAsync at 1. cbn [spawned with_files].
  destruct (process_outcome rt (spawned w) _ _) as [[|c|c] so se|so se];
    cbv beta iota; try done.
  rewrite bind_run. unfold execAsync at 1. cbn [spawned started with_files].
  destruct (process_outcome rt (S (spawned w)) _ _) as [[|c|c] so' se'|so' se'];
    cbv beta iota; try done.
  rewrite bind_run. by destruct (Str.truthy _).
Qed.

Lemma createFallbackBuild_not_ready (text buildId : string) (rd : option RepositoryData)
    (w : World) :
  ¬ fallbackReady rt buildId w →
  ∃ message, message ≠ EmptyString ∧
    createFallbackBuild rt text buildId rd w = (Normal (exhausted message), w).
Proof.
  intros Hnot. unfold createFallbackBuild, try_catch. cbv zeta.
  fold (fallbackDirOf rt buildId). rewrite join_Dockerfile, bind_run.
  destruct (Fs.writeFile _ _ w) as [[[]|e] w1] eqn:Hw.
  - apply writeFile_ok in Hw as (Hdir & Hfile & _). by destruct Hnot.
  - apply writeFile_throws in Hw as (-> & message & -> & Hne).
    by exists message.
Qed.

Lemma createFallbackBuild_missing_dir (text buildId : string) (rd : option RepositoryData)
    (w : World) :
  files w !! fallbackDirOf rt buildId ≠ Some Dir →
  ∃ code, code ∈ [FS.ENOENT; FS.ENOTDIR] ∧
    createFallbackBuild rt text buildId rd w =
      (Normal (exhausted (code +:+ ", open '" +:+
                          Path.to_string (fallbackDirOf rt buildId ++ ["Dockerfile"]) +:+ "'")),
       w).
Proof.
  intros Hdir. unfold createFallbackBuild, try_catch. cbv zeta.
  fold (fallbackDirOf rt buildId). rewrite join_Dockerfile, bind_run.
  destruct (writeFile_unreachable (fallbackDirOf rt buildId) "Dockerfile"
              fallbackDockerfile w) as (code & Hcode & ->).
  { by intros Hr%reachable_self. }
  by exists code.
Qed.

End Fallback.

(** ** Classification of the diagnostic stream *)

(** C4.  When the build process of the primary path has exited normally with
    diagnostic stream [stderr], the invocation ends with the build-failed
    result for that stream exactly when the stream contains [ERROR] and does
    not contain [Successfully built]; a stream with both markers is let
    through to the verification step. *)
Theorem stderr_classification (rt : Runtime) (text buildId : string)
    (rd : option RepositoryData) (w : World) (stdout stderr : string) :
  primaryReady rt text w →
  process_outcome rt (spawned w) (buildCommandFor (imageName buildId))
    (buildOptions (workspaceOf rt w)) = Exited 0 stdout stderr →
  (buildImage rt text buildId rd w).1 = Normal (failed ("Docker build failed: " +:+ stderr))
  ↔ Str.includes "ERROR" stderr = true ∧ Str.includes "Successfully built" stderr = false.
Proof.
  intros Hready Hout. rewrite (buildImage_primary _ _ _ _ _ Hready), Hout. clear Hout.
  destruct (Str.includes "ERROR" stderr), (Str.includes "Successfully built" stderr);
    cbn [andb negb]; try done;
    (split; [|intros [? ?]; discriminate]);
    destruct (process_outcome _ _ _ _) as [[|c|c] so se|so se]; try discriminate;
    destruct (Str.truthy _); discriminate.
Qed.

Lemma stderr_classification_witness :
  ((buildImage
      (Sample.runtime (Sample.replies [Exited 0 EmptyString "ERROR: no such file"]))
      "FROM node:18" "b1" None (Sample.start Sample.disk)).1
     = Normal (failed "Docker build failed: ERROR: no such file")
   ↔ Str.includes "ERROR" "ERROR: no such file" = true ∧
     Str.includes "Successfully built" "ERROR: no such file" = false) ∧
  ((buildImage
      (Sample.runtime
         (Sample.replies
            [Exited 0 EmptyString
               ("ERROR: deprecated flag" +:+ Str.nl +:+ "Successfully built abc123")]))
      "FROM node:18" "b1" None (Sample.start Sample.disk)).1
     = Normal (failed ("Docker build failed: " +:+
                       ("ERROR: deprecated flag" +:+ Str.nl +:+ "Successfully built abc123")))
   ↔ Str.includes "ERROR"
       ("ERROR: deprecated flag" +:+ Str.nl +:+ "Successfully built abc123") = true ∧
     Str.includes "Successfully built"
       ("ERROR: deprecated flag" +:+ Str.nl +:+ "Successfully built abc123") = false).
Proof.
  split.
  - apply (stderr_classification _ "FROM node:18" "b1" None (Sample.start Sample.disk)
             EmptyString "ERROR: no such file").
    + repeat split; vm_compute; done.
    + vm_compute; reflexivity.
  - apply (stderr_classification _ "FROM node:18" "b1" None (Sample.start Sample.disk)
             EmptyString).
    + repeat split; vm_compute; done.
    + vm_compute; reflexivity.
Defined.

(** ** Verification of the image *)



(** ** The shape of the result *)

Lemma wellFormed_succeeded (buildId : string) : wellFormed buildId (succeeded buildId).
Proof. by left. Qed.

Lemma wellFormed_failed (buildId message : string) :
  message ≠ EmptyString → wellFormed buildId (failed message).
Proof. intros Hne. right. split_and!; [done..|]. by exists message. Qed.

Lemma wellFormed_exhausted (buildId message : string) : wellFormed buildId (exhausted message).
Proof. by apply wellFormed_failed. Qed.

Lemma wellFormed_iff (buildId : string) (r : BuildResult) :
  wellFormed buildId r →
  (success r = true ↔
     ∃ tag, imageId r = Some tag ∧ tag ≠ EmptyString ∧
            tag = "dockgen-ai-" +:+ buildId +:+ ":latest") ∧
  (success r = false ↔ ∃ message, error r = Some message ∧ message ≠ EmptyString).
Proof.
  intros [(Hs & Hi & He)|(Hs & Hi & message & He & Hne)]; (split; split).
  - intros _. by eexists.
  - done.
  - congruence.
  - intros (message & He' & _). congruence.
  - congruence.
  - intros (tag & Hi' & _). congruence.
  - intros _. by exists message.
  - done.
Qed.

#[local] Hint Resolve wellFormed_succeeded wellFormed_failed wellFormed_exhausted : shape.
#[local] Hint Extern 1 (_ ≠ EmptyString) => done : shape.

Lemma createSourceFiles_throws (ws : Path.t) (rd : option RepositoryData) (w w' : World)
    (e : Thrown) :
  createSourceFiles ws rd w = (Abrupt e, w') → described e.
Proof.
  unfold createSourceFiles. rewrite bind_run, fileExists_run.
  destruct (FS.present _ _); cbn [negb]; [done|].
  by intros (_ & ?)%writeFile_throws.
Qed.

Lemma assembleWorkspace_throws (ws : Path.t) (text : string) (rd : option RepositoryData)
    (w w' : World) (e : Thrown) :
  assembleWorkspace ws text rd w = (Abrupt e, w') → described e.
Proof.
  unfold assembleWorkspace, createDockerignore. rewrite bind_run.
  destruct (Fs.writeFile _ _ w) as [[[]|e1] w1] eqn:H1; cycle 1.
  { intros [= <- <-]. by apply writeFile_throws in H1 as (_ & ?). }
  rewrite bind_run.
  destruct (Fs.writeFile _ _ w1) as [[[]|e2] w2] eqn:H2; cycle 1.
  { intros [= <- <-]. by apply writeFile_throws in H2 as (_ & ?). }
  rewrite bind_run, fileExists_run, bind_run.
  destruct (FS.present _ _); cbn [negb].
  - apply createSourceFiles_throws.
  - destruct (Fs.writeFile _ _ w2) as [[[]|e3] w3] eqn:H3; cycle 1.
    { intros [= <- <-]. by apply writeFile_throws in H3 as (_ & ?). }
    apply createSourceFiles_throws.
Qed.

Lemma assembleWorkspace_unit (ws : Path.t) (text : string) (rd : option RepositoryData)
    (w : World) :
  (∃ w', assembleWorkspace ws text rd w = (Normal tt, w')) ∨
  (∃ e w', assembleWorkspace ws text rd w = (Abrupt e, w') ∧ described e).
Proof.
  destruct (assembleWorkspace ws text rd w) as [[[]|e] w'] eqn:Hrun.
  - left. by exists w'.
  - right. exists e, w'. split; [done|]. by eapply assembleWorkspace_throws.
Qed.

Section Shape.

Variable rt : Runtime.

Lemma createFallbackBuild_wellFormed (text buildId : string) (rd : option RepositoryData)
    (w : World) :
  ∃ r, (createFallbackBuild rt text buildId rd w).1 = Normal r ∧ wellFormed buildId r.
Proof.
  destruct (decide (fallbackReady rt buildId w)) as [Hready|Hnot].
  - rewrite (createFallbackBuild_ready _ _ _ _ _ Hready). cbv zeta.
    repeat case_match; eauto with shape.
  - destruct (createFallbackBuild_not_ready rt text buildId rd w Hnot) as (m & _ & ->).
    eauto with shape.
Qed.

Lemma buildImage_wellFormed (text buildId : string) (rd : option RepositoryData) (w : World) :
  ∃ r, (buildImage rt text buildId rd w).1 = Normal r ∧ wellFormed buildId r.
Proof.
  destruct (decide (primaryReady rt text w)) as [Hready|Hnot].
  { rewrite (buildImage_primary _ _ _ _ _ Hready). cbv zeta.
    repeat case_match; eauto with shape. }
  unfold buildImage, try_catch. rewrite bind_run. cbn [uuidv4]. fold (workspaceOf rt w).
  rewrite bind_run.
  destruct (Fs.mkdir_recursive (workspaceOf rt w) (drew w)) as [[[]|e] w1] eqn:Hmk; cycle 1.
  { apply mkdir_recursive_throws in Hmk as (_ & m & -> & Hne). eauto with shape. }
  destruct (isValid (validateDockerfile rt text)) eqn:Hvalid; cbn [negb].
  - rewrite bind_run.
    destruct (assembleWorkspace_unit (workspaceOf rt w) text rd w1)
      as [[w2 Hasm]|(e & w2 & Hasm & m & -> & Hne)].
    + destruct Hnot. eapply (reaches_primaryReady _ _ rd w w2). split; [done|]. by exists w1.
    + rewrite Hasm. eauto with shape.
  - destruct (createFallbackBuild_wellFormed text buildId rd w1) as (r & Hr & Hwf).
    destruct (createFallbackBuild rt text buildId rd w1) as [[r'|e] w']; [|done].
    simpl in Hr. injection Hr as ->. eauto.
Qed.

End Shape.

(** C2.  Whatever the inputs and the world, [buildImage] and
    [createFallbackBuild] return (they never throw), and the result has one
    of two shapes: success with the tag [dockgen-ai-<buildId>:latest] and no
    message, or failure with a non-empty message and no tag.  Hence the
    success flag is true exactly when the tag is there, and false exactly
    when a message is there. *)
Theorem result_contract (rt : Runtime) (text buildId : string)
    (rd : option RepositoryData) (w : World) :
  (∃ r, (buildImage rt text buildId rd w).1 = Normal r ∧
        wellFormed buildId r ∧
        (success r = true ↔
           ∃ tag, imageId r = Some tag ∧ tag ≠ EmptyString ∧
                  tag = "dockgen-ai-" +:+ buildId +:+ ":latest") ∧
        (success r = false ↔ ∃ message, error r = Some message ∧ message ≠ EmptyString)) ∧
  (∃ r, (createFallbackBuild rt text buildId rd w).1 = Normal r ∧
        wellFormed buildId r ∧
        (success r = true ↔
           ∃ tag, imageId r = Some tag ∧ tag ≠ EmptyString ∧
                  tag = "dockgen-ai-" +:+ buildId +:+ ":latest") ∧
        (success r = false ↔ ∃ message, error r = Some message ∧ message ≠ EmptyString)).
Proof.
  split.
  - destruct (buildImage_wellFormed rt text buildId rd w) as (r & Hr & Hwf).
    exists r. repeat (split; [done|]). by apply wellFormed_iff.
  - destruct (createFallbackBuild_wellFormed rt text buildId rd w) as (r & Hr & Hwf).
    exists r. repeat (split; [done|]). by apply wellFormed_iff.
Qed.

(** ** A failed build on the primary path *)

(** C1, as the code has it.  When the text is accepted, the build context
    is written and the build fails, the invocation returns the failure with
    the message of that failure; one child process has been started and the
    files are those of the build context, so the fallback has not run. *)
Theorem build_failure_is_final (rt : Runtime) (text buildId : string)
    (rd : option RepositoryData) (w : World) :
  primaryReady rt text w →
  buildFails (process_outcome rt (spawned w) (buildCommandFor (imageName buildId))
                (buildOptions (workspaceOf rt w))) →
  buildImage rt text buildId rd w =
    (Normal (failed (failureMessage (buildCommandFor (imageName buildId))
                       (process_outcome rt (spawned w) (buildCommandFor (imageName buildId))
                          (buildOptions (workspaceOf rt w))))),
     started (contextWritten rt text rd w)).
Proof.
  intros Hready Hfails. rewrite (buildImage_primary _ _ _ _ _ Hready). cbv zeta.
  destruct (process_outcome _ _ _ _) as [[|c|c] so se|so se]; cbn in *; try done.
  by rewrite Hfails.
Qed.

Lemma build_failure_is_final_witness :
  buildImage (Sample.runtime Sample.workspaceBuildTimesOut) "FROM node:18" "b1" None
    (Sample.start Sample.disk_b1)
  = (Normal (failed ("Command failed: docker build --no-cache --progress=plain " +:+
                     "-t dockgen-ai-b1:latest ." +:+ Str.nl)),
     started (contextWritten (Sample.runtime Sample.workspaceBuildTimesOut)
                "FROM node:18" None (Sample.start Sample.disk_b1))).
Proof.
  apply (build_failure_is_final (Sample.runtime Sample.workspaceBuildTimesOut)
           "FROM node:18" "b1" None (Sample.start Sample.disk_b1)).
  - repeat split; vm_compute; done.
  - vm_compute. exact I.
Defined.

(** C1, as the specification has it, fails: the build in the workspace runs
    into the timeout, the fallback started at that point would succeed (its
    directory is there and the tool builds it), and the invocation returns
    the failure all the same. *)
Lemma fallback_after_build_failure_counterexample :
  let rt := Sample.runtime Sample.workspaceBuildTimesOut in
  let w := Sample.start Sample.disk_b1 in
  let run := buildImage rt "FROM node:18" "b1" None w in
  isValid (validateDockerfile rt "FROM node:18") = true ∧
  process_outcome rt (spawned w) (buildCommandFor (imageName "b1"))
    (buildOptions (workspaceOf rt w)) = Killed EmptyString EmptyString ∧
  (createFallbackBuild rt "FROM node:18" "b1" None run.2).1
    = Normal (succeeded "b1") ∧
  run.1 = Normal (failed ("Command failed: docker build --no-cache --progress=plain " +:+
                          "-t dockgen-ai-b1:latest ." +:+ Str.nl)) ∧
  run.1 ≠ (createFallbackBuild rt "FROM node:18" "b1" None run.2).1.
Proof. vm_compute. split_and!; done. Qed.

(** ** What the fallback does to the file system *)

Section FallbackEffects.

Variable rt : Runtime.

Lemma createFallbackBuild_files (text buildId : string) (rd : option RepositoryData)
    (w : World) :
  (createFallbackBuild rt text buildId rd w).2 = w ∨
  (fallbackReady rt buildId w ∧
   files (createFallbackBuild rt text buildId rd w).2 =
     <[fallbackDirOf rt buildId ++ ["Dockerfile"] := File fallbackDockerfile]> (files w)).
Proof.
  destruct (decide (fallbackReady rt buildId w)) as [Hready|Hnot].
  - right. split; [done|].
    rewrite (createFallbackBuild_ready _ _ _ _ _ Hready). cbv zeta.
    by repeat case_match.
  - left. by destruct (createFallbackBuild_not_ready rt text buildId rd w Hnot) as (m & _ & ->).
Qed.

Lemma createFallbackBuild_keeps_dirs (text buildId : string) (rd : option RepositoryData)
    (w : World) (q : Path.t) :
  files w !! q = Some Dir →
  files (createFallbackBuild rt text buildId rd w).2 !! q = Some Dir.
Proof.
  intros Hq.
  destruct (createFallbackBuild_files text buildId rd w) as [->|[[_ Hfile] ->]]; [done|].
  rewrite lookup_insert_ne; [done|]. congruence.
Qed.

Lemma buildImage_rejected_text (text buildId : string) (rd : option RepositoryData)
    (w : World) :
  isValid (validateDockerfile rt text) = false →
  List.find (FS.isFile (files w)) (FS.ancestors_or_self (workspaceOf rt w)) = None →
  buildImage rt text buildId rd w =
    createFallbackBuild rt text buildId rd
      (with_files (foldr (λ q m, <[q:=Dir]> m) (files w)
                     (FS.ancestors_or_self (workspaceOf rt w))) (drew w)).
Proof.
  intros Hvalid Hfind.
  unfold buildImage, try_catch. rewrite bind_run. cbn [uuidv4]. fold (workspaceOf rt w).
  rewrite bind_run. unfold Fs.mkdir_recursive. cbn [files drew]. rewrite Hfind, Hvalid.
  cbn [negb].
  match goal with |- context [createFallbackBuild rt text buildId rd ?w1] =>
    destruct (createFallbackBuild_wellFormed rt text buildId rd w1) as (r & Hr & _);
    destruct (createFallbackBuild rt text buildId rd w1) as [[r'|e] w']; done
  end.
Qed.

End FallbackEffects.

(** ** The workspace after a failure *)

Lemma remove_tree_lookup (m : gmap (list string) Node) (p q : Path.t) :
  p `prefix_of` q → FS.remove_tree m p !! q = None.
Proof.
  intros Hpre. unfold FS.remove_tree. apply map_lookup_filter_None.
  right. intros n _ Hkeep. by apply Hkeep.
Qed.

(** On the one path that ends in success the workspace is removed, with
    everything in it. *)
Lemma workspace_removed_on_success (rt : Runtime) (text buildId : string)
    (rd : option RepositoryData) (w : World) (q : Path.t) :
  primaryReady rt text w →
  (buildImage rt text buildId rd w).1 = Normal (succeeded buildId) →
  workspaceOf rt w `prefix_of` q →
  files (buildImage rt text buildId rd w).2 !! q = None.
Proof.
  intros Hready Hok Hpre. rewrite (buildImage_primary _ _ _ _ _ Hready) in *.
  cbv zeta in *.
  destruct (process_outcome rt (spawned w) _ _) as [[|?|?] ? stderr|? ?]; try done.
  destruct (_ && _); [done|].
  destruct (process_outcome rt (S (spawned w)) _ _) as [[|?|?] ? ?|? ?]; try done.
  destruct (Str.truthy _); [|done].
  cbn [snd files with_files]. by apply remove_tree_lookup.
Qed.

(** C5, on the failing paths.  When the build of the primary path fails,
    and when the text is rejected and the fallback is run instead, the
    workspace directory that the invocation created is still there when
    the invocation returns. *)
Theorem workspace_left_behind (rt : Runtime) (text buildId : string)
    (rd : option RepositoryData) (w : World) :
  (primaryReady rt text w ∧
   buildFails (process_outcome rt (spawned w) (buildCommandFor (imageName buildId))
                 (buildOptions (workspaceOf rt w)))) ∨
  (isValid (validateDockerfile rt text) = false ∧
   List.find (FS.isFile (files w)) (FS.ancestors_or_self (workspaceOf rt w)) = None) →
  files (buildImage rt text buildId rd w).2 !! workspaceOf rt w = Some Dir.
Proof.
  intros [[Hready Hfails]|[Hvalid Hfind]].
  - assert (Hws : files (started (contextWritten rt text rd w)) !! workspaceOf rt w = Some Dir).
    { cbn [files started contextWritten with_files].
      apply reachable_self, assembled_reachable, reachable_mkdirs. }
    rewrite (buildImage_primary _ _ _ _ _ Hready). cbv zeta.
    destruct (process_outcome _ _ _ _) as [[|c|c] so se|so se]; cbn in Hfails; try done.
    by rewrite Hfails.
  - rewrite (buildImage_rejected_text _ _ _ _ _ Hvalid Hfind).
    apply createFallbackBuild_keeps_dirs. cbn [files with_files]. rewrite lookup_mkdirs.
    by rewrite decide_True by apply self_in_ancestors.
Qed.

Lemma workspace_left_behind_witness :
  files (buildImage (Sample.runtime Sample.workspaceBuildTimesOut) "FROM node:18" "b1" None
           (Sample.start Sample.disk)).2 !! Sample.workspace = Some Dir ∧
  files (buildImage (Sample.runtime Sample.workspaceBuildTimesOut) "RUN npm ci" "b1" None
           (Sample.start Sample.disk)).2 !! Sample.workspace = Some Dir.
Proof.
  split.
  - apply (workspace_left_behind (Sample.runtime Sample.workspaceBuildTimesOut)
             "FROM node:18" "b1" None (Sample.start Sample.disk)).
    left. split; [repeat split; vm_compute; done | vm_compute; exact I].
  - apply (workspace_left_behind (Sample.runtime Sample.workspaceBuildTimesOut)
             "RUN npm ci" "b1" None (Sample.start Sample.disk)).
    right. split; vm_compute; reflexivity.
Defined.

(** ** The directory of the fallback *)

(** C7, as the code has it.  When the text is rejected, the fallback builds
    in the directory named by the build id under the build root.  Nothing
    creates that directory: when it is not there (and is not on the way to
    the workspace), writing the fallback Dockerfile fails with [ENOENT] or
    [ENOTDIR], and the invocation returns that failure having created the
    workspace of the primary path and nothing else; no file is written and
    no process is started. *)
Theorem fallback_has_no_workspace (rt : Runtime) (text buildId : string)
    (rd : option RepositoryData) (w : World) :
  isValid (validateDockerfile rt text) = false →
  List.find (FS.isFile (files w)) (FS.ancestors_or_self (workspaceOf rt w)) = None →
  files w !! fallbackDirOf rt buildId = None →
  fallbackDirOf rt buildId ∉ FS.ancestors_or_self (workspaceOf rt w) →
  ∃ code, code ∈ [FS.ENOENT; FS.ENOTDIR] ∧
    buildImage rt text buildId rd w =
      (Normal (failed ("Both original and fallback builds failed: " +:+
                       code +:+ ", open '" +:+
                       Path.to_string (fallbackDirOf rt buildId ++ ["Dockerfile"]) +:+ "'")),
       with_files (foldr (λ q m, <[q:=Dir]> m) (files w)
                     (FS.ancestors_or_self (workspaceOf rt w))) (drew w)).
Proof.
  intros Hvalid Hfind Hdir Hnot.
  rewrite (buildImage_rejected_text _ _ _ _ _ Hvalid Hfind).
  apply createFallbackBuild_missing_dir. cbn [files with_files].
  rewrite lookup_mkdirs. rewrite decide_False by done. by rewrite Hdir.
Qed.

Lemma fallback_has_no_workspace_witness :
  ∃ code, code ∈ [FS.ENOENT; FS.ENOTDIR] ∧
    buildImage (Sample.runtime (Sample.replies [])) "RUN npm ci" "b1" None
      (Sample.start Sample.disk)
    = (Normal (failed ("Both original and fallback builds failed: " +:+
                       code +:+ ", open '/app/temp/b1/Dockerfile'")),
       {| files := <[Sample.workspace := Dir]> Sample.disk; spawned := 0; drawn := 1 |}).
Proof.
  destruct (fallback_has_no_workspace (Sample.runtime (Sample.replies [])) "RUN npm ci" "b1"
              None (Sample.start Sample.disk)) as (code & Hcode & Hrun).
  - vm_compute. reflexivity.
  - vm_compute. reflexivity.
  - vm_compute. reflexivity.
  - vm_compute. intros H. repeat (apply elem_of_cons in H as [H|H]; [discriminate H|]).
    by apply not_elem_of_nil in H.
  - exists code. split; [exact Hcode|]. rewrite Hrun. f_equal.
Defined.

(** C10.  The fallback changes the file system at one path at most, the
    Dockerfile in the directory named by the build id under the build root,
    where it puts the fixed fallback Dockerfile.  The directory itself is
    neither created nor removed, and no other file in it is touched.  When
    the directory is not there the fallback returns a failure and leaves
    the world as it was. *)
Theorem fallback_frame (rt : Runtime) (text buildId : string)
    (rd : option RepositoryData) (w : World) :
  let dir := fallbackDirOf rt buildId in
  let run := createFallbackBuild rt text buildId rd w in
  (∀ q, q ≠ dir ++ ["Dockerfile"] → files run.2 !! q = files w !! q) ∧
  (files run.2 !! (dir ++ ["Dockerfile"]) = files w !! (dir ++ ["Dockerfile"]) ∨
   files run.2 !! (dir ++ ["Dockerfile"]) = Some (File fallbackDockerfile)) ∧
  files run.2 !! dir = files w !! dir ∧
  (∀ name, name ≠ "Dockerfile" → files run.2 !! (dir ++ [name]) = files w !! (dir ++ [name])) ∧
  (files w !! dir ≠ Some Dir →
   run.2 = w ∧ ∃ r, run.1 = Normal r ∧ success r = false).
Proof.
  intros dir run.
  assert (Hframe : ∀ q, q ≠ dir ++ ["Dockerfile"] → files run.2 !! q = files w !! q).
  { intros q Hq. unfold run.
    destruct (createFallbackBuild_files rt text buildId rd w) as [->|[_ ->]]; [done|].
    by rewrite lookup_insert_ne. }
  split_and!.
  - done.
  - unfold run.
    destruct (createFallbackBuild_files rt text buildId rd w) as [->|[_ ->]]; [by left|].
    right. apply lookup_insert_eq.
  - apply Hframe. intros H. symmetry in H. by apply snoc_neq in H.
  - intros name Hname. apply Hframe. by apply snoc_neq_name.
  - intros Hdir.
    destruct (createFallbackBuild_not_ready rt text buildId rd w) as (m & _ & Hrun).
    { by intros [Hr%reachable_self _]. }
    unfold run. rewrite Hrun. split; [done|]. by eexists.
Qed.

Lemma fallback_frame_witness :
  let run := createFallbackBuild (Sample.runtime (Sample.replies [])) "RUN npm ci" "b1" None
               (Sample.start Sample.disk) in
  run.2 = Sample.start Sample.disk ∧ ∃ r, run.1 = Normal r ∧ success r = false.
Proof.
  apply (fallback_frame (Sample.runtime (Sample.replies [])) "RUN npm ci" "b1" None
           (Sample.start Sample.disk)).
  vm_compute. discriminate.
Defined.

(** ** The dependency manifest *)

Lemma assembled_package_json (ws : Path.t) (text : string) (rd : option RepositoryData)
    (m : gmap (list string) Node) :
  assembled ws text rd m !! (ws ++ ["package.json"]) =
    match m !! (ws ++ ["package.json"]) with
    | Some n => Some n
    | None => Some (File (JSON.stringify (createPackageJson rd)))
    end.
Proof.
  unfold assembled. cbv zeta.
  rewrite !exists_insert_ne by (by apply snoc_neq_name).
  destruct (m !! (ws ++ ["package.json"])) as [n|] eqn:Hp.
  - replace (FS.exists_ m (ws ++ ["package.json"])) with true
      by (unfold FS.exists_; by rewrite Hp).
    destruct (FS.exists_ _ (ws ++ ["index.js"]));
      by rewrite !lookup_insert_ne by (by apply snoc_neq_name).
  - replace (FS.exists_ m (ws ++ ["package.json"])) with false
      by (unfold FS.exists_; by rewrite Hp).
    destruct (FS.exists_ _ (ws ++ ["index.js"]));
      rewrite ?(lookup_insert_ne _ (ws ++ ["index.js"])) by (by apply snoc_neq_name);
      apply lookup_insert_eq.
Qed.

Lemma assembled_Dockerfile (ws : Path.t) (text : string) (rd : option RepositoryData)
    (m : gmap (list string) Node) :
  assembled ws text rd m !! (ws ++ ["Dockerfile"]) = Some (File text).
Proof.
  unfold assembled. cbv zeta.
  repeat case_match; rewrite ?lookup_insert_ne by (by apply snoc_neq_name);
    apply lookup_insert_eq.
Qed.

Lemma assembled_dockerignore (ws : Path.t) (text : string) (rd : option RepositoryData)
    (m : gmap (list string) Node) :
  assembled ws text rd m !! (ws ++ [".dockerignore"]) = Some (File dockerignoreContent).
Proof.
  unfold assembled. cbv zeta.
  repeat case_match; rewrite ?lookup_insert_ne by (by apply snoc_neq_name);
    apply lookup_insert_eq.
Qed.

Lemma assembleWorkspace_ready (ws : Path.t) (text : string) (rd : option RepositoryData)
    (w : World) :
  assemblyReady ws w →
  assembleWorkspace ws text rd w = (Normal tt, with_files (assembled ws text rd (files w)) w) ∧
  assemblyReady ws (with_files (assembled ws text rd (files w)) w).
Proof.
  intros (Hws & Hd & Hi). split; [by apply assembleWorkspace_run|].
  unfold assemblyReady. cbn [files with_files].
  rewrite assembled_Dockerfile, assembled_dockerignore.
  split_and!; [by apply assembled_reachable | done..].
Qed.

(** C9.  In a workspace the build context can be written into, the
    assembly step succeeds, and so does a second run of it, with any text
    and repository data.  The first run writes the manifest file only when
    nothing is at its path, and then writes [JSON.stringify] of what
    [createPackageJson] returns, which is the manifest object of the
    repository data itself when there is one; otherwise it leaves the node
    at the path as it is.  The second run leaves the manifest file as the
    first one left it. *)
Theorem manifest_idempotent (ws : Path.t) (text text' : string)
    (rd rd' : option RepositoryData) (w : World) :
  assemblyReady ws w →
  let manifest := ws ++ ["package.json"] in
  let first := assembleWorkspace ws text rd w in
  let second := assembleWorkspace ws text' rd' first.2 in
  first.1 = Normal tt ∧
  second.1 = Normal tt ∧
  (files w !! manifest = None →
   files first.2 !! manifest = Some (File (JSON.stringify (createPackageJson rd)))) ∧
  (∀ pkg, rd ≫= packageJson = Some pkg → JSON.truthy pkg = true →
          createPackageJson rd = pkg) ∧
  (is_Some (files w !! manifest) → files first.2 !! manifest = files w !! manifest) ∧
  files second.2 !! manifest = files first.2 !! manifest.
Proof.
  intros Hready manifest first second.
  destruct (assembleWorkspace_ready ws text rd w Hready) as [Hfirst Hready1].
  destruct (assembleWorkspace_ready ws text' rd' _ Hready1) as [Hsecond _].
  unfold second, first, manifest. rewrite Hfirst. cbn [fst snd]. rewrite Hsecond.
  cbn [fst snd files with_files]. rewrite !assembled_package_json.
  split_and!; try done.
  - by intros ->.
  - intros pkg Hpkg Htruthy. unfold createPackageJson. by rewrite Hpkg, Htruthy.
  - by intros [n ->].
  - by destruct (files w !! (ws ++ ["package.json"])).
Qed.

Lemma manifest_idempotent_witness :
  let ws := Sample.workspace in
  let w := Sample.created Sample.disk in
  let first := assembleWorkspace ws "FROM node:18" (Some {| packageJson := Some Sample.manifest |}) w in
  let second := assembleWorkspace ws "FROM node:20" None first.2 in
  files first.2 !! (ws ++ ["package.json"]) = Some (File (JSON.stringify Sample.manifest)) ∧
  files second.2 !! (ws ++ ["package.json"]) = Some (File (JSON.stringify Sample.manifest)).
Proof.
  intros ws w first second.
  destruct (manifest_idempotent ws "FROM node:18" "FROM node:20"
              (Some {| packageJson := Some Sample.manifest |}) None w)
    as (_ & _ & Habsent & Hexact & _ & Hsame).
  - compute_done.
  - assert (Hfirst : files first.2 !! (ws ++ ["package.json"])
                     = Some (File (JSON.stringify Sample.manifest))).
    { unfold first. rewrite Habsent by (vm_compute; reflexivity).
      by rewrite (Hexact Sample.manifest) by reflexivity. }
    split; [done|]. unfold second, first in *. by rewrite Hsame.
Defined.

(** ** A rejected text *)

Section Rejected.

Variable rt : Runtime.

Lemma createFallbackBuild_cases (text buildId : string) (rd : option RepositoryData)
    (w : World) :
  (createFallbackBuild rt text buildId rd w).1 = Normal (succeeded buildId) ∨
  ∃ cause, fallbackCause rt buildId cause ∧
           (createFallbackBuild rt text buildId rd w).1 = Normal (exhausted cause).
Proof.
  destruct (decide (fallbackReady rt buildId w)) as [Hready|Hnot].
  - rewrite (createFallbackBuild_ready _ _ _ _ _ Hready). cbv zeta.
    process_cases rt w; cbn [fst]; first [by left | right; eexists; (split; [|reflexivity])];
      unfold fallbackCause;
      first [ by right; right; right
            | right; left; by eexists
            | right; right; left; by eexists ].
  - right. unfold createFallbackBuild, try_catch. cbv zeta.
    fold (fallbackDirOf rt buildId). rewrite join_Dockerfile, bind_run.
    destruct (Fs.writeFile _ _ w) as [[[]|e] w1] eqn:Hw.
    + apply writeFile_ok in Hw as (Hdir & Hfile & _). by destruct Hnot.
    + apply writeFile_throws_code in Hw as (_ & code & Hcode & ->).
      eexists. split; [|reflexivity]. left. by exists code.
Qed.

Lemma createFallbackBuild_result_ext (text buildId : string) (rd : option RepositoryData)
    (w w' : World) :
  spawned w = spawned w' →
  (∀ q, q ∈ FS.ancestors_or_self (fallbackDirOf rt buildId)
              ++ [fallbackDirOf rt buildId ++ ["Dockerfile"]] →
        files w !! q = files w' !! q) →
  (createFallbackBuild rt text buildId rd w).1 = (createFallbackBuild rt text buildId rd w').1.
Proof.
  intros Hs Hsame.
  assert (Hdir : ∀ q, q ∈ FS.ancestors_or_self (fallbackDirOf rt buildId) →
                      files w !! q = files w' !! q).
  { intros q Hq. apply Hsame, elem_of_app. by left. }
  assert (Hfile : files w !! (fallbackDirOf rt buildId ++ ["Dockerfile"])
                  = files w' !! (fallbackDirOf rt buildId ++ ["Dockerfile"])).
  { apply Hsame, elem_of_app. right. apply list_elem_of_here. }
  destruct (decide (fallbackReady rt buildId w)) as [Hready|Hnot].
  - assert (Hready' : fallbackReady rt buildId w').
    { destruct Hready as [Hr Hf]. split; [|congruence].
      unfold FS.reachable in *. rewrite Forall_forall in *.
      intros q Hq. rewrite <- Hdir by done. by apply Hr. }
    rewrite (createFallbackBuild_ready _ _ _ _ _ Hready).
    rewrite (createFallbackBuild_ready _ _ _ _ _ Hready'). cbv zeta. rewrite Hs.
    by process_cases rt w'.
  - pose proof (writeFile_result_ext (fallbackDirOf rt buildId ++ ["Dockerfile"])
                  fallbackDockerfile w w') as Hext.
    rewrite ancestors_snoc in Hext. specialize (Hext Hdir Hfile).
    unfold createFallbackBuild, try_catch. cbv zeta.
    fold (fallbackDirOf rt buildId). rewrite join_Dockerfile, !bind_run.
    destruct (Fs.writeFile _ _ w) as [[[]|e] w1] eqn:Hw.
    + apply writeFile_ok in Hw as (Hd & Hf & _). by destruct Hnot.
    + destruct (Fs.writeFile _ _ w') as [[[]|e'] w1']; simpl in Hext; [done|].
      by injection Hext as ->.
Qed.








End Rejected.




(** ** The message when the fallback fails too *)

(** C8, as the code has it.  When the text is rejected (the only way the
    fallback is reached), the workspace can be created and the invocation
    returns a failure, its message is the fixed prefix followed by the
    cause of the fallback's failure, and nothing else: the result is the
    same for every rejected text, so what the validator found wrong with the
    text is not part of it. *)
Theorem exhausted_message (rt : Runtime) (text buildId : string)
    (rd : option RepositoryData) (w : World) (r : BuildResult) :
  isValid (validateDockerfile rt text) = false →
  List.find (FS.isFile (files w)) (FS.ancestors_or_self (workspaceOf rt w)) = None →
  (buildImage rt text buildId rd w).1 = Normal r →
  success r = false →
  (∃ cause, fallbackCause rt buildId cause ∧ cause ≠ EmptyString ∧
            error r = Some ("Both original and fallback builds failed: " +:+ cause)) ∧
  (∀ text' rd', isValid (validateDockerfile rt text') = false →
                (buildImage rt text' buildId rd' w).1 = Normal r).
Proof.
  intros Hvalid Hfind Hrun Hfailed. split.
  - rewrite (buildImage_rejected_text _ _ _ _ _ Hvalid Hfind) in Hrun.
    match type of Hrun with context [createFallbackBuild rt text buildId rd ?w1] =>
      destruct (createFallbackBuild_cases rt text buildId rd w1)
        as [Hok|(cause & Hcause & Hex)]
    end.
    + rewrite Hok in Hrun. injection Hrun as <-. discriminate Hfailed.
    + rewrite Hex in Hrun. injection Hrun as <-. exists cause. split_and!; [done| |done].
      destruct Hcause as [(code & Hcode & [= <-])|[[se ->]|[[se ->]| ->]]]; try done.
      apply truthy_neq, app_truthy.
      repeat (apply elem_of_cons in Hcode as [->|Hcode]; [done|]).
      by apply not_elem_of_nil in Hcode.
  - intros text' rd' Hvalid'. rewrite <- Hrun.
    by rewrite (buildImage_rejected_text _ _ _ _ _ Hvalid' Hfind),
               (buildImage_rejected_text _ _ _ _ _ Hvalid Hfind).
Qed.

Lemma exhausted_message_witness :
  let rt := Sample.runtime (Sample.replies [Exited 1 EmptyString "no space left on device"]) in
  let message := "Both original and fallback builds failed: " +:+
                 "Command failed: docker build --no-cache --progress=plain " +:+
                 "-t dockgen-ai-b1:latest ." +:+ Str.nl +:+ "no space left on device" in
  (buildImage rt "RUN npm ci" "b1" None (Sample.start Sample.disk_b1)).1
    = Normal (failed message) ∧
  (buildImage rt "EXPOSE $PORT" "b1" None (Sample.start Sample.disk_b1)).1
    = Normal (failed message).
Proof.
  intros rt message.
  assert (Hrun : (buildImage rt "RUN npm ci" "b1" None (Sample.start Sample.disk_b1)).1
                 = Normal (failed message)) by (vm_compute; reflexivity).
  split; [exact Hrun|].
  refine (proj2 (exhausted_message rt "RUN npm ci" "b1" None (Sample.start Sample.disk_b1)
                   (failed message) _ _ Hrun _) "EXPOSE $PORT" None _);
    vm_compute; reflexivity.
Defined.

(** C8, as the specification has it, fails: the text is rejected for having
    no base image, the fallback cannot write its Dockerfile, and the message
    of the result says the latter only. *)
Lemma exhausted_message_counterexample :
  let rt := Sample.runtime (Sample.replies []) in
  let message := "Both original and fallback builds failed: " +:+
                 "ENOENT: no such file or directory, open '/app/temp/b1/Dockerfile'" in
  errors (validateDockerfile rt "RUN npm ci") = ["Dockerfile must contain a FROM instruction"] ∧
  (buildImage rt "RUN npm ci" "b1" None (Sample.start Sample.disk)).1
    = Normal (failed message) ∧
  Str.includes "Dockerfile must contain a FROM instruction" message = false.
Proof. vm_compute. split_and!; done. Qed.

(** * Further properties of the engine *)

(** ** The image store *)

Section RegistryFacts.

Variable rt : Runtime.
Variable JSON_parse : string → Completion Json.

Lemma imageName_marked (buildId : string) :
  Str.includes "dockgen-ai" (imageName buildId) = true.
Proof.
  apply includes_spec. by exists EmptyString, ("-" +:+ buildId +:+ ":latest").
Qed.

Lemma elem_of_filter_includes (sub line : string) (l : list string) :
  line ∈ List.filter (λ s, Str.includes sub s) l ↔
  line ∈ l ∧ ∃ pre post, line = pre +:+ sub +:+ post.
Proof.
  rewrite !list_elem_of_In, filter_In, includes_spec. done.
Qed.


(** X2.  The listing never hides an image of this engine: when the tag of
    a build id is a line of the (trimmed) output of a listing that went
    through, [listImages] returns it. *)
Theorem listImages_keeps_own_tags (buildId stdout stderr : string) (w : World) :
  process_outcome rt (spawned w) listImagesCommand noOptions = Exited 0 stdout stderr →
  imageName buildId ∈ Str.split (Ascii.ascii_of_nat 10) (Str.trim stdout) →
  ∃ lines, listImages rt w = (Normal lines, started w) ∧
           "dockgen-ai-" +:+ buildId +:+ ":latest" ∈ lines.
Proof.
  intros Hout Hline. unfold listImages, try_catch. rewrite bind_run.
  rewrite (execAsync_resolves _ _ _ _ _ _ Hout). cbv beta iota.
  eexists. split; [reflexivity|]. apply elem_of_filter_includes. split; [done|].
  apply includes_spec, imageName_marked.
Qed.

(** X3.  The other queries never throw either; each starts one process and
    leaves the files alone.  [getImageInfo] returns what [JSON.parse] makes
    of the output of an inspection that exited with status 0, and [null]
    when the process ends otherwise or the output does not parse;
    [deleteImage] and [isDockerAvailable] return whether their process
    exited with status 0. *)
Theorem registry_queries_never_throw (name : string) (w : World) :
  getImageInfo rt JSON_parse name w =
    (Normal match process_outcome rt (spawned w) ("docker inspect " +:+ name) noOptions with
            | Exited 0 stdout _ =>
                match JSON_parse stdout with Normal v => v | Abrupt _ => JNull end
            | Exited _ _ _ | Killed _ _ => JNull
            end,
     started w) ∧
  deleteImage rt name w =
    (Normal match process_outcome rt (spawned w) ("docker rmi " +:+ name) noOptions with
            | Exited 0 _ _ => true
            | Exited _ _ _ | Killed _ _ => false
            end,
     started w) ∧
  isDockerAvailable rt w =
    (Normal match process_outcome rt (spawned w) "docker --version" noOptions with
            | Exited 0 _ _ => true
            | Exited _ _ _ | Killed _ _ => false
            end,
     started w).
Proof.
  unfold getImageInfo, deleteImage, isDockerAvailable, try_catch.
  rewrite !bind_run. unfold execAsync. split_and!.
  - destruct (process_outcome rt (spawned w) _ _) as [[|c|c] so se|so se]; try done.
    cbv beta iota. by destruct (JSON_parse so).
  - by destruct (process_outcome rt (spawned w) _ _) as [[|c|c] so se|so se].
  - by destruct (process_outcome rt (spawned w) _ _) as [[|c|c] so se|so se].
Qed.

End RegistryFacts.


Lemma listImages_keeps_own_tags_witness :
  let rt := Sample.runtime
              (Sample.replies
                 [Exited 0 ("node:18" +:+ Str.nl +:+ "dockgen-ai-b1:latest" +:+ Str.nl)
                    EmptyString]) in
  ∃ lines, listImages rt (Sample.start Sample.disk)
             = (Normal lines, started (Sample.start Sample.disk)) ∧
           "dockgen-ai-b1:latest" ∈ lines.
Proof.
  intros rt.
  apply (listImages_keeps_own_tags rt "b1"
           ("node:18" +:+ Str.nl +:+ "dockgen-ai-b1:latest" +:+ Str.nl) EmptyString).
  - reflexivity.
  - vm_compute. set_solver.
Defined.

(** ** The build root *)

Lemma ancestors_or_self_split (p : Path.t) :
  FS.ancestors_or_self p = FS.ancestors p ++ [p].
Proof.
  destruct p as [|x d _] using rev_ind; [done|].
  by rewrite ancestors_snoc, ancestors_or_self_snoc.
Qed.

Lemma find_isFile_None (m : gmap (list string) Node) (l : list Path.t) :
  List.find (FS.isFile m) l = None ↔ Forall (λ q, FS.isFile m q = false) l.
Proof.
  induction l as [|q l IH]; cbn [List.find].
  - split; [constructor | done].
  - destruct (FS.isFile m q) eqn:Hq.
    + split; [done | inversion 1; congruence].
    + rewrite IH. split; [by constructor | by inversion 1].
Qed.

Lemma mkdirs_keeps (m : gmap (list string) Node) (l : list Path.t) (q : Path.t) (n : Node) :
  List.find (FS.isFile m) l = None →
  m !! q = Some n → foldr (λ q m, <[q:=Dir]> m) m l !! q = Some n.
Proof.
  intros Hfind Hq. rewrite lookup_mkdirs. case_decide as Hin; [|done].
  apply find_isFile_None in Hfind. rewrite Forall_forall in Hfind.
  specialize (Hfind q Hin). unfold FS.isFile in Hfind. rewrite Hq in Hfind.
  by destruct n.
Qed.

Lemma mkdirs_twice (m : gmap (list string) Node) (l : list Path.t) :
  foldr (λ q m, <[q:=Dir]> m) (foldr (λ q m, <[q:=Dir]> m) m l) l
  = foldr (λ q m, <[q:=Dir]> m) m l.
Proof.
  apply map_eq. intros q. rewrite !lookup_mkdirs. by case_decide.
Qed.

Lemma mkdirs_no_file (m : gmap (list string) Node) (l : list Path.t) :
  List.find (FS.isFile (foldr (λ q m, <[q:=Dir]> m) m l)) l = None.
Proof.
  apply find_isFile_None, Forall_forall. intros q Hq.
  unfold FS.isFile. rewrite lookup_mkdirs. by rewrite decide_True.
Qed.

(** X4.  [initializeBuildDirectory] never throws and never changes or
    removes a node that is there: all it can do is make directories at
    paths on the way to the build root where nothing was.  Run a second
    time it changes nothing.  When no file is in the way, one can walk to
    the build root afterwards. *)
Theorem initializeBuildDirectory_only_adds (rt : Runtime) (w : World) :
  let w1 := (initializeBuildDirectory rt w).2 in
  (initializeBuildDirectory rt w).1 = Normal tt ∧
  (∀ q n, files w !! q = Some n → files w1 !! q = Some n) ∧
  (∀ q, files w !! q = None →
        files w1 !! q = None ∨
        (files w1 !! q = Some Dir ∧ q ∈ FS.ancestors_or_self (buildDirectory rt))) ∧
  initializeBuildDirectory rt w1 = (Normal tt, w1) ∧
  (List.find (FS.isFile (files w)) (FS.ancestors_or_self (buildDirectory rt)) = None →
   FS.reachable (files w1) (buildDirectory rt)).
Proof.
  unfold initializeBuildDirectory, try_catch, Fs.mkdir_recursive.
  destruct (List.find _ _) as [blocking|] eqn:Hfind;
    cbn [fst snd mret Async_ret].
  - split_and!; try done.
    + intros q Hq. by left.
    + by rewrite Hfind.
  - cbn [files with_files]. split_and!; try done.
    + intros q n Hq. by apply mkdirs_keeps.
    + intros q Hq. rewrite lookup_mkdirs. case_decide; [by right | by left].
    + rewrite mkdirs_no_file. by rewrite mkdirs_twice.
    + intros _. apply reachable_mkdirs.
Qed.

(** ** The build context *)

Lemma assembled_index_js (ws : Path.t) (text : string) (rd : option RepositoryData)
    (m : gmap (list string) Node) :
  assembled ws text rd m !! (ws ++ ["index.js"]) =
    match m !! (ws ++ ["index.js"]) with
    | Some n => Some n
    | None => Some (File indexJsContent)
    end.
Proof.
  unfold assembled. cbv zeta.
  set (m2 := <[ws ++ [".dockerignore"]:=_]> (<[ws ++ ["Dockerfile"]:=_]> m)).
  assert (H2 : m2 !! (ws ++ ["index.js"]) = m !! (ws ++ ["index.js"])).
  { unfold m2. by rewrite !lookup_insert_ne by (by apply snoc_neq_name). }
  set (m3 := if FS.exists_ m2 (ws ++ ["package.json"]) then m2 else _).
  assert (H3 : m3 !! (ws ++ ["index.js"]) = m !! (ws ++ ["index.js"])).
  { unfold m3. destruct (FS.exists_ m2 _); [done|].
    by rewrite lookup_insert_ne by (by apply snoc_neq_name). }
  unfold FS.exists_. rewrite H3.
  destruct (m !! (ws ++ ["index.js"])) as [n|] eqn:Hx; [by rewrite H3|].
  apply lookup_insert_eq.
Qed.

Lemma assembled_other (ws : Path.t) (text : string) (rd : option RepositoryData)
    (m : gmap (list string) Node) (q : Path.t) :
  q ∉ [ws ++ ["Dockerfile"]; ws ++ [".dockerignore"]; ws ++ ["package.json"];
       ws ++ ["index.js"]] →
  assembled ws text rd m !! q = m !! q.
Proof.
  intros Hq. unfold assembled. cbv zeta.
  repeat case_match; rewrite ?lookup_insert_ne; first [done | set_solver].
Qed.

(** X5.  In a workspace the build context can be written into, the assembly
    step always puts the given text into the Dockerfile and the fixed text
    into [.dockerignore], whatever was there; it keeps an [index.js] that
    exists and writes the placeholder where there is none; and it changes
    no node other than these three and [package.json]. *)
Theorem assembly_overwrites_and_keeps (ws : Path.t) (text : string)
    (rd : option RepositoryData) (w : World) :
  assemblyReady ws w →
  let w' := (assembleWorkspace ws text rd w).2 in
  files w' !! (ws ++ ["Dockerfile"]) = Some (File text) ∧
  files w' !! (ws ++ [".dockerignore"]) = Some (File dockerignoreContent) ∧
  (∀ n, files w !! (ws ++ ["index.js"]) = Some n →
        files w' !! (ws ++ ["index.js"]) = Some n) ∧
  (files w !! (ws ++ ["index.js"]) = None →
   files w' !! (ws ++ ["index.js"]) = Some (File indexJsContent)) ∧
  (∀ q, q ∉ [ws ++ ["Dockerfile"]; ws ++ [".dockerignore"]; ws ++ ["package.json"];
             ws ++ ["index.js"]] →
        files w' !! q = files w !! q).
Proof.
  intros Hready w'. unfold w'. rewrite assembleWorkspace_run by done.
  cbn [snd files with_files].
  rewrite assembled_Dockerfile, assembled_dockerignore, assembled_index_js.
  split_and!; try done.
  - by intros n ->.
  - by intros ->.
  - intros q Hq. by apply assembled_other.
Qed.

Lemma assembly_overwrites_and_keeps_witness :
  let w := with_files (<[Sample.workspace ++ ["Dockerfile"] := File "FROM scratch"]>
                         (<[Sample.workspace ++ ["index.js"] := File "require('./app')"]>
                            (files (Sample.created Sample.disk))))
             (Sample.created Sample.disk) in
  let w' := (assembleWorkspace Sample.workspace "FROM node:20" None w).2 in
  files w' !! (Sample.workspace ++ ["Dockerfile"]) = Some (File "FROM node:20") ∧
  files w' !! (Sample.workspace ++ ["index.js"]) = Some (File "require('./app')").
Proof.
  intros w w'.
  destruct (assembly_overwrites_and_keeps Sample.workspace "FROM node:20" None w)
    as (Hd & _ & Hkeep & _).
  - compute_done.
  - split; [exact Hd|]. apply Hkeep. vm_compute; reflexivity.
Defined.

Lemma assembled_twice (ws : Path.t) (text : string) (rd rd' : option RepositoryData)
    (m : gmap (list string) Node) :
  assembled ws text rd' (assembled ws text rd m) = assembled ws text rd m.
Proof.
  apply map_eq. intros q.
  destruct (decide (q ∈ [ws ++ ["Dockerfile"]; ws ++ [".dockerignore"];
                         ws ++ ["package.json"]; ws ++ ["index.js"]])) as [Hin|Hout].
  - repeat (apply elem_of_cons in Hin as [->|Hin]).
    + by rewrite !assembled_Dockerfile.
    + by rewrite !assembled_dockerignore.
    + rewrite (assembled_package_json ws text rd').
      rewrite (assembled_package_json ws text rd).
      by destruct (m !! (ws ++ ["package.json"])).
    + rewrite (assembled_index_js ws text rd').
      rewrite (assembled_index_js ws text rd).
      by destruct (m !! (ws ++ ["index.js"])).
    + by apply not_elem_of_nil in Hin.
  - by rewrite (assembled_other ws text rd') by done.
Qed.

(** X6.  The assembly step is idempotent: run again with the same text on
    the workspace it has just written (with any repository data), it
    succeeds and leaves every file as it is. *)
Theorem assembly_idempotent (ws : Path.t) (text : string)
    (rd rd' : option RepositoryData) (w : World) :
  assemblyReady ws w →
  let w' := (assembleWorkspace ws text rd w).2 in
  assembleWorkspace ws text rd' w' = (Normal tt, w').
Proof.
  intros Hready w'. unfold w'.
  destruct (assembleWorkspace_ready ws text rd w Hready) as [-> Hready'].
  cbn [snd]. rewrite assembleWorkspace_run by done.
  cbn [files with_files]. by rewrite assembled_twice.
Qed.

Lemma assembly_idempotent_witness :
  let w' := (assembleWorkspace Sample.workspace "FROM node:20"
               (Some {| packageJson := Some Sample.manifest |})
               (Sample.created Sample.disk)).2 in
  assembleWorkspace Sample.workspace "FROM node:20" None w' = (Normal tt, w').
Proof.
  apply (assembly_idempotent Sample.workspace "FROM node:20"
           (Some {| packageJson := Some Sample.manifest |}) None
           (Sample.created Sample.disk)).
  compute_done.
Defined.

(** ** Outside the tree that is removed *)

Lemma remove_tree_lookup_ne (m : gmap (list string) Node) (p q : Path.t) :
  ¬ p `prefix_of` q → FS.remove_tree m p !! q = m !! q.
Proof.
  intros Hpre. unfold FS.remove_tree. rewrite map_lookup_filter.
  destruct (m !! q) as [n|]; [|done]. cbn. by rewrite option_guard_True.
Qed.


(** * Properties of the repository data provider *)

(** ** Strings *)

Lemma prefix_app (p s : string) : String.prefix p (p +:+ s) = true.
Proof.
  induction p as [|a p IH]; [by destruct s|].
  simpl. by destruct (Ascii.ascii_dec a a).
Qed.

Lemma skip_app (p s : string) : Js.skip (String.length p) (p +:+ s) = s.
Proof. induction p as [|a p IH]; [by destruct s|]. done. Qed.

Lemma replace_found (p r s : string) :
  String.prefix p s = true → Js.replace p r s = r +:+ Js.skip (String.length p) s.
Proof. intros Hp. destruct s; cbn [Js.replace]; by rewrite Hp. Qed.

Lemma replace_prefix (p s : string) : Js.replace p EmptyString (p +:+ s) = s.
Proof. rewrite replace_found by apply prefix_app. by rewrite skip_app. Qed.

Lemma slashFree_cons (a : Ascii.ascii) (s : string) :
  slashFree (String a s) ↔ a ≠ "/"%char ∧ slashFree s.
Proof.
  unfold slashFree. cbn [Str.includes String.prefix].
  destruct (Ascii.ascii_dec "/" a) as [<-|Hne]; cbn [orb].
  - replace (String.prefix EmptyString s) with true by (by destruct s).
    split; [done | by intros [? _]].
  - split; [intros ?; split; [congruence|done] | by intros [_ ?]].
Qed.

Lemma split_go_slashFree (cur s : string) :
  slashFree s → Str.split_go "/" cur s = [String.rev_app cur s].
Proof.
  revert cur. induction s as [|a s IH]; intros cur Hs; [done|].
  apply slashFree_cons in Hs as [Hne Hs]. cbn [Str.split_go].
  destruct (Ascii.eqb_spec a "/"); [done|]. by rewrite IH.
Qed.

Lemma split_go_app (cur a b : string) :
  slashFree a →
  Str.split_go "/" cur (a +:+ "/" +:+ b) = String.rev_app cur a :: Str.split "/" b.
Proof.
  revert cur. induction a as [|c a IH]; intros cur Ha; [done|].
  apply slashFree_cons in Ha as [Hne Ha].
  change (String c a +:+ "/" +:+ b) with (String c (a +:+ "/" +:+ b)).
  cbn [Str.split_go].
  destruct (Ascii.eqb_spec c "/"); [done|]. by rewrite IH.
Qed.

Lemma split_slashFree (s : string) : slashFree s → Str.split "/" s = [s].
Proof. intros Hs. unfold Str.split. by rewrite split_go_slashFree. Qed.

Lemma split_app (a b : string) :
  slashFree a → Str.split "/" (a +:+ "/" +:+ b) = a :: Str.split "/" b.
Proof. intros Ha. unfold Str.split at 1. by rewrite split_go_app. Qed.

Lemma split_nonempty (s : string) : Str.split "/" s ≠ [].
Proof.
  unfold Str.split. generalize EmptyString.
  induction s as [|a s IH]; intros cur; cbn [Str.split_go]; [done|].
  by destruct (Ascii.eqb a "/").
Qed.

(** ** The URL of the repository *)

(** X8.  From a URL of the form [https://github.com/<owner>/<name>], where
    neither part has a slash in it, the provider takes exactly the owner and
    the name; what follows a further slash has no influence on them.  A URL
    with an owner only has no name. *)
Theorem repository_url_parts (owner name : string) :
  slashFree owner → slashFree name →
  GitHub.urlParts ("https://github.com/" +:+ owner +:+ "/" +:+ name) = [owner; name] ∧
  (∀ rest, GitHub.urlParts ("https://github.com/" +:+ owner +:+ "/" +:+ name +:+ "/" +:+ rest)
           = owner :: name :: Str.split "/" rest) ∧
  GitHub.urlParts ("https://github.com/" +:+ owner) = [owner].
Proof.
  intros Howner Hname. unfold GitHub.urlParts. rewrite !replace_prefix.
  split_and!.
  - by rewrite split_app, split_slashFree.
  - intros rest. by rewrite replace_prefix, !split_app.
  - by rewrite split_slashFree.
Qed.

Lemma repository_url_parts_witness :
  GitHub.urlParts "https://github.com/octocat/hello-world" = ["octocat"; "hello-world"] ∧
  GitHub.urlParts "https://github.com/octocat/hello-world/tree/main"
    = ["octocat"; "hello-world"; "tree"; "main"].
Proof.
  destruct (repository_url_parts "octocat" "hello-world") as (Hplain & Hrest & _);
    [reflexivity..|].
  split; [exact Hplain | exact (Hrest "tree/main")].
Defined.

(** ** Reading the files of the repository *)

Lemma Item_induction (P : GitHub.Item → Prop) :
  (∀ name path download_url fileResponse,
     P (GitHub.FileItem name path download_url fileResponse)) →
  (∀ path status items,
     Forall P items → P (GitHub.DirItem path (GitHub.Resolved status items))) →
  (∀ path e, P (GitHub.DirItem path (GitHub.Rejected e))) →
  P GitHub.OtherItem →
  ∀ item, P item.
Proof.
  intros file_case listing_case no_listing_case other_case.
  exact (fix Item_induction (item : GitHub.Item) : P item :=
           match item with
           | GitHub.FileItem name path download_url fileResponse =>
               file_case name path download_url fileResponse
           | GitHub.DirItem path (GitHub.Resolved status items) =>
               listing_case path status items
                 ((fix all (items : list GitHub.Item) : Forall P items :=
                     match items with
                     | [] => @List.Forall_nil _ P
                     | item :: rest =>
                         @List.Forall_cons _ P item rest (Item_induction item) (all rest)
                     end) items)
           | GitHub.DirItem path (GitHub.Rejected e) => no_listing_case path e
           | GitHub.OtherItem => other_case
           end).
Qed.

Lemma levelled_dir (n : nat) (path : string) (status : Z) (items : list GitHub.Item) :
  levelled n (GitHub.DirItem path (GitHub.Resolved status items))
  ↔ segments path = n ∧ Forall (levelled (S n)) items.
Proof.
  cbn [levelled]. apply and_iff_compat_l.
  induction items as [|item rest IH]; [by split|].
  rewrite Forall_cons, <- IH. done.
Qed.

Lemma net_bind_run {A B : Type} (c : GitHub.Net A) (f : A → GitHub.Net B)
    (log : list GitHub.Request) :
  (c ≫= f) log = match c log with
                 | (GitHub.Returned a, log') => f a log'
                 | (GitHub.Threw e, log') => (GitHub.Threw e, log')
                 end.
Proof. reflexivity. Qed.

Section ProviderFacts.

Variable authenticationToken : string.

Lemma processItem_listing (repositoryOwner repositoryName path : string)
    (dirResponse : GitHub.Reply (list GitHub.Item)) :
  GitHub.processItem authenticationToken repositoryOwner repositoryName
    (GitHub.DirItem path dirResponse) =
  if GitHub.listed path then
    GitHub.try_catch
      (GitHub.send {| GitHub.method := GitHub.GET;
                      GitHub.url := GitHub.apiEndpoint +:+ "/repos/" +:+ repositoryOwner +:+ "/"
                                    +:+ repositoryName +:+ "/contents/" +:+ path;
                      GitHub.headers := GitHub.requestHeaders authenticationToken;
                      GitHub.body := None |};;
       match dirResponse with
       | GitHub.Resolved _ items =>
           GitHub.processRepositoryFiles authenticationToken repositoryOwner repositoryName items
       | GitHub.Rejected e => GitHub.throw e
       end)
      (λ _, mret [])
  else mret [].
Proof.
  cbn [GitHub.processItem]. destruct (GitHub.listed path); [|done].
  destruct dirResponse as [status items|e]; [|done].
  do 2 f_equal.
  match goal with |- (λ _, ?a) = (λ _, ?b) => enough (a = b) as -> by done end.
  induction items as [|item rest IH]; [done|].
  cbn [GitHub.processRepositoryFiles]. by rewrite IH.
Qed.

Lemma contributes_nil (P : GitHub.Entry.t → Prop) :
  contributes authenticationToken (mret []) P.
Proof. intros log. exists [], []. by rewrite app_nil_r. Qed.

Lemma contributes_list (repositoryOwner repositoryName : string) (items : list GitHub.Item)
    (P : GitHub.Entry.t → Prop) :
  Forall (λ item, contributes authenticationToken
                    (GitHub.processItem authenticationToken repositoryOwner
                       repositoryName item) P) items →
  contributes authenticationToken
    (GitHub.processRepositoryFiles authenticationToken repositoryOwner repositoryName items) P.
Proof.
  induction 1 as [|item rest Hitem _ IH]; [apply contributes_nil|].
  intros log. cbn [GitHub.processRepositoryFiles]. rewrite net_bind_run.
  destruct (Hitem log) as (fs & reqs & -> & Hfs & Hreqs). rewrite net_bind_run.
  destruct (IH (log ++ reqs)) as (fs' & reqs' & -> & Hfs' & Hreqs').
  exists (fs ++ fs'), (reqs ++ reqs'). rewrite app_assoc.
  split; [done|]. split; by apply Forall_app.
Qed.

Lemma contributes_listing (repositoryOwner repositoryName path : string)
    (dirResponse : GitHub.Reply (list GitHub.Item)) (P : GitHub.Entry.t → Prop) :
  (GitHub.listed path = true →
   match dirResponse with
   | GitHub.Resolved _ items =>
       contributes authenticationToken
         (GitHub.processRepositoryFiles authenticationToken repositoryOwner repositoryName
            items) P
   | GitHub.Rejected _ => True
   end) →
  contributes authenticationToken
    (GitHub.processItem authenticationToken repositoryOwner repositoryName
       (GitHub.DirItem path dirResponse)) P.
Proof.
  intros Hitems. rewrite processItem_listing.
  destruct (GitHub.listed path); [specialize (Hitems eq_refl)|apply contributes_nil].
  intros log. unfold GitHub.try_catch. rewrite net_bind_run. cbn [GitHub.send].
  destruct dirResponse as [status items|e].
  - destruct (Hitems (log ++ [{| GitHub.method := GitHub.GET;
                                 GitHub.url := GitHub.apiEndpoint +:+ "/repos/" +:+
                                   repositoryOwner +:+ "/" +:+ repositoryName +:+
                                   "/contents/" +:+ path;
                                 GitHub.headers := GitHub.requestHeaders authenticationToken;
                                 GitHub.body := None |}]))
      as (fs & reqs & -> & Hfs & Hreqs).
    eexists fs, (_ :: reqs). rewrite <- app_assoc. split; [done|].
    split; [done|]. by constructor.
  - eexists [], [_]. split; [done|]. split; [done|]. by repeat constructor.
Qed.

Lemma contributes_file (repositoryOwner repositoryName name path download_url : string)
    (fileResponse : GitHub.Reply Json) (P : GitHub.Entry.t → Prop) :
  (GitHub.fetched name = true →
   ∀ data, P {| GitHub.Entry.name := name; GitHub.Entry.path := path;
                GitHub.Entry.content := data; GitHub.Entry.type := GitHub.file |}) →
  contributes authenticationToken
    (GitHub.processItem authenticationToken repositoryOwner repositoryName
       (GitHub.FileItem name path download_url fileResponse)) P.
Proof.
  intros HP. cbn [GitHub.processItem].
  destruct (GitHub.fetched name) eqn:Hname; [|apply contributes_nil].
  intros log. unfold GitHub.try_catch, GitHub.axios_get.
  rewrite !net_bind_run. cbn [GitHub.send].
  destruct fileResponse as [status data|e]; cbn [GitHub.settle].
  - eexists [_], [_]. split; [done|]. split; [|by repeat constructor].
    constructor; [by apply HP | constructor].
  - eexists [], [_]. split; [done|]. split; [done|]. by repeat constructor.
Qed.

Lemma processItem_contributes (repositoryOwner repositoryName : string)
    (item : GitHub.Item) :
  contributes authenticationToken
    (GitHub.processItem authenticationToken repositoryOwner repositoryName item) fetchedFile.
Proof.
  induction item as [name path download_url fileResponse|path status items IH|path e|]
    using Item_induction.
  - apply contributes_file. by intros Hname data.
  - apply contributes_listing. intros _. by apply contributes_list.
  - by apply contributes_listing.
  - apply contributes_nil.
Qed.

(** X9.  [processRepositoryFiles] never throws, whatever the replies are:
    a file or a listing that cannot be fetched is left out.  It only adds
    to the log, and what it adds are [GET] requests with the token and no
    body.  Every entry it returns is a file whose name the condition of
    line 241 accepts. *)
Theorem processRepositoryFiles_never_throws (repositoryOwner repositoryName : string)
    (repositoryContents : list GitHub.Item) (log : list GitHub.Request) :
  ∃ repositoryFiles requests,
    GitHub.processRepositoryFiles authenticationToken repositoryOwner repositoryName
      repositoryContents log = (GitHub.Returned repositoryFiles, log ++ requests) ∧
    Forall fetchedFile repositoryFiles ∧ Forall (reading authenticationToken) requests.
Proof.
  revert log. apply contributes_list, Forall_forall.
  intros item _. apply processItem_contributes.
Qed.

Lemma processItem_depth (repositoryOwner repositoryName : string) (item : GitHub.Item)
    (n : nat) :
  n ≤ 4 → levelled n item →
  contributes authenticationToken
    (GitHub.processItem authenticationToken repositoryOwner repositoryName item)
    (λ f, segments (GitHub.Entry.path f) ≤ 4).
Proof.
  revert n.
  induction item as [name path download_url fileResponse|path status items IH|path e|]
    using Item_induction; intros n Hn Hlevel.
  - apply contributes_file. intros _ data. cbn [levelled GitHub.Entry.path] in *. lia.
  - apply contributes_listing. intros Hlisted.
    apply levelled_dir in Hlevel as [Hpath Hitems].
    unfold GitHub.listed in Hlisted. fold (segments path) in Hlisted.
    apply Nat.leb_le in Hlisted.
    apply contributes_list. rewrite Forall_forall in IH, Hitems. apply Forall_forall.
    intros item Hitem. apply (IH item Hitem (S n)); [lia|]. by apply Hitems.
  - by apply contributes_listing.
  - apply contributes_nil.
Qed.

(** X10.  When the paths of a listing are what the API makes them, one
    segment more at each level down, the entries that come back have at
    most four segments, whatever the depth of the repository: listings are
    asked for down to the third level, and the files of such a listing are
    at the fourth. *)
Theorem processRepositoryFiles_depth (repositoryOwner repositoryName : string)
    (repositoryContents : list GitHub.Item) (log : list GitHub.Request) :
  Forall (levelled 1) repositoryContents →
  ∃ repositoryFiles requests,
    GitHub.processRepositoryFiles authenticationToken repositoryOwner repositoryName
      repositoryContents log = (GitHub.Returned repositoryFiles, log ++ requests) ∧
    Forall (λ f, segments (GitHub.Entry.path f) ≤ 4) repositoryFiles.
Proof.
  intros Hlevel.
  enough (Hall : contributes authenticationToken
                   (GitHub.processRepositoryFiles authenticationToken repositoryOwner
                      repositoryName repositoryContents)
                   (λ f, segments (GitHub.Entry.path f) ≤ 4)).
  { destruct (Hall log) as (fs & reqs & Hrun & Hfs & _). by exists fs, reqs. }
  apply contributes_list.
  eapply Forall_impl; [exact Hlevel|]. intros item. apply processItem_depth. lia.
Qed.

End ProviderFacts.

Lemma processRepositoryFiles_depth_witness :
  ∃ repositoryFiles requests,
    GitHub.processRepositoryFiles SampleRepository.token "octocat" "hello-world"
      SampleRepository.contents [] = (GitHub.Returned repositoryFiles, [] ++ requests) ∧
    Forall (λ f, segments (GitHub.Entry.path f) ≤ 4) repositoryFiles.
Proof.
  apply (processRepositoryFiles_depth SampleRepository.token "octocat" "hello-world"
           SampleRepository.contents []).
  repeat (constructor || split).
Defined.

(** ** The two methods that talk to the API *)

Lemma acceptedUrl_false (repositoryUrl : string) :
  acceptedUrl repositoryUrl = false →
  negb (Js.truthy (GitHub.urlParts repositoryUrl !! 0))
  || negb (Js.truthy (GitHub.urlParts repositoryUrl !! 1)) = true.
Proof. unfold acceptedUrl. by do 2 destruct (Js.truthy _). Qed.

Lemma acceptedUrl_true (repositoryUrl : string) :
  acceptedUrl repositoryUrl = true →
  negb (Js.truthy (GitHub.urlParts repositoryUrl !! 0))
  || negb (Js.truthy (GitHub.urlParts repositoryUrl !! 1)) = false.
Proof. unfold acceptedUrl. by do 2 destruct (Js.truthy _). Qed.

Lemma find_all_false {A : Type} (f : A → bool) (l : list A) :
  Forall (λ x, f x = false) l → List.find f l = None.
Proof. induction 1 as [|x l Hx _ IH]; [done|]. cbn [List.find]. by rewrite Hx. Qed.

Lemma append_assoc (a b c : string) : (a +:+ b) +:+ c = a +:+ b +:+ c.
Proof.
  induction a as [|x a IH]; [done|].
  change (String x ((a +:+ b) +:+ c) = String x (a +:+ b +:+ c)). by rewrite IH.
Qed.

Lemma axios_get_run {D : Type} (authenticationToken url : string) (reply : GitHub.Reply D)
    (log : list GitHub.Request) :
  GitHub.axios_get url (GitHub.requestHeaders authenticationToken) reply log =
    (match reply with
     | GitHub.Resolved status data => GitHub.Returned (status, data)
     | GitHub.Rejected e => GitHub.Threw e
     end, log ++ [getRequest authenticationToken url]).
Proof. by destruct reply. Qed.

Lemma axios_put_run {D : Type} (authenticationToken url : string) (data : Json)
    (reply : GitHub.Reply D) (log : list GitHub.Request) :
  GitHub.axios_put url data (GitHub.requestHeaders authenticationToken) reply log =
    (match reply with
     | GitHub.Resolved status data => GitHub.Returned (status, data)
     | GitHub.Rejected e => GitHub.Threw e
     end, log ++ [putRequest authenticationToken url data]).
Proof. by destruct reply. Qed.

Section MethodFacts.

Variable authenticationToken : string.
Variable JSON_parse : string → Completion Json.
Variable JSON_stringify : Json → string.
Variable Object_keys : Json → list string.
Variable base64 : string → string.

Lemma fetch_handler (e : GitHub.Failure) (log : list GitHub.Request) :
  match e with
  | GitHub.AxiosError (Some 404%Z) _ =>
      GitHub.throw (GitHub.PlainError "Repository not found or access denied")
  | GitHub.AxiosError (Some 401%Z) _ => GitHub.throw (GitHub.PlainError "Invalid GitHub token")
  | _ => GitHub.throw (GitHub.PlainError ("Failed to fetch repository: " +:+
                                          GitHub.errorMessage e))
  end log = (@GitHub.Threw GitHub.RepositoryData (GitHub.PlainError (fetchFailure e)), log).
Proof.
  unfold fetchFailure. destruct e as [status message|message|]; [|done..].
  cbn [statusOf]. repeat case_match; simplify_eq; repeat case_decide; simplify_eq; done.
Qed.

Lemma retrieve_resolved (repositoryUrl : string) (status status' : Z)
    (info : GitHub.Repo.t) (contents : list GitHub.Item) (log : list GitHub.Request) :
  acceptedUrl repositoryUrl = true →
  ∃ fs reqs,
    Forall fetchedFile fs ∧ Forall (reading authenticationToken) reqs ∧
    GitHub.retrieveRepositoryInformation authenticationToken JSON_parse JSON_stringify
      Object_keys repositoryUrl (GitHub.Resolved status info)
      (GitHub.Resolved status' contents) log =
    (GitHub.Returned
       (let '(packageJsonData, projectDependencies, developmentDependencies, npmScripts) :=
          GitHub.readPackageJson JSON_parse JSON_stringify Object_keys
            (List.find (λ f, String.eqb (GitHub.Entry.name f) "package.json") fs) in
        {| GitHub.name := GitHub.Repo.name info;
           GitHub.fullName := GitHub.Repo.full_name info;
           GitHub.description := Js.or_else (GitHub.Repo.description info) EmptyString;
           GitHub.language := Js.or_else (GitHub.Repo.language info) "JavaScript";
           GitHub.defaultBranch := GitHub.Repo.default_branch info;
           GitHub.files := fs;
           GitHub.packageJson := packageJsonData;
           GitHub.dependencies := projectDependencies;
           GitHub.devDependencies := developmentDependencies;
           GitHub.scripts := npmScripts |}),
     log ++ [getRequest authenticationToken (repositoryApi repositoryUrl);
             getRequest authenticationToken (repositoryApi repositoryUrl +:+ "/contents")]
         ++ reqs).
Proof.
  intros Hurl%acceptedUrl_true.
  unfold GitHub.retrieveRepositoryInformation, GitHub.try_catch, repositoryApi. cbv zeta.
  rewrite !append_assoc.
  rewrite net_bind_run, Hurl. cbn [negb orb mret GitHub.Net_ret].
  rewrite net_bind_run, axios_get_run.
  rewrite net_bind_run, axios_get_run, <- app_assoc. cbn [app].
  rewrite net_bind_run.
  match goal with |- context [GitHub.processRepositoryFiles _ ?o ?n _ ?l] =>
    destruct (contributes_list authenticationToken o n contents fetchedFile) with l
      as (fs & reqs & -> & Hfs & Hreqs)
  end.
  { apply Forall_forall. intros item _. apply processItem_contributes. }
  exists fs, reqs. split; [done|]. split; [done|].
  destruct (GitHub.readPackageJson _ _ _ _) as [[[? ?] ?] ?].
  cbn [mret GitHub.Net_ret]. by rewrite <- app_assoc.
Qed.

Lemma readPackageJson_null (packageJsonFile : option GitHub.Entry.t) :
  let '(packageJsonData, projectDependencies, developmentDependencies, npmScripts) :=
    GitHub.readPackageJson JSON_parse JSON_stringify Object_keys packageJsonFile in
  (packageJsonFile = None → packageJsonData = JNull) ∧
  (packageJsonData = JNull →
   projectDependencies = [] ∧ developmentDependencies = [] ∧ npmScripts = JObj []).
Proof.
  unfold GitHub.readPackageJson. destruct packageJsonFile as [f|]; [|done].
  by destruct (JSON_parse _) as [[]|].
Qed.

Lemma or_else_default (v : option string) (d : string) :
  Js.or_else v d = match v with
                   | Some s => if decide (s = EmptyString) then d else s
                   | None => d
                   end.
Proof. by destruct v as [[|a s]|]. Qed.

Lemma commit_accepted (repositoryUrl dockerfileContent commitMessage : string)
    (existingResponse response : GitHub.Reply Json) (log : list GitHub.Request) :
  acceptedUrl repositoryUrl = true →
  GitHub.commitDockerfileToRepository authenticationToken base64 repositoryUrl
    dockerfileContent commitMessage existingResponse response log =
  (match response with
   | GitHub.Resolved status _ => GitHub.Returned ((status =? 200)%Z || (status =? 201)%Z)
   | GitHub.Rejected e => GitHub.Threw (GitHub.PlainError (pushFailure e))
   end,
   log ++ [getRequest authenticationToken
             (repositoryApi repositoryUrl +:+ "/contents/Dockerfile");
           putRequest authenticationToken
             (repositoryApi repositoryUrl +:+ "/contents/Dockerfile")
             (GitHub.commitRequestBody base64 dockerfileContent commitMessage
                match existingResponse with
                | GitHub.Resolved _ data => Some data
                | GitHub.Rejected _ => None
                end)]).
Proof.
  intros Hurl%acceptedUrl_true.
  unfold GitHub.commitDockerfileToRepository, GitHub.try_catch, repositoryApi. cbv zeta.
  rewrite !append_assoc.
  rewrite net_bind_run, Hurl. cbn [negb orb mret GitHub.Net_ret].
  rewrite !net_bind_run, axios_get_run.
  destruct existingResponse as [status data|e]; cbn [mret GitHub.Net_ret];
    rewrite net_bind_run, axios_put_run, <- app_assoc; cbn [app];
    (destruct response as [status' data'|e']; [done|]);
    unfold pushFailure; (destruct e' as [code message|message|]; [|done..]);
    cbn [statusOf]; repeat case_match; simplify_eq; repeat case_decide; simplify_eq; done.
Qed.

(** X11.  A URL that is not accepted (the owner or the name is missing or
    empty) is refused by both methods before any request is sent, and the
    caller is told so in the words of the method's general failure. *)
Theorem unaccepted_url_sends_nothing (repositoryUrl dockerfileContent commitMessage : string)
    (repositoryResponse : GitHub.Reply GitHub.Repo.t)
    (contentsResponse : GitHub.Reply (list GitHub.Item))
    (existingResponse response : GitHub.Reply Json) (log : list GitHub.Request) :
  acceptedUrl repositoryUrl = false →
  GitHub.retrieveRepositoryInformation authenticationToken JSON_parse JSON_stringify
    Object_keys repositoryUrl repositoryResponse contentsResponse log
  = (GitHub.Threw (GitHub.PlainError "Failed to fetch repository: Invalid GitHub URL format"),
     log) ∧
  GitHub.commitDockerfileToRepository authenticationToken base64 repositoryUrl
    dockerfileContent commitMessage existingResponse response log
  = (GitHub.Threw (GitHub.PlainError "Failed to push Dockerfile: Invalid GitHub URL format"),
     log).
Proof.
  intros Hurl%acceptedUrl_false. split.
  - unfold GitHub.retrieveRepositoryInformation, GitHub.try_catch. cbv zeta.
    rewrite net_bind_run, Hurl. done.
  - unfold GitHub.commitDockerfileToRepository, GitHub.try_catch at 1. cbv zeta.
    rewrite net_bind_run, Hurl. done.
Qed.

(** X12.  For an accepted URL, [retrieveRepositoryInformation] throws
    exactly when one of its first two requests is rejected, after that
    request and before any other; what the caller is told depends on the
    status of the rejection only: 404, 401, or the general failure with the
    message of the rejection. *)
Theorem retrieve_rejections (repositoryUrl : string)
    (repositoryResponse : GitHub.Reply GitHub.Repo.t)
    (contentsResponse : GitHub.Reply (list GitHub.Item)) (log : list GitHub.Request) :
  acceptedUrl repositoryUrl = true →
  let run := GitHub.retrieveRepositoryInformation authenticationToken JSON_parse
               JSON_stringify Object_keys repositoryUrl repositoryResponse
               contentsResponse log in
  let first := getRequest authenticationToken (repositoryApi repositoryUrl) in
  let second := getRequest authenticationToken (repositoryApi repositoryUrl +:+ "/contents") in
  match repositoryResponse, contentsResponse with
  | GitHub.Rejected e, _ =>
      run = (GitHub.Threw (GitHub.PlainError (fetchFailure e)), log ++ [first])
  | GitHub.Resolved _ _, GitHub.Rejected e =>
      run = (GitHub.Threw (GitHub.PlainError (fetchFailure e)), log ++ [first; second])
  | GitHub.Resolved _ _, GitHub.Resolved _ _ =>
      ∃ data requests, run = (GitHub.Returned data, log ++ [first; second] ++ requests)
  end.
Proof.
  intros Hurl%acceptedUrl_true run first second. unfold run, first, second.
  unfold GitHub.retrieveRepositoryInformation, GitHub.try_catch, repositoryApi. cbv zeta.
  rewrite !append_assoc.
  rewrite net_bind_run, Hurl. cbn [negb orb mret GitHub.Net_ret].
  rewrite net_bind_run, axios_get_run.
  destruct repositoryResponse as [status info|e]; cycle 1.
  { rewrite fetch_handler. by destruct contentsResponse. }
  rewrite net_bind_run, axios_get_run, <- app_assoc. cbn [app].
  destruct contentsResponse as [status' contents|e]; cycle 1.
  { apply fetch_handler. }
  rewrite net_bind_run.
  match goal with |- context [GitHub.processRepositoryFiles _ ?o ?n _ ?l] =>
    destruct (contributes_list authenticationToken o n contents fetchedFile) with l
      as (fs & reqs & -> & _)
  end.
  { apply Forall_forall. intros item _. apply processItem_contributes. }
  destruct (GitHub.readPackageJson _ _ _ _) as [[[? ?] ?] ?].
  cbn [mret GitHub.Net_ret]. eexists _, reqs. by rewrite <- app_assoc.
Qed.

(** X13.  For an accepted URL whose first two requests are answered,
    retrieval succeeds whatever becomes of the later requests and of the
    manifest.  The data have the name, the full name and the default branch
    of the repository; a description that is [null] or empty is the empty
    string and a language that is [null] or empty is [JavaScript].  Every
    entry of [files] is a file the condition of line 241 accepts.  When
    there is no manifest in [files], [packageJson] is [null]; and whenever
    [packageJson] is [null] (no manifest, one that does not parse, or the
    text [null]) the dependencies are empty and the scripts are the empty
    object. *)
Theorem retrieve_result (repositoryUrl : string) (status status' : Z)
    (info : GitHub.Repo.t) (contents : list GitHub.Item) (log : list GitHub.Request) :
  acceptedUrl repositoryUrl = true →
  ∃ data requests,
    GitHub.retrieveRepositoryInformation authenticationToken JSON_parse JSON_stringify
      Object_keys repositoryUrl (GitHub.Resolved status info)
      (GitHub.Resolved status' contents) log
    = (GitHub.Returned data,
       log ++ [getRequest authenticationToken (repositoryApi repositoryUrl);
               getRequest authenticationToken (repositoryApi repositoryUrl +:+ "/contents")]
           ++ requests) ∧
    Forall (reading authenticationToken) requests ∧
    GitHub.name data = GitHub.Repo.name info ∧
    GitHub.fullName data = GitHub.Repo.full_name info ∧
    GitHub.defaultBranch data = GitHub.Repo.default_branch info ∧
    GitHub.description data = default EmptyString (GitHub.Repo.description info) ∧
    GitHub.language data = match GitHub.Repo.language info with
                           | Some l => if decide (l = EmptyString) then "JavaScript" else l
                           | None => "JavaScript"
                           end ∧
    Forall fetchedFile (GitHub.files data) ∧
    (Forall (λ f, GitHub.Entry.name f ≠ "package.json") (GitHub.files data) →
     GitHub.packageJson data = JNull) ∧
    (GitHub.packageJson data = JNull →
     GitHub.dependencies data = [] ∧ GitHub.devDependencies data = [] ∧
     GitHub.scripts data = JObj []).
Proof.
  intros Hurl.
  destruct (retrieve_resolved repositoryUrl status status' info contents log Hurl)
    as (fs & reqs & Hfs & Hreqs & ->).
  pose proof (readPackageJson_null
                (List.find (λ f, String.eqb (GitHub.Entry.name f) "package.json") fs))
    as Hpkg.
  destruct (GitHub.readPackageJson _ _ _ _) as [[[pkg deps] devDeps] scripts].
  destruct Hpkg as [Hnone Hnull].
  eexists _, reqs. split; [done|]. cbn.
  split_and!; try done.
  - rewrite or_else_default. by destruct (GitHub.Repo.description info) as [[|a s]|].
  - apply or_else_default.
  - intros Hnames. apply Hnone. apply find_all_false.
    eapply Forall_impl; [exact Hnames|]. intros f Hf. by apply String.eqb_neq.
Qed.

(** X14.  For an accepted URL, [commitDockerfileToRepository] always sends
    two requests, the lookup of the Dockerfile and then the commit, to the
    same path with the token; a lookup that is rejected, for whatever
    reason, does not stop the commit.  The outcome is decided by the reply
    to the commit alone: [true] for the status 200 or 201 and [false] for
    any other status axios resolves with, and a rejection is reported by
    its status (401, 403) or with its message.  The commit goes to the
    branch [main] and carries the [sha] of the Dockerfile exactly when the
    lookup found one. *)
Theorem commit_outcome (repositoryUrl dockerfileContent commitMessage : string)
    (existingResponse response : GitHub.Reply Json) (log : list GitHub.Request) :
  acceptedUrl repositoryUrl = true →
  ∃ body,
    GitHub.commitDockerfileToRepository authenticationToken base64 repositoryUrl
      dockerfileContent commitMessage existingResponse response log =
    (match response with
     | GitHub.Resolved status _ => GitHub.Returned (bool_decide (status = 200 ∨ status = 201)%Z)
     | GitHub.Rejected e => GitHub.Threw (GitHub.PlainError (pushFailure e))
     end,
     log ++ [getRequest authenticationToken
               (repositoryApi repositoryUrl +:+ "/contents/Dockerfile");
             putRequest authenticationToken
               (repositoryApi repositoryUrl +:+ "/contents/Dockerfile") body]) ∧
    GitHub.get "message" body = Some (JStr commitMessage) ∧
    GitHub.get "content" body = Some (JStr (base64 dockerfileContent)) ∧
    GitHub.get "branch" body = Some (JStr "main") ∧
    GitHub.get "sha" body = match existingResponse with
                            | GitHub.Resolved _ data =>
                                if JSON.truthy data then GitHub.get "sha" data else None
                            | GitHub.Rejected _ => None
                            end.
Proof.
  intros Hurl. eexists. split.
  - rewrite (commit_accepted _ _ _ _ _ _ Hurl). f_equal.
    destruct response as [status data|e]; [|done]. f_equal.
    destruct (Z.eqb_spec status 200) as [->|H200]; [done|].
    destruct (Z.eqb_spec status 201) as [->|H201]; [done|].
    cbn [orb]. symmetry. apply bool_decide_eq_false. lia.
  - unfold GitHub.commitRequestBody. split_and!; try done.
    destruct existingResponse as [status data|e]; [|done].
    destruct (JSON.truthy data); [|done]. by destruct (GitHub.get "sha" data).
Qed.

End MethodFacts.

Lemma unaccepted_url_sends_nothing_witness :
  GitHub.retrieveRepositoryInformation SampleRepository.token SampleRepository.parse
    JSON.stringify SampleRepository.keys "https://github.com/octocat"
    (SampleRepository.ok SampleRepository.repository)
    (SampleRepository.ok SampleRepository.contents) []
  = (GitHub.Threw (GitHub.PlainError "Failed to fetch repository: Invalid GitHub URL format"),
     []) ∧
  GitHub.commitDockerfileToRepository SampleRepository.token SampleRepository.encode
    "https://github.com/octocat" "FROM node:20" GitHub.defaultCommitMessage
    SampleRepository.notFound (SampleRepository.ok JNull) []
  = (GitHub.Threw (GitHub.PlainError "Failed to push Dockerfile: Invalid GitHub URL format"),
     []).
Proof.
  apply (unaccepted_url_sends_nothing SampleRepository.token SampleRepository.parse
           JSON.stringify SampleRepository.keys SampleRepository.encode
           "https://github.com/octocat").
  reflexivity.
Defined.

Lemma retrieve_rejections_witness :
  GitHub.retrieveRepositoryInformation SampleRepository.token SampleRepository.parse
    JSON.stringify SampleRepository.keys "https://github.com/octocat/hello-world"
    (SampleRepository.ok SampleRepository.repository) SampleRepository.notFound []
  = (GitHub.Threw (GitHub.PlainError "Repository not found or access denied"),
     [getRequest SampleRepository.token
        "https://api.github.com/repos/octocat/hello-world";
      getRequest SampleRepository.token
        "https://api.github.com/repos/octocat/hello-world/contents"]).
Proof.
  exact (retrieve_rejections SampleRepository.token SampleRepository.parse
           JSON.stringify SampleRepository.keys "https://github.com/octocat/hello-world"
           (SampleRepository.ok SampleRepository.repository) SampleRepository.notFound []
           eq_refl).
Defined.

Lemma retrieve_result_witness :
  ∃ data requests,
    GitHub.retrieveRepositoryInformation SampleRepository.token SampleRepository.parse
      JSON.stringify SampleRepository.keys "https://github.com/octocat/hello-world"
      (SampleRepository.ok SampleRepository.repository)
      (SampleRepository.ok SampleRepository.contents) []
    = (GitHub.Returned data,
       [getRequest SampleRepository.token
          "https://api.github.com/repos/octocat/hello-world";
        getRequest SampleRepository.token
          "https://api.github.com/repos/octocat/hello-world/contents"] ++ requests) ∧
    GitHub.description data = EmptyString ∧
    GitHub.language data = "JavaScript" ∧
    GitHub.defaultBranch data = "trunk".
Proof.
  destruct (retrieve_result SampleRepository.token SampleRepository.parse
              JSON.stringify SampleRepository.keys "https://github.com/octocat/hello-world"
              200 200 SampleRepository.repository SampleRepository.contents [] eq_refl)
    as (data & requests & Hrun & _ & _ & _ & Hbranch & Hdescription & Hlanguage & _).
  exists data, requests. split_and!; [exact Hrun | exact Hdescription | exact Hlanguage
                                     | exact Hbranch].
Defined.

Lemma commit_outcome_witness :
  ∃ body,
    GitHub.commitDockerfileToRepository SampleRepository.token SampleRepository.encode
      "https://github.com/octocat/hello-world" "FROM node:20" GitHub.defaultCommitMessage
      SampleRepository.notFound (GitHub.Resolved 201 JNull) []
    = (GitHub.Returned true,
       [getRequest SampleRepository.token
          "https://api.github.com/repos/octocat/hello-world/contents/Dockerfile";
        putRequest SampleRepository.token
          "https://api.github.com/repos/octocat/hello-world/contents/Dockerfile" body]) ∧
    GitHub.get "sha" body = None ∧
    GitHub.get "branch" body = Some (JStr "main").
Proof.
  destruct (commit_outcome SampleRepository.token SampleRepository.encode
              "https://github.com/octocat/hello-world" "FROM node:20"
              GitHub.defaultCommitMessage SampleRepository.notFound
              (GitHub.Resolved 201 JNull) [] eq_refl)
    as (body & Hrun & _ & _ & Hbranch & Hsha).
  exists body. split_and!; [exact Hrun | exact Hsha | exact Hbranch].
Defined.

(** ** The stand-in data *)

(** X15.  For a URL of the form [https://github.com/<owner>/<name>], the
    stand-in data are named [<name>], or [app] when the name is empty, and
    their full name is [<owner>/<name>].  For a URL that ends with the
    owner they are named [app], and the full name ends in [undefined]. *)
Theorem fallback_data_names (owner name : string) :
  slashFree owner → slashFree name →
  let d := GitHub.generateFallbackRepositoryData
             ("https://github.com/" +:+ owner +:+ "/" +:+ name) in
  let d' := GitHub.generateFallbackRepositoryData ("https://github.com/" +:+ owner) in
  GitHub.name d = (if decide (name = EmptyString) then "app" else name) ∧
  GitHub.fullName d = owner +:+ "/" +:+ name ∧
  GitHub.name d' = "app" ∧
  GitHub.fullName d' = owner +:+ "/undefined".
Proof.
  intros Howner Hname d d'. unfold d, d', GitHub.generateFallbackRepositoryData.
  cbv zeta. cbn [GitHub.name GitHub.fullName]. unfold GitHub.urlParts.
  rewrite !replace_prefix, split_app, !split_slashFree by done.
  cbn [lookup list_lookup Js.show default Js.or_else Js.truthy].
  split_and!; try done. by destruct name.
Qed.

Lemma fallback_data_names_witness :
  GitHub.name (GitHub.generateFallbackRepositoryData "https://github.com/octocat/hello-world")
    = "hello-world" ∧
  GitHub.fullName (GitHub.generateFallbackRepositoryData "https://github.com/octocat")
    = "octocat/undefined".
Proof.
  destruct (fallback_data_names "octocat" "hello-world") as (Hname & _ & _ & Hfull);
    [reflexivity..|].
  split; [exact Hname | exact Hfull].
Defined.

(** X16.  Whatever the URL, the stand-in data carry a manifest the engine
    takes as it is: their name is not empty and is the name in the
    manifest, the engine's [createPackageJson] returns the manifest, and
    the [package.json] the engine writes into a workspace that has none is,
    character for character, the content of the [package.json] entry in
    [files]. *)
Theorem fallback_data_feed_the_engine (repositoryUrl text : string) (ws : Path.t)
    (w : World) :
  let d := GitHub.generateFallbackRepositoryData repositoryUrl in
  GitHub.name d ≠ EmptyString ∧
  GitHub.get "name" (GitHub.packageJson d) = Some (JStr (GitHub.name d)) ∧
  createPackageJson (Some (engineData d)) = GitHub.packageJson d ∧
  (∃ f, List.find (λ f, String.eqb (GitHub.Entry.name f) "package.json") (GitHub.files d)
        = Some f ∧
        (assemblyReady ws w → files w !! (ws ++ ["package.json"]) = None →
         ∃ written,
           files (assembleWorkspace ws text (Some (engineData d)) w).2
             !! (ws ++ ["package.json"]) = Some (File written) ∧
           GitHub.Entry.content f = JStr written)).
Proof.
  intros d. split_and!.
  - unfold d, GitHub.generateFallbackRepositoryData. cbv zeta. cbn [GitHub.name].
    unfold Js.or_else. destruct (Js.truthy _) eqn:Htruthy; [|done].
    destruct (_ !! 1) as [[|a s]|]; done.
  - done.
  - done.
  - eexists. split; [reflexivity|]. intros Hready Hnone.
    eexists. split; [|reflexivity].
    rewrite assembleWorkspace_run by done. cbn [snd files with_files].
    by rewrite assembled_package_json, Hnone.
Qed.

(** ** The files that are fetched *)

Lemma endsWith_spec (suffix s : string) :
  Js.endsWith suffix s = true ↔ ∃ stem, s = stem +:+ suffix.
Proof.
  split.
  - induction s as [|a s IH]; cbn [Js.endsWith].
    + rewrite orb_false_r. intros ->%String.eqb_eq. by exists EmptyString.
    + intros [->%String.eqb_eq|Hs]%orb_true_iff; [by exists EmptyString|].
      destruct (IH Hs) as [stem ->]. by exists (String a stem).
  - intros [stem ->]. induction stem as [|a stem IH].
    + change (EmptyString +:+ suffix) with suffix.
      destruct suffix; cbn [Js.endsWith]; by rewrite String.eqb_refl.
    + change (String a stem +:+ suffix) with (String a (stem +:+ suffix)).
      cbn [Js.endsWith]. rewrite IH. apply orb_true_r.
Qed.

(** X17.  What decides whether a file is fetched is its extension, but for
    four names: a file is fetched exactly when its name ends in [.json],
    [.js] or [.ts], or is [yarn.lock], [Dockerfile], [docker-compose.yml]
    or [README.md].  The other ten names of the list add nothing. *)
Theorem fetched_by_extension (name : string) :
  GitHub.fetched name = true ↔
  (∃ stem, name = stem +:+ ".json") ∨ (∃ stem, name = stem +:+ ".js") ∨
  (∃ stem, name = stem +:+ ".ts") ∨
  name ∈ ["yarn.lock"; "Dockerfile"; "docker-compose.yml"; "README.md"].
Proof.
  rewrite <- !endsWith_spec. unfold GitHub.fetched.
  rewrite !orb_true_iff, existsb_exists. split.
  - intros [[[(listed & Hin & ->%String.eqb_eq)|?]|?]|?]; [|by auto..].
    unfold GitHub.importantFiles in Hin. cbn [In] in Hin.
    destruct Hin as [<-|[<-|[<-|[<-|[<-|[<-|[<-|[<-|[<-|[<-|[<-|[<-|[<-|[<-|[]]]]]]]]]]]]]]];
      first [by left | by right; left | by right; right; left
            | right; right; right; set_solver].
  - intros [?|[?|[?|Hin]]]; [by auto..|].
    left; left; left. exists name. rewrite String.eqb_refl. split; [|done].
    unfold GitHub.importantFiles. cbn [In].
    repeat (apply elem_of_cons in Hin as [->|Hin]); [tauto..|].
    by apply not_elem_of_nil in Hin.
Qed.

(** ** The build id *)

Lemma join_plainName (p : Path.t) (s : string) : plainName s → Path.join p s = p ++ [s].
Proof.
  intros (Hslash & Hempty & Hdot & Hdots). unfold Path.join.
  rewrite split_slashFree by done. cbn [foldl]. unfold Path.push.
  by rewrite !decide_False.
Qed.

Lemma join_parent (p : Path.t) (x s : string) :
  plainName s → Path.join (p ++ [x]) ("../" +:+ s) = p ++ [s].
Proof.
  intros (Hslash & Hempty & Hdot & Hdots). unfold Path.join.
  change ("../" +:+ s) with (".." +:+ "/" +:+ s).
  rewrite split_app, split_slashFree by done. cbn [foldl].
  unfold Path.push at 2. cbn [decide]. rewrite decide_False, decide_False by done.
  rewrite decide_True by done. rewrite removelast_last.
  unfold Path.push. by rewrite !decide_False.
Qed.

Lemma reachable_mkdirs_keeps (m : gmap (list string) Node) (l : list Path.t) (d : Path.t) :
  FS.reachable m d → FS.reachable (foldr (λ q m, <[q:=Dir]> m) m l) d.
Proof.
  unfold FS.reachable. rewrite !Forall_forall. intros Hd q Hq.
  rewrite lookup_mkdirs. case_decide; [done|]. by apply Hd.
Qed.

(** X18.  The directory the fallback builds in follows the build id, also
    out of the build root.  With a build id that is a plain name the
    directory is that child of the build root.  With the build id
    [../<name>] it is the directory [<name>] beside the build root: when
    the text is rejected and that directory is there, the Dockerfile in it
    is replaced by the fallback's, however the build ends. *)
Theorem fallback_follows_build_id (rt : Runtime) (text name old : string)
    (rd : option RepositoryData) (w : World) :
  plainName name →
  isValid (validateDockerfile rt text) = false →
  List.find (FS.isFile (files w)) (FS.ancestors_or_self (workspaceOf rt w)) = None →
  FS.reachable (files w) (process_cwd rt ++ [name]) →
  files w !! (process_cwd rt ++ [name; "Dockerfile"]) = Some (File old) →
  fallbackDirOf rt name = process_cwd rt ++ ["temp"; name] ∧
  fallbackDirOf rt ("../" +:+ name) = process_cwd rt ++ [name] ∧
  files (buildImage rt text ("../" +:+ name) rd w).2
    !! (process_cwd rt ++ [name; "Dockerfile"]) = Some (File fallbackDockerfile).
Proof.
  intros Hname Hvalid Hfind Hdir Hold.
  assert (Hroot : buildDirectory rt = process_cwd rt ++ ["temp"]) by done.
  assert (Hout : fallbackDirOf rt ("../" +:+ name) = process_cwd rt ++ [name]).
  { unfold fallbackDirOf. rewrite Hroot. by apply join_parent. }
  split_and!; [|done|].
  - unfold fallbackDirOf. rewrite Hroot, join_plainName by done.
    by rewrite <- app_assoc.
  - rewrite (buildImage_rejected_text _ _ _ _ _ Hvalid Hfind).
    rewrite createFallbackBuild_ready; cycle 1.
    { split; rewrite Hout; cbn [files with_files].
      - by apply reachable_mkdirs_keeps.
      - rewrite <- app_assoc. cbn [app].
        by rewrite (mkdirs_keeps _ _ _ _ Hfind Hold). }
    cbv zeta. rewrite Hout, <- app_assoc. cbn [app].
    repeat case_match; cbn [snd files started with_files]; apply lookup_insert_eq.
Qed.

Lemma fallback_follows_build_id_witness :
  let rt := Sample.runtime (Sample.replies []) in
  let w := Sample.start (<[ ["app"; "src"; "Dockerfile"] := File "FROM node:20" ]>
                           (<[ ["app"; "src"] := Dir ]> Sample.disk)) in
  files (buildImage rt "RUN make" "../src" None w).2 !! ["app"; "src"; "Dockerfile"]
  = Some (File fallbackDockerfile).
Proof.
  intros rt w.
  apply (fallback_follows_build_id rt "RUN make" "src" "FROM node:20" None w).
  - compute_done.
  - reflexivity.
  - vm_compute; reflexivity.
  - compute_done.
  - vm_compute; reflexivity.
Defined.

(** ** The footprint of an invocation *)

Lemma footprint_ret {A : Type} (P : Path.t → Prop) (a : A) (w : World) :
  footprint P 0 (mret a) w.
Proof. unfold footprint. cbn. split_and!; [done|lia..|done]. Qed.

Lemma footprint_throw {A : Type} (P : Path.t → Prop) (e : Thrown) (w : World) :
  footprint P 0 (@throw A e) w.
Proof. unfold footprint. cbn. split_and!; [done|lia..|done]. Qed.

Lemma footprint_le {A : Type} (P : Path.t → Prop) (k k' : nat) (c : Async A) (w : World) :
  k ≤ k' → footprint P k c w → footprint P k' c w.
Proof. intros Hk (Hd & Hs & Hf). split_and!; [done|lia..|done]. Qed.

Lemma footprint_bind {A B : Type} (P : Path.t → Prop) (k1 k2 : nat) (c : Async A)
    (f : A → Async B) (w : World) :
  footprint P k1 c w →
  (∀ a w1, c w = (Normal a, w1) → footprint P k2 (f a) w1) →
  footprint P (k1 + k2) (c ≫= f) w.
Proof.
  unfold footprint. rewrite bind_run. intros (Hd & Hs & Hf) Hnext.
  destruct (c w) as [[a|e] w1]; cbn [snd] in *.
  - destruct (Hnext a w1 eq_refl) as (Hd' & Hs' & Hf').
    split_and!; [congruence|lia..|]. intros q Hq. by rewrite Hf', Hf.
  - split_and!; [done|lia..|done].
Qed.

Lemma footprint_try_catch {A : Type} (P : Path.t → Prop) (k1 k2 : nat) (body : Async A)
    (handler : Thrown → Async A) (w : World) :
  footprint P k1 body w →
  (∀ e w1, body w = (Abrupt e, w1) → footprint P k2 (handler e) w1) →
  footprint P (k1 + k2) (try_catch body handler) w.
Proof.
  unfold footprint, try_catch. intros (Hd & Hs & Hf) Hnext.
  destruct (body w) as [[a|e] w1]; cbn [snd] in *.
  - split_and!; [done|lia..|done].
  - destruct (Hnext e w1 eq_refl) as (Hd' & Hs' & Hf').
    split_and!; [congruence|lia..|]. intros q Hq. by rewrite Hf', Hf.
Qed.

Lemma footprint_writeFile (P : Path.t → Prop) (p : Path.t) (data : string) (w : World) :
  P p → footprint P 0 (Fs.writeFile p data) w.
Proof.
  intros Hp. unfold footprint, Fs.writeFile.
  destruct (FS.walk _ _); [|destruct (FS.isDir _ _)]; cbn; (split_and!; [done|lia..|]);
    try done.
  intros q Hq. apply lookup_insert_ne. by intros <-.
Qed.

Lemma footprint_mkdir (P : Path.t → Prop) (p : Path.t) (w : World) :
  (∀ q, q ∈ FS.ancestors_or_self p → P q) → footprint P 0 (Fs.mkdir_recursive p) w.
Proof.
  intros Hp. unfold footprint, Fs.mkdir_recursive.
  destruct (List.find _ _); cbn; (split_and!; [done|lia..|]); [done|].
  intros q Hq. rewrite lookup_mkdirs. rewrite decide_False; [done|]. by intros ?%Hp.
Qed.

Lemma footprint_rm (P : Path.t → Prop) (p : Path.t) (w : World) :
  (∀ q, p `prefix_of` q → P q) → footprint P 0 (Fs.rm_recursive_force p) w.
Proof.
  intros Hp. unfold footprint, Fs.rm_recursive_force. cbn. split_and!; [done|lia..|].
  intros q Hq. apply remove_tree_lookup_ne. by intros ?%Hp.
Qed.

Lemma footprint_access (P : Path.t → Prop) (p : Path.t) (w : World) :
  footprint P 0 (Fs.access p) w.
Proof.
  unfold footprint, Fs.access.
  destruct (FS.walk _ _); [|destruct (FS.exists_ _ _)]; cbn; split_and!; done || lia.
Qed.

Lemma footprint_readdir (P : Path.t → Prop) (p : Path.t) (w : World) :
  footprint P 0 (Fs.readdir p) w.
Proof.
  unfold footprint, Fs.readdir.
  destruct (FS.walk _ _); [|destruct (files w !! p) as [[]|]]; cbn; split_and!; done || lia.
Qed.

Lemma footprint_execAsync (rt : Runtime) (P : Path.t → Prop) (command : string)
    (options : ExecOptions) (w : World) :
  footprint P 1 (execAsync rt command options) w.
Proof.
  unfold footprint, execAsync.
  destruct (process_outcome _ _ _ _) as [[|?|?] ? ?|? ?]; cbn; split_and!; done || lia.
Qed.

Lemma footprint_fileExists (P : Path.t → Prop) (p : Path.t) (w : World) :
  footprint P 0 (fileExists p) w.
Proof.
  apply (footprint_try_catch P 0 0).
  - apply (footprint_bind P 0 0); [apply footprint_access|]. intros. apply footprint_ret.
  - intros. apply footprint_ret.
Qed.

Lemma footprint_assembleWorkspace (P : Path.t → Prop) (ws : Path.t) (text : string)
    (rd : option RepositoryData) (w : World) :
  (∀ q, ws `prefix_of` q → P q) → footprint P 0 (assembleWorkspace ws text rd) w.
Proof.
  intros Hws. assert (Hchild : ∀ x, P (ws ++ [x])) by (intros x; by apply Hws, prefix_app_r).
  unfold assembleWorkspace, createDockerignore, createSourceFiles. cbv zeta.
  rewrite join_Dockerfile, join_dockerignore, join_package_json, join_index_js.
  apply (footprint_bind P 0 0); [by apply footprint_writeFile|]. intros _ w1 _.
  apply (footprint_bind P 0 0); [by apply footprint_writeFile|]. intros _ w2 _.
  apply (footprint_bind P 0 0); [by apply footprint_fileExists|]. intros present w3 _.
  apply (footprint_bind P 0 0).
  { destruct present; cbn [negb]; [apply footprint_ret | by apply footprint_writeFile]. }
  intros _ w4 _.
  apply (footprint_bind P 0 0); [by apply footprint_fileExists|]. intros present' w5 _.
  destruct present'; cbn [negb]; [apply footprint_ret | by apply footprint_writeFile].
Qed.

(** ** The engine over its environment *)

Lemma execAsync_processes (rt : Runtime) (Q : Path.t → Prop) : processes Q (execAsync rt).
Proof. intros command options w. apply footprint_execAsync. Qed.

Lemma rm_removal : removal Fs.rm_recursive_force.
Proof.
  intros p w. unfold Fs.rm_recursive_force. cbn. split_and!; [done|done| | |].
  - intros q Hq. by apply remove_tree_lookup_ne.
  - intros q Hq. left. by apply remove_tree_lookup.
  - intros _ q Hq. by apply remove_tree_lookup.
Qed.

Lemma refused_removal : removal refusedRemoval.
Proof. intros p w. cbn. split_and!; [done|done|done|by right|done]. Qed.

Lemma footprint_removal (rm : Path.t → Async unit) (P : Path.t → Prop) (p : Path.t)
    (w : World) :
  removal rm → (∀ q, p `prefix_of` q → P q) → footprint P 0 (rm p) w.
Proof.
  intros Hrm Hp. destruct (Hrm p w) as (Hd & Hs & Hout & _).
  split_and!; [done|lia..|]. intros q Hq. apply Hout. by intros ?%Hp.
Qed.

Lemma footprint_wider {A : Type} (P Q : Path.t → Prop) (k : nat) (c : Async A) (w : World) :
  (∀ q, P q → Q q) → footprint P k c w → footprint Q k c w.
Proof.
  intros HPQ (Hd & Hs & Hf). split_and!; [done|lia..|].
  intros q Hq. apply Hf. by intros ?%HPQ.
Qed.

(** The engine of the sections above is the engine over its environment,
    with processes that leave the files alone and a removal that goes
    through. *)
Lemma Open_closed (rt : Runtime) :
  Open.buildImage rt (execAsync rt) Fs.rm_recursive_force = buildImage rt ∧
  Open.createFallbackBuild rt (execAsync rt) = createFallbackBuild rt ∧
  Open.cleanupBuildDir Fs.rm_recursive_force = cleanupBuildDir.
Proof. done. Qed.

Section OpenFacts.

Variable rt : Runtime.
Variable exec : string → ExecOptions → Async (string * string).
Variable rm : Path.t → Async unit.

Lemma footprint_createFallbackBuild (P : Path.t → Prop)
    (text buildId : string) (rd : option RepositoryData) (w : World) :
  processes P exec →
  P (fallbackDirOf rt buildId ++ ["Dockerfile"]) →
  footprint P 2 (Open.createFallbackBuild rt exec text buildId rd) w.
Proof.
  intros Hexec Hfile. unfold Open.createFallbackBuild. cbv zeta.
  fold (fallbackDirOf rt buildId). rewrite join_Dockerfile.
  apply (footprint_try_catch P 2 0); [|intros; apply footprint_ret].
  apply (footprint_bind P 0 2); [by apply footprint_writeFile|]. intros _ w1 _.
  apply (footprint_bind P 1 1); [apply Hexec|]. intros [stdout stderr] w2 _.
  apply (footprint_bind P 1 0); [apply Hexec|]. intros [imagesOutput ?] w3 _.
  apply (footprint_bind P 0 0); [|intros; apply footprint_ret].
  destruct (Str.truthy _); cbn [negb]; [apply footprint_ret | apply footprint_throw].
Qed.

(** X19.  Whatever the inputs and the world, whatever the child processes
    do and whether or not the removal goes through, an invocation of
    [buildImage] draws one identifier and calls [execAsync] twice at most,
    and of the nodes of the file system that no child process touches
    (those outside [Q]) it leaves every one as it was but for three
    places: the directories on the way to its workspace, the workspace
    with what is below it, and the Dockerfile of the fallback. *)
Theorem buildImage_footprint (Q : Path.t → Prop) (text buildId : string)
    (rd : option RepositoryData) (w : World) :
  processes Q exec →
  removal rm →
  let w' := (Open.buildImage rt exec rm text buildId rd w).2 in
  drawn w' = S (drawn w) ∧
  spawned w ≤ spawned w' ≤ spawned w + 2 ∧
  ∀ q, ¬ Q q →
       ¬ workspaceOf rt w `prefix_of` q →
       q ∉ FS.ancestors (workspaceOf rt w) →
       q ≠ fallbackDirOf rt buildId ++ ["Dockerfile"] →
       files w' !! q = files w !! q.
Proof.
  intros HQ Hrm.
  set (ws := workspaceOf rt w).
  set (P := λ q, Q q ∨ buildArea ws (fallbackDirOf rt buildId) q).
  assert (Hexec : processes P exec).
  { intros command options w0. apply (footprint_wider Q); [by left | apply HQ]. }
  assert (Hbelow : ∀ q, ws `prefix_of` q → P q) by (intros q Hq; right; by left).
  enough (Hrest : footprint P 2
            (try_catch
               (Fs.mkdir_recursive ws;;
                if negb (isValid (validateDockerfile rt text)) then
                  Open.createFallbackBuild rt exec text buildId rd
                else
                  assembleWorkspace ws text rd;;
                  _ ← Fs.readdir ws;
                  '(stdout, stderr) ← exec (buildCommandFor (imageName buildId))
                                         (buildOptions ws);
                  checkStderr stderr;;
                  '(imagesOutput, _) ← exec (imagesCommandFor (imageName buildId))
                                          noOptions;
                  (if negb (Str.truthy (Str.trim imagesOutput))
                   then throw (ErrorObj "Docker image was not created successfully")
                   else mret tt);;
                  Open.cleanupBuildDir rm ws;;
                  mret {| success := true; imageId := Some (imageName buildId);
                          error := None |})
               (λ e, mret {| success := false; imageId := None;
                             error := Some match e with
                                           | ErrorObj message => message
                                           | NonError => "Unknown Docker build error"
                                           end |}))
            (drew w)).
  { destruct Hrest as (Hd & Hs & Hf). split_and!; [exact Hd|exact (proj1 Hs)|exact (proj2 Hs)|].
    intros q HnQ Hws Hanc Hfb. apply Hf. unfold P, buildArea. tauto. }
  apply (footprint_try_catch P 2 0); [|intros; apply footprint_ret].
  apply (footprint_bind P 0 2).
  { apply footprint_mkdir. intros q Hq. rewrite ancestors_or_self_split in Hq. right.
    apply elem_of_app in Hq as [Hq| ->%list_elem_of_singleton]; [by right; left|by left]. }
  intros _ w1 _. destruct (isValid _); cbn [negb]; cycle 1.
  { apply footprint_createFallbackBuild; [done|]. right. by right; right. }
  apply (footprint_bind P 0 2); [by apply footprint_assembleWorkspace|]. intros _ w2 _.
  apply (footprint_bind P 0 2); [apply footprint_readdir|]. intros _ w3 _.
  apply (footprint_bind P 1 1); [apply Hexec|]. intros [stdout stderr] w4 _.
  apply (footprint_bind P 0 1).
  { unfold checkStderr. repeat case_match; apply footprint_ret || apply footprint_throw. }
  intros _ w5 _.
  apply (footprint_bind P 1 0); [apply Hexec|]. intros [imagesOutput ?] w6 _.
  apply (footprint_bind P 0 0).
  { destruct (Str.truthy _); cbn [negb]; [apply footprint_ret | apply footprint_throw]. }
  intros _ w7 _.
  apply (footprint_bind P 0 0); [|intros; apply footprint_ret].
  apply (footprint_try_catch P 0 0);
    [by apply footprint_removal|intros; apply footprint_ret].
Qed.



End OpenFacts.

Lemma buildImage_footprint_witness :
  let rt := Sample.runtime Sample.workspaceBuildTimesOut in
  let w' := (buildImage rt "FROM node:18" "b1" None (Sample.start Sample.disk_b1)).2 in
  drawn w' = 1 ∧ spawned w' ≤ 2 ∧ files w' !! ["app"; "temp"; "b1"] = Some Dir.
Proof.
  intros rt w'.
  destruct (buildImage_footprint rt (execAsync rt) Fs.rm_recursive_force (λ _, False)
              "FROM node:18" "b1" None (Sample.start Sample.disk_b1))
    as (Hdrawn & [_ Hspawned] & Hframe).
  - apply execAsync_processes.
  - apply rm_removal.
  - split_and!; [exact Hdrawn|exact Hspawned|].
    unfold w'.
    change (buildImage rt) with (Open.buildImage rt (execAsync rt) Fs.rm_recursive_force).
    rewrite Hframe; [reflexivity|tauto|..].
    + vm_compute. by intros (k & [=]).
    + vm_compute. intros H. repeat (apply elem_of_cons in H as [[=]|H]).
      by apply not_elem_of_nil in H.
    + vm_compute. by intros [=].
Defined.

